(** * Change-event pipeline of the SRE demo service

    A shallow embedding of the two programs that make up the pipeline:

    - the API process ([Api], from the backend server source), whose write
      handlers publish one change record per database mutation through
      [logDatabaseChange];
    - the worker process ([Consumer], from [consumer/consumer.js]), whose
      [DatabaseChangeProcessor] decorates and logs every record it receives.

    Around them: the token middleware and the read paths of the API
    ([Routes]), its start and stop ([Server]), the delivery of a published
    record to the worker ([Pipeline]) and the forms of the browser client
    ([Frontend]).

    JavaScript is embedded as follows.  Values are the inductive [JSValue];
    a Number is a rational, [NaN] or one of the two infinities, and the
    quotient and the product of two Numbers are rounded to binary64 as
    IEEE 754 rounds them ([-0] is identified with [0]); the conversion of a
    value to a primitive throws where JavaScript throws; an [async]
    function is a computation in the monad [M], which threads the process
    state and ends in a normal return, a thrown error or [process.exit];
    every [await] is sequential composition, so the order of effects in a
    trace is the order in which the awaited operations settle. *)

From Stdlib Require Import ZArith QArith Qabs Qround Qpower Lqa List Ascii String Lia.
From Stdlib Require Import DecimalString.
Import ListNotations.
Set Warnings "-register-all".
Local Open Scope Z_scope.
Local Open Scope string_scope.

(* ================================================================= *)
(** ** JavaScript values, numbers and errors *)

Module Js.

(** A Number: [Fin q] is a finite value. *)
Inductive number : Type :=
| NaN
| PosInf
| NegInf
| Fin (q : Q).

Definition num_of_Z (z : Z) : number := Fin (inject_Z z).

Definition Qsign_inf (q : Q) : number :=
  if Qlt_le_dec 0 q then PosInf
  else if Qlt_le_dec q 0 then NegInf else NaN.

Definition num_opp_inf (n : number) : number :=
  match n with PosInf => NegInf | NegInf => PosInf | other => other end.

(** The exponent of a positive rational: the [e] with
    [2 ^ e <= a < 2 ^ (e + 1)]. *)
Definition exponent (a : Q) : Z :=
  let e0 := (Z.log2 (Qnum a) - Z.log2 (Zpos (Qden a)))%Z in
  if Qle_bool (2 ^ e0) a then e0 else (e0 - 1)%Z.

(** The nearest integer, a half going to the even neighbour. *)
Definition round_half_even (q : Q) : Z :=
  let f := Qfloor q in
  match (q - inject_Z f ?= 1 # 2)%Q with
  | Lt => f
  | Gt => (f + 1)%Z
  | Eq => if Z.even f then f else (f + 1)%Z
  end.

(** The Number for the real [q]: the nearest value with a significand of
    53 bits, a tie going to the even significand; below [2 ^ -1022] the
    values are [2 ^ -1074] apart, and a result of [2 ^ 1024] or more is an
    infinity. *)
Definition binary64 (q : Q) : number :=
  if Qeq_bool q 0 then Fin 0
  else
    let a := Qabs q in
    let e := Z.max (exponent a) (-1022) in
    let ulp := (2 ^ (e - 52))%Q in
    let r := (inject_Z (round_half_even (a / ulp)) * ulp)%Q in
    if Qle_bool (2 ^ 1024) r
    then (if Qlt_le_dec 0 q then PosInf else NegInf)
    else Fin (Qred (if Qlt_le_dec 0 q then r else - r)).
Arguments binary64 : simpl never.

(** [x / y]. *)
Definition num_div (x y : number) : number :=
  match x, y with
  | NaN, _ | _, NaN => NaN
  | Fin a, Fin b =>
      if Qeq_bool b 0 then Qsign_inf a else binary64 (a / b)
  | Fin _, (PosInf | NegInf) => Fin 0
  | PosInf, Fin b => if Qlt_le_dec b 0 then NegInf else PosInf
  | NegInf, Fin b => if Qlt_le_dec b 0 then PosInf else NegInf
  | (PosInf | NegInf), (PosInf | NegInf) => NaN
  end.

(** [x * y]. *)
Definition num_mul (x y : number) : number :=
  match x, y with
  | NaN, _ | _, NaN => NaN
  | Fin a, Fin b => binary64 (a * b)
  | Fin a, PosInf | PosInf, Fin a => Qsign_inf a
  | Fin a, NegInf | NegInf, Fin a => num_opp_inf (Qsign_inf a)
  | PosInf, PosInf | NegInf, NegInf => PosInf
  | PosInf, NegInf | NegInf, PosInf => NegInf
  end.

(** [Math.round]: the nearest integer, ties towards plus infinity; the
    result is exact. *)
Definition Math_round (x : number) : number :=
  match x with
  | Fin q => num_of_Z (Qfloor (q + (1 # 2)))
  | other => other
  end.

(** [Math.max(x, y)]: [NaN] as soon as one argument is [NaN]. *)
Definition Math_max (x y : number) : number :=
  match x, y with
  | NaN, _ | _, NaN => NaN
  | PosInf, _ | _, PosInf => PosInf
  | NegInf, other | other, NegInf => other
  | Fin a, Fin b => if Qlt_le_dec a b then Fin b else Fin a
  end.

(** A [Date] object is its time value: milliseconds since the epoch, or
    [None] for an Invalid Date. *)
Definition Date := option Z.

(** [a - b] on two dates: both are converted to their time value. *)
Definition date_sub (a b : Date) : number :=
  match a, b with
  | Some x, Some y => num_of_Z (x - y)
  | _, _ => NaN
  end.

Inductive JSValue : Type :=
| JUndefined
| JNull
| JBool (b : bool)
| JNum (n : number)
| JStr (s : string)
| JArr (items : list JSValue)
| JObj (fields : list (string * JSValue)).

(** An [Error] object, as far as the programs look at it. *)
Record Error : Type := mkError {
  name : string;
  message : string;
  code : option string
}.

Definition TypeError (msg : string) : Error := mkError "TypeError" msg None.

(** [ToPrimitive] throws on the value.  The values are those of
    [JSON.parse], none of which is callable: an object with a property
    [toString] of its own hides [Object.prototype.toString] behind a value
    that cannot be called, and [valueOf] gives back the object, so that no
    method returns a primitive; an array is joined, which converts each of
    its elements but [null] to a string. *)
Fixpoint no_primitive (v : JSValue) : bool :=
  match v with
  | JObj fields => existsb (fun kv => String.eqb (fst kv) "toString") fields
  | JArr items => existsb no_primitive items
  | _ => false
  end.

Fixpoint assoc (k : string) (fields : list (string * JSValue)) : JSValue :=
  match fields with
  | [] => JUndefined
  | (k', v) :: rest => if String.eqb k k' then v else assoc k rest
  end.

(** [obj.k]: a [TypeError] on [null] and [undefined]. *)
Definition get_prop (obj : JSValue) (k : string) : JSValue + Error :=
  match obj with
  | JUndefined =>
      inr (TypeError ("Cannot read properties of undefined (reading '" ++ k ++ "')"))
  | JNull =>
      inr (TypeError ("Cannot read properties of null (reading '" ++ k ++ "')"))
  | JObj fields => inl (assoc k fields)
  | _ => inl JUndefined
  end.

(** [ToBoolean]. *)
Definition truthy (v : JSValue) : bool :=
  match v with
  | JUndefined | JNull => false
  | JBool b => b
  | JNum NaN => false
  | JNum (Fin q) => negb (Qeq_bool q 0)
  | JNum _ => true
  | JStr s => negb (String.eqb s EmptyString)
  | JArr _ | JObj _ => true
  end.

(** Decimal text of an integral Number, as a template literal prints it. *)
Definition Number_toString (z : Z) : string :=
  NilZero.string_of_int (Z.to_int z).

(** The functions of the platform that the programs call and that are
    not part of the repository. *)
Class Runtime : Type := {
  (** [JSON.parse(text)]: a value, or the [SyntaxError] it throws. *)
  JSON_parse : string -> JSValue + Error;
  (** [JSON.stringify(value)]. *)
  JSON_stringify : JSValue -> string;
  (** [buffer.toString()]: the bytes decoded as UTF-8. *)
  Buffer_toString : string -> string;
  (** The date that [new Date(value)] makes of a value that has a
      primitive. *)
  Date_of : JSValue -> Date;
  (** [date.toISOString()] of a valid time value. *)
  toISOString : Z -> string
}.

(** [new Date(value)]: the value is converted to a primitive first, which
    throws when it has none. *)
Definition new_Date_of `{Runtime} (value : JSValue) : Date + Error :=
  if no_primitive value
  then inr (TypeError "Cannot convert object to primitive value")
  else inl (Date_of value).

End Js.

(* ================================================================= *)
(** ** Computations: state, thrown errors and process exit *)

Module Eff.

Inductive Outcome (A : Type) : Type :=
| Return (a : A)
| Throw (e : Js.Error)
| Exit (exitCode : Z).
Arguments Return {A} a.
Arguments Throw {A} e.
Arguments Exit {A} exitCode.

Definition M (S A : Type) : Type := S -> S * Outcome A.

Section Ops.
Context {S : Type}.

Definition ret {A} (a : A) : M S A := fun s => (s, Return a).

Definition bind {A B} (m : M S A) (k : A -> M S B) : M S B :=
  fun s =>
    match m s with
    | (s', Return a) => k a s'
    | (s', Throw e) => (s', Throw e)
    | (s', Exit c) => (s', Exit c)
    end.

Definition throw {A} (e : Js.Error) : M S A := fun s => (s, Throw e).

(** [process.exit(code)]: nothing after it runs, and no [catch] sees it. *)
Definition process_exit {A} (c : Z) : M S A := fun s => (s, Exit c).

(** [try { body } catch (error) { handler }]. *)
Definition try_catch {A} (body : M S A) (handler : Js.Error -> M S A) : M S A :=
  fun s =>
    match body s with
    | (s', Throw e) => handler e s'
    | other => other
    end.

Definition gets {A} (f : S -> A) : M S A := fun s => (s, Return (f s)).
Definition modify (f : S -> S) : M S unit := fun s => (f s, Return tt).

(** The settled result of an awaited operation of the environment. *)
Definition settle {A} (r : A + Js.Error) : M S A :=
  match r with
  | inl a => ret a
  | inr e => throw e
  end.
End Ops.

Declare Scope eff_scope.
Delimit Scope eff_scope with eff.
Notation "x <- m ;; k" := (bind m (fun x => k))
  (at level 61, m at next level, right associativity) : eff_scope.
Notation "m ;; k" := (bind m (fun _ => k))
  (at level 61, right associativity) : eff_scope.

End Eff.

(* ================================================================= *)
(** ** The worker process: [consumer/consumer.js] *)

Module Consumer.
Import Js Eff.
Local Open Scope eff_scope.

(** The options given to [kafka.consumer]. *)
Record ConsumerConfig : Type := {
  groupId : string;
  sessionTimeout : Z;
  heartbeatInterval : Z
}.

Definition consumer : ConsumerConfig := {|
  groupId := "database-changes-group";
  sessionTimeout := 30000;
  heartbeatInterval := 3000
|}.

(** A message as the client hands it to [eachMessage]; [None] is a [null]
    key or value. *)
Record KafkaMessage : Type := {
  key : option string;
  value : option string;
  offset : string
}.

(** The object literal [processedChange]. *)
Record ProcessedChange : Type := {
  timestamp : string;
  originalTimestamp : JSValue;
  operation : JSValue;
  table : JSValue;
  data : JSValue;
  userId : JSValue;
  processedBy : string;
  processingLatency : number
}.

(** The object literal [stats]. *)
Record Stats : Type := {
  stats_timestamp : string;
  totalProcessed : Z;
  uptime : number;
  averageProcessingRate : number
}.

(** The object literal [messageInfo]. *)
Record MessageInfo : Type := {
  info_topic : string;
  info_partition : Z;
  info_offset : string;
  info_timestamp : string;
  info_key : option string
}.

Inductive Signal : Type := SIGINT | SIGTERM.

Definition signal_name (s : Signal) : string :=
  match s with SIGINT => "SIGINT" | SIGTERM => "SIGTERM" end.

Inductive Category : Type := consumer_log | database_log | kafka_log.
Inductive Level : Type := INFO | ERROR.

(** What the process does to the outside, in the order it does it.  A log
    call whose argument is a serialized object keeps the object; [render]
    gives the line. *)
Inductive Event : Type :=
| Logged (c : Category) (l : Level) (text : string)
| ProcessedChangeLogged (p : ProcessedChange)
| StatsLogged (s : Stats)
| ReceivedLogged (info : MessageInfo)
| ClientConnect (r : unit + Error)
| ClientSubscribe (topic : string) (r : unit + Error)
| ClientRun (r : unit + Error)
| ClientDisconnect (r : unit + Error)
| ServerClose.

(** The connection state of the Kafka client, under the names the
    specification gives to the states of the consumer loop. *)
Inductive ClientState : Type :=
| DISCONNECTED
| CONNECTING
| SUBSCRIBED
| RUNNING
| DISCONNECTING.

(** The fields of the one [DatabaseChangeProcessor] instance. *)
Record DatabaseChangeProcessor : Type := {
  processedCount : Z;
  startTime : Z
}.

Record World : Type := {
  reads : nat;                          (* clock reads made so far *)
  trace : list Event;                   (* oldest first *)
  processor : DatabaseChangeProcessor;
  client : ClientState;
  listening : bool;                     (* the health server *)
  resolved : list string                (* offsets handed back as processed *)
}.

Definition set_reads (f : nat -> nat) (w : World) : World :=
  {| reads := f (reads w); trace := trace w; processor := processor w;
     client := client w; listening := listening w; resolved := resolved w |}.

Definition set_trace (f : list Event -> list Event) (w : World) : World :=
  {| reads := reads w; trace := f (trace w); processor := processor w;
     client := client w; listening := listening w; resolved := resolved w |}.

Definition set_processor (f : DatabaseChangeProcessor -> DatabaseChangeProcessor)
    (w : World) : World :=
  {| reads := reads w; trace := trace w; processor := f (processor w);
     client := client w; listening := listening w; resolved := resolved w |}.

Definition set_client (c : ClientState) (w : World) : World :=
  {| reads := reads w; trace := trace w; processor := processor w;
     client := c; listening := listening w; resolved := resolved w |}.

Definition set_listening (b : bool) (w : World) : World :=
  {| reads := reads w; trace := trace w; processor := processor w;
     client := client w; listening := b; resolved := resolved w |}.

Definition set_resolved (f : list string -> list string) (w : World) : World :=
  {| reads := reads w; trace := trace w; processor := processor w;
     client := client w; listening := listening w; resolved := f (resolved w) |}.

Definition emit (e : Event) : M World unit :=
  modify (set_trace (fun t => (t ++ [e])%list)).

Definition processedChange_obj (p : ProcessedChange) : JSValue :=
  JObj [("timestamp", JStr (timestamp p));
        ("originalTimestamp", originalTimestamp p);
        ("operation", operation p);
        ("table", table p);
        ("data", data p);
        ("userId", userId p);
        ("processedBy", JStr (processedBy p));
        ("processingLatency", JNum (processingLatency p))].

Definition stats_obj (s : Stats) : JSValue :=
  JObj [("timestamp", JStr (stats_timestamp s));
        ("totalProcessed", JNum (num_of_Z (totalProcessed s)));
        ("uptime", JNum (uptime s));
        ("averageProcessingRate", JNum (averageProcessingRate s))].

Definition messageInfo_obj (info : MessageInfo) : JSValue :=
  JObj [("topic", JStr (info_topic info));
        ("partition", JNum (num_of_Z (info_partition info)));
        ("offset", JStr (info_offset info));
        ("timestamp", JStr (info_timestamp info));
        ("key", match info_key info with Some k => JStr k | None => JNull end)].

(** The line that a log event writes, with its logger and level. *)
Definition render `{Runtime} (e : Event) : option (Category * Level * string) :=
  match e with
  | Logged c l text => Some (c, l, text)
  | ProcessedChangeLogged p =>
      Some (database_log, INFO, JSON_stringify (processedChange_obj p))
  | StatsLogged s =>
      Some (consumer_log, INFO,
            "Processing statistics: " ++ JSON_stringify (stats_obj s))
  | ReceivedLogged info =>
      Some (kafka_log, INFO,
            "Received message: " ++ JSON_stringify (messageInfo_obj info))
  | _ => None
  end.

(** [message.value.toString()]. *)
Definition value_toString `{Runtime} (v : option string) : string + Error :=
  match v with
  | Some bytes => inl (Buffer_toString bytes)
  | None => inr (TypeError "Cannot read properties of null (reading 'toString')")
  end.

Section Processor.
Context {rt : Runtime}.
(** The wall clock: the time value returned by the [n]-th call of
    [new Date()] in the life of the process. *)
Variable clock : nat -> Z.

Definition new_Date : M World Z :=
  fun w => (set_reads S w, Return (clock (reads w))).

Definition new_DatabaseChangeProcessor : M World unit :=
  now <- new_Date ;;
  modify (set_processor (fun _ => {| processedCount := 0; startTime := now |})).

Definition calculateLatency (originalTimestamp : JSValue) : M World number :=
  now <- new_Date ;;
  original <- settle (new_Date_of originalTimestamp) ;;
  ret (Math_max (num_of_Z 0) (date_sub (Some now) original)).

Definition log_stats : M World unit :=
  t1 <- new_Date ;;
  count <- gets (fun w => processedCount (processor w)) ;;
  t2 <- new_Date ;;
  start2 <- gets (fun w => startTime (processor w)) ;;
  t3 <- new_Date ;;
  start3 <- gets (fun w => startTime (processor w)) ;;
  let stats := {|
    stats_timestamp := toISOString t1;
    totalProcessed := count;
    uptime := Math_round (num_div (date_sub (Some t2) (Some start2)) (num_of_Z 1000));
    averageProcessingRate :=
      num_div
        (Math_round
           (num_mul
              (num_div (num_of_Z count)
                 (num_div (num_div (date_sub (Some t3) (Some start3)) (num_of_Z 1000))
                    (num_of_Z 60)))
              (num_of_Z 100)))
        (num_of_Z 100)
  |} in
  emit (StatsLogged stats).

Definition processChange (message : KafkaMessage) : M World unit :=
  try_catch
    (text <- settle (value_toString (value message)) ;;
     changeData <- settle (JSON_parse text) ;;
     t <- new_Date ;;
     originalTimestamp' <- settle (get_prop changeData "timestamp") ;;
     operation' <- settle (get_prop changeData "operation") ;;
     table' <- settle (get_prop changeData "table") ;;
     data' <- settle (get_prop changeData "data") ;;
     userId' <- settle (get_prop changeData "userId") ;;
     ts <- settle (get_prop changeData "timestamp") ;;
     latency <- calculateLatency ts ;;
     let processedChange := {|
       timestamp := toISOString t;
       originalTimestamp := originalTimestamp';
       operation := operation';
       table := table';
       data := data';
       userId := userId';
       processedBy := "kafka-consumer";
       processingLatency := latency
     |} in
     emit (ProcessedChangeLogged processedChange) ;;
     modify (set_processor (fun p =>
       {| processedCount := processedCount p + 1; startTime := startTime p |})) ;;
     count <- gets (fun w => processedCount (processor w)) ;;
     if (Z.rem count 10 =? 0)%Z then log_stats else ret tt)
    (fun error =>
       emit (Logged consumer_log ERROR
               ("Error processing database change: " ++ Js.message error))).

End Processor.

Section Loop.
Context {rt : Runtime}.
Variable clock : nat -> Z.

(** The [eachMessage] handler given to [consumer.run]. *)
Definition eachMessage (topic : string) (partition : Z) (message : KafkaMessage)
    : M World unit :=
  t <- new_Date clock ;;
  let messageInfo := {|
    info_topic := topic;
    info_partition := partition;
    info_offset := offset message;
    info_timestamp := toISOString t;
    info_key := match key message with
                | Some k => Some (Buffer_toString k)
                | None => None
                end
  |} in
  emit (ReceivedLogged messageInfo) ;;
  processChange clock message.

(** Modelled from the spec: the fetch loop of the Kafka client, which is a
    dependency and not part of the repository.  For the messages of one
    partition, in offset order and while the client is [RUNNING]: the
    handler is awaited; when it returns, the offset of the message is handed
    back as processed and the next message is taken; when it throws, the
    offset is not handed back and the client leaves [RUNNING]. *)
Fixpoint runner (topic : string) (partition : Z) (batch : list KafkaMessage)
    : M World unit :=
  match batch with
  | [] => ret tt
  | message :: rest =>
      st <- gets client ;;
      match st with
      | RUNNING =>
          try_catch
            (eachMessage topic partition message ;;
             modify (set_resolved (fun r => (r ++ [offset message])%list)))
            (fun _ => modify (set_client DISCONNECTED)) ;;
          runner topic partition rest
      | _ => ret tt
      end
  end.

(** What the broker answers to [connect], [subscribe], [run] and
    [disconnect]. *)
Variables connect_result subscribe_result run_result disconnect_result
  : unit + Error.

Definition consumer_connect : M World unit :=
  modify (set_client CONNECTING) ;;
  emit (ClientConnect connect_result) ;;
  match connect_result with
  | inl _ => ret tt
  | inr e => modify (set_client DISCONNECTED) ;; throw e
  end.

Definition consumer_subscribe (topic : string) : M World unit :=
  emit (ClientSubscribe topic subscribe_result) ;;
  match subscribe_result with
  | inl _ => modify (set_client SUBSCRIBED)
  | inr e => throw e
  end.

Definition consumer_run : M World unit :=
  emit (ClientRun run_result) ;;
  match run_result with
  | inl _ => modify (set_client RUNNING)
  | inr e => throw e
  end.

Definition consumer_disconnect : M World unit :=
  modify (set_client DISCONNECTING) ;;
  emit (ClientDisconnect disconnect_result) ;;
  match disconnect_result with
  | inl _ => modify (set_client DISCONNECTED)
  | inr e => throw e
  end.

Definition server_close : M World unit :=
  modify (set_listening false) ;;
  emit ServerClose.

Definition runConsumer : M World unit :=
  new_DatabaseChangeProcessor clock ;;
  try_catch
    (consumer_connect ;;
     emit (Logged kafka_log INFO "Consumer connected to Kafka") ;;
     consumer_subscribe "database-changes" ;;
     emit (Logged kafka_log INFO "Subscribed to database-changes topic") ;;
     consumer_run ;;
     emit (Logged consumer_log INFO
             "Kafka consumer is running and waiting for messages..."))
    (fun error =>
       emit (Logged consumer_log ERROR ("Consumer error: " ++ Js.message error)) ;;
       process_exit 1).

Definition gracefulShutdown (signal : Signal) : M World unit :=
  emit (Logged consumer_log INFO
          ("Received " ++ signal_name signal ++ ", shutting down gracefully...")) ;;
  try_catch
    (consumer_disconnect ;;
     server_close ;;
     emit (Logged consumer_log INFO "Consumer disconnected successfully") ;;
     process_exit 0)
    (fun error =>
       emit (Logged consumer_log ERROR
               ("Error during shutdown: " ++ Js.message error)) ;;
       process_exit 1).

End Loop.

(** The events of [w'] that [w] did not have yet. *)
Definition since (w w' : World) : list Event :=
  skipn (List.length (trace w)) (trace w').

(** The processed change records logged, in order. *)
Fixpoint processed (tr : list Event) : list ProcessedChange :=
  match tr with
  | [] => []
  | ProcessedChangeLogged p :: rest => p :: processed rest
  | _ :: rest => processed rest
  end.

(** The statistics snapshots logged, in order. *)
Fixpoint snapshots (tr : list Event) : list Stats :=
  match tr with
  | [] => []
  | StatsLogged s :: rest => s :: snapshots rest
  | _ :: rest => snapshots rest
  end.

(** The messages handed to [eachMessage], in order. *)
Fixpoint received (tr : list Event) : list MessageInfo :=
  match tr with
  | [] => []
  | ReceivedLogged info :: rest => info :: received rest
  | _ :: rest => received rest
  end.

(** A value whose properties can be read. *)
Definition readable (v : JSValue) : bool :=
  match v with
  | JUndefined | JNull => false
  | _ => true
  end.

(** The property [k] of a readable value. *)
Definition field (v : JSValue) (k : string) : JSValue :=
  match v with
  | JObj fields => assoc k fields
  | _ => JUndefined
  end.

(** The fields that [processChange] copies or fixes, without the two that
    depend on the clock. *)
Definition core (p : ProcessedChange)
    : JSValue * JSValue * JSValue * JSValue * JSValue * string :=
  (originalTimestamp p, operation p, table p, data p, userId p, processedBy p).

Section Expected.
Context {rt : Runtime}.
Variable clock : nat -> Z.

(** The record that [processChange] logs for [changeData] from [w], when
    it logs one. *)
Definition decorated (w : World) (changeData : JSValue) : ProcessedChange := {|
  timestamp := toISOString (clock (reads w));
  originalTimestamp := field changeData "timestamp";
  operation := field changeData "operation";
  table := field changeData "table";
  data := field changeData "data";
  userId := field changeData "userId";
  processedBy := "kafka-consumer";
  processingLatency :=
    Math_max (num_of_Z 0)
      (date_sub (Some (clock (S (reads w)))) (Date_of (field changeData "timestamp")))
|}.

(** The snapshot that [log_stats] logs when it starts at clock read [r]. *)
Definition snapshot (r : nat) (p : DatabaseChangeProcessor) : Stats := {|
  stats_timestamp := toISOString (clock r);
  totalProcessed := processedCount p;
  uptime :=
    Math_round (num_div (num_of_Z (clock (S r) - startTime p)) (num_of_Z 1000));
  averageProcessingRate :=
    num_div
      (Math_round
         (num_mul
            (num_div (num_of_Z (processedCount p))
               (num_div
                  (num_div (num_of_Z (clock (S (S r)) - startTime p)) (num_of_Z 1000))
                  (num_of_Z 60)))
            (num_of_Z 100)))
      (num_of_Z 100)
|}.

Definition counted (p : DatabaseChangeProcessor) : DatabaseChangeProcessor :=
  {| processedCount := processedCount p + 1; startTime := startTime p |}.

(** The error that the body of [processChange] throws on [message], if it
    throws one. *)
Definition failure (message : KafkaMessage) : option Error :=
  match value_toString (value message) with
  | inr e => Some e
  | inl text =>
      match JSON_parse text with
      | inr e => Some e
      | inl changeData =>
          match get_prop changeData "timestamp" with
          | inr e => Some e
          | inl originalTimestamp =>
              match new_Date_of originalTimestamp with
              | inr e => Some e
              | inl _ => None
              end
          end
      end
  end.

(** The clock reads that the body of [processChange] makes before it
    throws: none before the text is parsed, one before a property of the
    parsed value is read, two before the timestamp is made a date. *)
Definition reads_before_failure (message : KafkaMessage) : nat :=
  match value_toString (value message) with
  | inr _ => 0
  | inl text =>
      match JSON_parse text with
      | inr _ => 0
      | inl changeData =>
          match get_prop changeData "timestamp" with
          | inr _ => 1
          | inl _ => 2
          end
      end
  end.

(** The messages of a batch on which the body of [processChange] does not
    throw. *)
Definition accepted (batch : list KafkaMessage) : list KafkaMessage :=
  filter (fun m => match failure m with None => true | Some _ => false end) batch.

(** The error lines that a batch is expected to leave, one for each message
    on which the body throws. *)
Definition rejections (batch : list KafkaMessage) : list string :=
  flat_map
    (fun m =>
       match failure m with
       | Some e => ["Error processing database change: " ++ Js.message e]
       | None => []
       end)
    batch.

(** The object [messageInfo] that [eachMessage] logs for [message] from [w]. *)
Definition received_info (topic : string) (partition : Z) (message : KafkaMessage)
    (w : World) : MessageInfo := {|
  info_topic := topic;
  info_partition := partition;
  info_offset := offset message;
  info_timestamp := toISOString (clock (reads w));
  info_key := match key message with
              | Some k => Some (Buffer_toString k)
              | None => None
              end
|}.

(** The world after the client has awaited [eachMessage] on [message] and
    handed its offset back. *)
Definition after_message (topic : string) (partition : Z) (message : KafkaMessage)
    (w : World) : World :=
  set_resolved (fun r => (r ++ [offset message])%list)
    (fst (eachMessage clock topic partition message w)).

End Expected.

(** The values of a counter that goes from [c + 1] to [c + n] at which a
    snapshot is due. *)
Definition due_counts (c : Z) (n : nat) : list Z :=
  filter (fun k => (Z.rem k 10 =? 0)%Z) (map (fun i => (c + Z.of_nat i)%Z) (seq 1 n)).

(** The lines of [logger.error], in order. *)
Fixpoint error_lines (tr : list Event) : list string :=
  match tr with
  | [] => []
  | Logged consumer_log ERROR text :: rest => text :: error_lines rest
  | _ :: rest => error_lines rest
  end.

(** [r] is [x] rounded to an integer as [Math.round] rounds: to the
    nearest, a half upwards; an infinity and [NaN] are kept. *)
Definition rounded (x r : number) : Prop :=
  match x with
  | Fin v =>
      exists k : Z,
        r = num_of_Z k /\
        (inject_Z k - (1 # 2) <= v)%Q /\ (v < inject_Z k + (1 # 2))%Q
  | other => r = other
  end.

(** The seconds in [elapsed] milliseconds, as a Number. *)
Definition seconds (elapsed : Z) : number :=
  num_div (num_of_Z elapsed) (num_of_Z 1000).

(** [count] records in [elapsed] milliseconds, in records per minute:
    the Number that [count / (elapsed / 1000 / 60)] evaluates to. *)
Definition per_minute (count elapsed : Z) : number :=
  num_div (num_of_Z count) (num_div (seconds elapsed) (num_of_Z 60)).

(** [n] is [elapsed] milliseconds in whole seconds, to the nearest, a half
    going upwards. *)
Definition nearest_second (elapsed : Z) (n : number) : Prop :=
  exists u : Z,
    n = num_of_Z u /\ (1000 * u - 500 <= elapsed < 1000 * u + 500)%Z.

(** [n] is a number of hundredths, the Number for [k / 100], and [k] is
    within one half of the hundredths of the exact rate
    [count / (elapsed / 1000 / 60)], up to a relative error of [2 ^ -50]. *)
Definition close_to_rate (count elapsed : Z) (n : number) : Prop :=
  let exact :=
    (inject_Z 100 * (inject_Z count / (inject_Z elapsed / inject_Z 1000 / inject_Z 60)))%Q in
  exists k : Z,
    n = binary64 (inject_Z k / inject_Z 100) /\
    (exact - exact * (1 # 1125899906842624) - (1 # 2) < inject_Z k)%Q /\
    (inject_Z k <= exact + exact * (1 # 1125899906842624) + (1 # 2))%Q.

(** What the snapshot logged from clock read [r] reports when the counter
    is [count], for a processor started at [start]: the counter; the seconds
    of uptime at the next clock read, rounded to an integer; and the rate
    per minute at the clock read after that, in hundredths rounded to an
    integer and divided by 100.  For an elapsed time and a counter that are
    positive and below [2 ^ 53], the uptime is the elapsed time to the
    nearest second and the rate is close to the exact one. *)
Definition snapshot_reports (clock : nat -> Z) (start count : Z) (r : nat) (s : Stats)
    : Prop :=
  totalProcessed s = count /\
  rounded (seconds (clock (S r) - start)) (uptime s) /\
  (exists hundredths : number,
     rounded (num_mul (per_minute count (clock (S (S r)) - start)) (num_of_Z 100))
       hundredths /\
     averageProcessingRate s = num_div hundredths (num_of_Z 100)) /\
  ((0 <= clock (S r) - start < 2 ^ 53)%Z ->
   nearest_second (clock (S r) - start) (uptime s)) /\
  ((1 <= count < 2 ^ 53)%Z ->
   (1 <= clock (S (S r)) - start < 2 ^ 53)%Z ->
   close_to_rate count (clock (S (S r)) - start) (averageProcessingRate s)).

(** [n] is the Number for [exact] rounded to two decimal places, a half
    upwards: the rate that the quotient of the specification would give. *)
Definition two_decimals (exact : Q) (n : number) : Prop :=
  exists k : Z,
    n = binary64 (inject_Z k / inject_Z 100) /\
    (exact - (1 # 200) < inject_Z k / inject_Z 100)%Q /\
    (inject_Z k / inject_Z 100 <= exact + (1 # 200))%Q.

(** One call of [processChange] on [message] from [w]: the counter moves
    by one exactly when the body does not throw, and a snapshot is logged
    exactly when the new value [c'] of the counter is a multiple of 10; the
    snapshot reports [c'], and its clock reads are the three that follow
    the two of the record. *)
Definition snapshot_when_due `{Runtime} (clock : nat -> Z) (message : KafkaMessage)
    (w : World) : Prop :=
  let w' := fst (processChange clock message w) in
  let c' := processedCount (processor w') in
  match failure message with
  | Some _ => c' = processedCount (processor w) /\ snapshots (since w w') = []
  | None =>
      c' = (processedCount (processor w) + 1)%Z /\
      if (Z.rem c' 10 =? 0)%Z
      then exists s,
             snapshots (since w w') = [s] /\
             snapshot_reports clock (startTime (processor w)) c' (2 + reads w) s
      else snapshots (since w w') = []
  end.

(** The process once the module has been loaded: the health server listens
    and the client is not connected yet. *)
Definition boot : World := {|
  reads := 0;
  trace := [];
  processor := {| processedCount := 0; startTime := 0 |};
  client := DISCONNECTED;
  listening := true;
  resolved := []
|}.

End Consumer.

(* ================================================================= *)
(** ** The API process: the write handlers and [logDatabaseChange] *)

Module Api.
Import Js Eff.
Local Open Scope eff_scope.

(** One entry of [messages] in [producer.send]. *)
Record KafkaRecord : Type := {
  key : string;
  value : string
}.

(** The argument of [producer.send]. *)
Record SendRequest : Type := {
  topic : string;
  messages : list KafkaRecord
}.

(** The object literal [changeLog]. *)
Record ChangeLog : Type := {
  timestamp : string;
  operation : string;
  table : string;
  data : JSValue;
  userId : JSValue
}.

Definition changeLog_obj (c : ChangeLog) : JSValue :=
  JObj [("timestamp", JStr (timestamp c));
        ("operation", JStr (operation c));
        ("table", JStr (table c));
        ("data", data c);
        ("userId", userId c)].

(** What [db.execute] resolves to, first component: the header of a write
    or the rows of a [SELECT]. *)
Inductive DbResult : Type :=
| ResultSetHeader (insertId : Z)
| Rows (rows : list JSValue).

(** [result.insertId]. *)
Definition insertId (r : DbResult) : JSValue :=
  match r with
  | ResultSetHeader i => JNum (num_of_Z i)
  | Rows _ => JUndefined
  end.

(** [rows.length === 0]. *)
Definition no_rows (r : DbResult) : bool :=
  match r with
  | Rows [] => true
  | _ => false
  end.

(** [rows[0]]. *)
Definition first_row (r : DbResult) : JSValue :=
  match r with
  | Rows (row :: _) => row
  | _ => JUndefined
  end.

(** [res.status(status).json(json)]. *)
Record Response : Type := {
  status : Z;
  json : JSValue
}.

(** The request as the handlers read it.  [req_body] holds the fields of
    [req.body], which the body parsers always set to an object;
    [req_userId] is [req.user.userId], set by [authenticateToken]. *)
Record Request : Type := {
  req_body : list (string * JSValue);
  req_ip : JSValue;
  req_remoteAddress : JSValue;
  req_userId : JSValue
}.

Inductive Event : Type :=
| DbExecute (sql : string) (params : list JSValue) (r : DbResult + Error)
| ProducerSend (request : SendRequest) (r : unit + Error)
| LoggerInfo (text : string) (arg : JSValue)
| LoggerError (text : string) (error : Error)
| Respond (response : Response).

Record World : Type := {
  reads : nat;             (* clock reads made so far *)
  trace : list Event       (* oldest first *)
}.

(** What the collaborators of the process answer. *)
Record Env : Type := {
  clock : nat -> Z;
  bcrypt_hash : JSValue -> Z -> string + Error;
  bcrypt_compare : JSValue -> JSValue -> bool + Error;
  jwt_sign : JSValue -> string;
  db : string -> list JSValue -> DbResult + Error;
  broker : SendRequest -> unit + Error
}.

Definition with_broker (env : Env) (b : SendRequest -> unit + Error) : Env := {|
  clock := clock env;
  bcrypt_hash := bcrypt_hash env;
  bcrypt_compare := bcrypt_compare env;
  jwt_sign := jwt_sign env;
  db := db env;
  broker := b
|}.

Definition emit (e : Event) : M World unit :=
  modify (fun w => {| reads := reads w; trace := (trace w ++ [e])%list |}).

(** [a || b]. *)
Definition js_or (a b : JSValue) : JSValue := if truthy a then a else b.

Section Handlers.
Context {rt : Runtime}.
Variable env : Env.

(** [new Date()] and [Date.now()] read the same clock. *)
Definition new_Date : M World Z :=
  fun w => ({| reads := S (reads w); trace := trace w |}, Return (clock env (reads w))).

Definition Date_now : M World Z := new_Date.

(** [await db.execute(sql, params)], first component of the result. *)
Definition db_execute (sql : string) (params : list JSValue) : M World DbResult :=
  emit (DbExecute sql params (db env sql params)) ;;
  settle (db env sql params).

(** [await producer.send(request)]. *)
Definition producer_send (request : SendRequest) : M World unit :=
  emit (ProducerSend request (broker env request)) ;;
  settle (broker env request).

Definition respond (code : Z) (body : JSValue) : M World unit :=
  emit (Respond {| status := code; json := body |}).

(** [userId = null] in the parameter list: the default replaces an absent
    or [undefined] argument. *)
Definition logDatabaseChange (operation table : string) (data userId : JSValue)
    : M World unit :=
  let userId := match userId with JUndefined => JNull | given => given end in
  t <- new_Date ;;
  let changeLog := {|
    timestamp := toISOString t;
    operation := operation;
    table := table;
    data := data;
    userId := userId
  |} in
  try_catch
    (now <- Date_now ;;
     producer_send {|
       topic := "database-changes";
       messages := [{| key := table ++ "-" ++ Number_toString now;
                       value := JSON_stringify (changeLog_obj changeLog) |}]
     |} ;;
     emit (LoggerInfo "Database change logged:" (changeLog_obj changeLog)))
    (fun error =>
       emit (LoggerError "Failed to log database change to Kafka:" error)).

Definition error_json (text : string) : JSValue := JObj [("error", JStr text)].

(** [app.post('/api/register', ...)]. *)
Definition register (req : Request) : M World unit :=
  let username := assoc "username" (req_body req) in
  let email := assoc "email" (req_body req) in
  let password := assoc "password" (req_body req) in
  if negb (truthy username) || negb (truthy email) || negb (truthy password) then
    respond 400 (error_json "All fields are required")
  else
    try_catch
      (hashedPassword <- settle (bcrypt_hash env password 10) ;;
       result <- db_execute
         "INSERT INTO users (username, email, password) VALUES (?, ?, ?)"
         [username; email; JStr hashedPassword] ;;
       logDatabaseChange "INSERT" "users"
         (JObj [("id", insertId result); ("username", username); ("email", email)])
         JUndefined ;;
       respond 201
         (JObj [("message", JStr "User registered successfully");
                ("userId", insertId result)]))
      (fun error =>
         emit (LoggerError "Registration error:" error) ;;
         match code error with
         | Some c =>
             if String.eqb c "ER_DUP_ENTRY" then
               respond 400 (error_json "Username or email already exists")
             else respond 500 (error_json "Internal server error")
         | None => respond 500 (error_json "Internal server error")
         end).

(** [app.post('/api/login', ...)]. *)
Definition login (req : Request) : M World unit :=
  let username := assoc "username" (req_body req) in
  let password := assoc "password" (req_body req) in
  let clientIP := js_or (req_ip req) (req_remoteAddress req) in
  if negb (truthy username) || negb (truthy password) then
    respond 400 (error_json "Username and password are required")
  else
    try_catch
      (rows <- db_execute "SELECT * FROM users WHERE username = ? OR email = ?"
                 [username; username] ;;
       if no_rows rows then respond 401 (error_json "Invalid credentials")
       else
         let user := first_row rows in
         user_password <- settle (get_prop user "password") ;;
         validPassword <- settle (bcrypt_compare env password user_password) ;;
         if negb validPassword then respond 401 (error_json "Invalid credentials")
         else
           user_id <- settle (get_prop user "id") ;;
           user_username <- settle (get_prop user "username") ;;
           let token :=
             jwt_sign env (JObj [("userId", user_id); ("username", user_username)]) in
           db_execute "UPDATE users SET token = ? WHERE id = ?"
             [JStr token; user_id] ;;
           t <- new_Date ;;
           let activityLog :=
             JObj [("timestamp", JStr (toISOString t));
                   ("userId", user_id);
                   ("action", JStr "LOGIN");
                   ("ipAddress", clientIP)] in
           emit (LoggerInfo "User activity:" activityLog) ;;
           db_execute
             "INSERT INTO user_activity (user_id, action, ip_address) VALUES (?, ?, ?)"
             [user_id; JStr "LOGIN"; clientIP] ;;
           logDatabaseChange "INSERT" "user_activity" activityLog user_id ;;
           user_email <- settle (get_prop user "email") ;;
           respond 200
             (JObj [("message", JStr "Login successful");
                    ("token", JStr token);
                    ("user", JObj [("id", user_id);
                                   ("username", user_username);
                                   ("email", user_email)])]))
      (fun error =>
         emit (LoggerError "Login error:" error) ;;
         respond 500 (error_json "Internal server error")).

(** [app.post('/api/logout', authenticateToken, ...)], the handler after
    the middleware has accepted the token. *)
Definition logout (req : Request) : M World unit :=
  try_catch
    (db_execute "UPDATE users SET token = NULL WHERE id = ?" [req_userId req] ;;
     t <- new_Date ;;
     let activityLog :=
       JObj [("timestamp", JStr (toISOString t));
             ("userId", req_userId req);
             ("action", JStr "LOGOUT");
             ("ipAddress", js_or (req_ip req) (req_remoteAddress req))] in
     emit (LoggerInfo "User activity:" activityLog) ;;
     db_execute
       "INSERT INTO user_activity (user_id, action, ip_address) VALUES (?, ?, ?)"
       [req_userId req; JStr "LOGOUT"; js_or (req_ip req) (req_remoteAddress req)] ;;
     logDatabaseChange "UPDATE" "users"
       (JObj [("id", req_userId req); ("token", JNull)]) (req_userId req) ;;
     respond 200 (JObj [("message", JStr "Logout successful")]))
    (fun error =>
       emit (LoggerError "Logout error:" error) ;;
       respond 500 (error_json "Internal server error")).

(** The three write paths. *)
Inductive WritePath : Type := Register | Login | Logout.

Definition handle (p : WritePath) : Request -> M World unit :=
  match p with
  | Register => register
  | Login => login
  | Logout => logout
  end.

End Handlers.

(** The events of [w'] that [w] did not have yet. *)
Definition since (w w' : World) : list Event :=
  skipn (List.length (trace w)) (trace w').

Section Published.
Context {rt : Runtime}.
Variable env : Env.

(** The [changeLog] that [logDatabaseChange] builds when it starts at clock
    read [r]. *)
Definition captured (r : nat) (operation table : string) (data userId : JSValue)
    : ChangeLog := {|
  timestamp := toISOString (clock env r);
  operation := operation;
  table := table;
  data := data;
  userId := match userId with JUndefined => JNull | given => given end
|}.

(** The request that [logDatabaseChange] sends for [c] when [Date.now()]
    returns [now]. *)
Definition publish_request (c : ChangeLog) (now : Z) : SendRequest := {|
  topic := "database-changes";
  messages := [{| key := table c ++ "-" ++ Number_toString now;
                  value := JSON_stringify (changeLog_obj c) |}]
|}.

(** The line that [logDatabaseChange] logs once the send has settled. *)
Definition publish_log (c : ChangeLog) (r : unit + Error) : Event :=
  match r with
  | inl _ => LoggerInfo "Database change logged:" (changeLog_obj c)
  | inr e => LoggerError "Failed to log database change to Kafka:" e
  end.

(** What a write path leaves once it has called [logDatabaseChange] at
    clock read [r] and answered with [resp]: the settled send, the line
    about its outcome, and only then the response. *)
Definition published (r : nat) (operation table : string) (data userId : JSValue)
    (resp : Response) : list Event :=
  let c := captured r operation table data userId in
  let request := publish_request c (clock env (S r)) in
  [ProducerSend request (broker env request);
   publish_log c (broker env request);
   Respond resp].

End Published.

(** The requests sent to the broker, in order. *)
Fixpoint sends (tr : list Event) : list SendRequest :=
  match tr with
  | [] => []
  | ProducerSend request _ :: rest => request :: sends rest
  | _ :: rest => sends rest
  end.

(** The HTTP responses written, in order. *)
Fixpoint responses (tr : list Event) : list Response :=
  match tr with
  | [] => []
  | Respond r :: rest => r :: responses rest
  | _ :: rest => responses rest
  end.

(** Events among which nothing is sent and nothing is answered. *)
Definition silent (pre : list Event) : Prop :=
  sends pre = [] /\ responses pre = [].

(** The events up to the first response, without it. *)
Fixpoint until_response (tr : list Event) : list Event :=
  match tr with
  | [] => []
  | Respond _ :: _ => []
  | e :: rest => e :: until_response rest
  end.

(** The publish does not block the write path: when the response is
    written no send has been waited for. *)
Definition responds_without_waiting (evs : list Event) : Prop :=
  sends (until_response evs) = [].

(** The write path waits for the publish: every send has settled when the
    response is written. *)
Definition responds_after_publish (evs : list Event) : Prop :=
  sends (until_response evs) = sends evs.

End Api.

(* ================================================================= *)
(** ** The API process: authentication and the read paths *)

Module Routes.
Import Js Eff Api.
Local Open Scope eff_scope.

(** [s.split(' ')]: the pieces of [s] between single spaces; an empty
    string gives one empty piece. *)
Fixpoint split_space (s : string) : list string :=
  match s with
  | EmptyString => [EmptyString]
  | String c rest =>
      if Ascii.eqb c " "%char then EmptyString :: split_space rest
      else match split_space rest with
           | piece :: pieces => String c piece :: pieces
           | [] => [String c EmptyString]
           end
  end.

(** [authHeader && authHeader.split(' ')[1]], where [authHeader] is
    [req.headers['authorization']] and [None] is an absent header. *)
Definition bearer_token (authHeader : option string) : JSValue :=
  match authHeader with
  | None => JUndefined
  | Some header =>
      if truthy (JStr header) then
        match nth_error (split_space header) 1 with
        | Some piece => JStr piece
        | None => JUndefined
        end
      else JStr header
  end.

(** The header that the browser client sets after a login:
    [`Bearer ${token}`]. *)
Definition authorization_header (token : string) : string := "Bearer " ++ token.

(** A request with [req.user] set to the decoded token, of which the
    handlers read [userId]. *)
Definition with_user (req : Request) (userId : JSValue) : Request := {|
  req_body := req_body req;
  req_ip := req_ip req;
  req_remoteAddress := req_remoteAddress req;
  req_userId := userId
|}.

(** The statements sent to the database, in order. *)
Fixpoint statements (tr : list Event) : list string :=
  match tr with
  | [] => []
  | DbExecute sql _ _ :: rest => sql :: statements rest
  | _ :: rest => statements rest
  end.

Section Middleware.
Context {rt : Runtime}.
Variable env : Env.
(** [jwt.verify(token, secret)]: the decoded payload, or the error thrown
    for a token that is malformed, forged or expired. *)
Variable jwt_verify : JSValue -> JSValue + Error.

(** The middleware [authenticateToken].  [Some req'] is a call of [next()]
    with [req.user] set; [None] is a return without it. *)
Definition authenticateToken (authHeader : option string) (req : Request)
    : M World (option Request) :=
  let token := bearer_token authHeader in
  if negb (truthy token) then
    respond 401 (error_json "Access token required") ;;
    ret None
  else
    try_catch
      (decoded <- settle (jwt_verify token) ;;
       decoded_userId <- settle (get_prop decoded "userId") ;;
       rows <- db_execute env "SELECT * FROM users WHERE id = ? AND token = ?"
                 [decoded_userId; token] ;;
       if no_rows rows then
         respond 403 (error_json "Invalid token") ;;
         ret None
       else ret (Some (with_user req decoded_userId)))
      (fun error =>
         emit (LoggerError "Token verification failed:" error) ;;
         respond 403 (error_json "Invalid token") ;;
         ret None).

(** A route registered as [app.post(path, authenticateToken, handler)]. *)
Definition guarded (handler : Request -> M World unit) (authHeader : option string)
    (req : Request) : M World unit :=
  passed <- authenticateToken authHeader req ;;
  match passed with
  | Some req' => handler req'
  | None => ret tt
  end.

(** [app.get('/api/profile', authenticateToken, ...)], the handler. *)
Definition profile (req : Request) : M World unit :=
  try_catch
    (rows <- db_execute env
               "SELECT id, username, email, created_at FROM users WHERE id = ?"
               [req_userId req] ;;
     if no_rows rows then respond 404 (error_json "User not found")
     else respond 200 (JObj [("user", first_row rows)]))
    (fun error =>
       emit (LoggerError "Profile fetch error:" error) ;;
       respond 500 (error_json "Internal server error")).

(** [app.get('/api/health', ...)]. *)
Definition health : M World unit :=
  t <- new_Date env ;;
  respond 200
    (JObj [("status", JStr "OK");
           ("timestamp", JStr (toISOString t));
           ("service", JStr "backend-api")]).

Definition logout_route : option string -> Request -> M World unit :=
  guarded (logout env).

Definition profile_route : option string -> Request -> M World unit :=
  guarded profile.

End Middleware.

(** The status codes of the responses written, in order. *)
Definition statuses (tr : list Event) : list Z := map status (responses tr).

(** [s] contains no space. *)
Fixpoint spaceless (s : string) : bool :=
  match s with
  | EmptyString => true
  | String c rest => negb (Ascii.eqb c " "%char) && spaceless rest
  end.

(** The errors with which database statements have failed, in order. *)
Fixpoint db_errors (tr : list Event) : list Error :=
  match tr with
  | [] => []
  | DbExecute _ _ (inr e) :: rest => e :: db_errors rest
  | _ :: rest => db_errors rest
  end.

End Routes.

(* ================================================================= *)
(** ** The API process: start and stop *)

Module Server.
Import Js Eff.
Local Open Scope eff_scope.

Definition createUsersTable : string := "
    CREATE TABLE IF NOT EXISTS users (
      id INT AUTO_INCREMENT PRIMARY KEY,
      username VARCHAR(255) UNIQUE NOT NULL,
      email VARCHAR(255) UNIQUE NOT NULL,
      password VARCHAR(255) NOT NULL,
      token VARCHAR(500),
      created_at TIMESTAMP DEFAULT CURRENT_TIMESTAMP,
      updated_at TIMESTAMP DEFAULT CURRENT_TIMESTAMP ON UPDATE CURRENT_TIMESTAMP
    )
  ".

Definition createUserActivityTable : string := "
    CREATE TABLE IF NOT EXISTS user_activity (
      id INT AUTO_INCREMENT PRIMARY KEY,
      user_id INT,
      action VARCHAR(255) NOT NULL,
      ip_address VARCHAR(45),
      timestamp TIMESTAMP DEFAULT CURRENT_TIMESTAMP,
      FOREIGN KEY (user_id) REFERENCES users(id)
    )
  ".

Inductive Event : Type :=
| CreateConnection (r : unit + Error)
| TempExecute (sql : string) (r : unit + Error)
| TempEnd (r : unit + Error)
| CreatePool (r : unit + Error)
| PoolExecute (sql : string) (params : list JSValue) (r : Api.DbResult + Error)
| PoolEnd (r : unit + Error)
| ProducerConnect (r : unit + Error)
| ProducerDisconnect (r : unit + Error)
| Listen (port : Z)
| LoggerInfo (text : string)
| LoggerError (text : string) (error : Error).

Record World : Type := {
  trace : list Event;      (* oldest first *)
  db : bool                (* the variable [db] holds the pool *)
}.

(** What the collaborators answer while the process starts and stops.  The
    pool and the hashing are those of the request handlers. *)
Record Env : Type := {
  api : Api.Env;
  createConnection : unit + Error;
  temp_execute : string -> unit + Error;
  temp_end : unit + Error;
  createPool : unit + Error;
  pool_end : unit + Error;
  producer_connect : unit + Error;
  producer_disconnect : unit + Error;
  PORT : Z
}.

Definition emit (e : Event) : M World unit :=
  modify (fun w => {| trace := (trace w ++ [e])%list; db := db w |}).

(** An awaited call of a collaborator: the call is recorded, then its
    result is returned or thrown. *)
Definition call {A} (record : A + Error -> Event) (r : A + Error) : M World A :=
  emit (record r) ;;
  settle r.

Section Lifecycle.
Variable env : Env.

(** [await db.execute(sql, params)] on the pool. *)
Definition db_execute (sql : string) (params : list JSValue) : M World Api.DbResult :=
  call (PoolExecute sql params) (Api.db (api env) sql params).

Definition createTables : M World unit :=
  try_catch
    (db_execute createUsersTable [] ;;
     db_execute createUserActivityTable [] ;;
     emit (LoggerInfo "Tables created successfully"))
    (fun error => emit (LoggerError "Error creating tables:" error)).

Definition createDefaultUser : M World unit :=
  try_catch
    (rows <- db_execute "SELECT * FROM users WHERE username = ?" [JStr "admin"] ;;
     if Api.no_rows rows then
       hashedPassword <- settle (Api.bcrypt_hash (api env) (JStr "admin123") 10) ;;
       db_execute "INSERT INTO users (username, email, password) VALUES (?, ?, ?)"
         [JStr "admin"; JStr "admin@example.com"; JStr hashedPassword] ;;
       emit (LoggerInfo "Default user created: admin / admin123")
     else ret tt)
    (fun error => emit (LoggerError "Error creating default user:" error)).

Definition initializeDatabase : M World unit :=
  try_catch
    (call CreateConnection (createConnection env) ;;
     call (TempExecute "CREATE DATABASE IF NOT EXISTS helfy_db")
       (temp_execute env "CREATE DATABASE IF NOT EXISTS helfy_db") ;;
     call TempEnd (temp_end env) ;;
     call CreatePool (createPool env) ;;
     modify (fun w => {| trace := trace w; db := true |}) ;;
     emit (LoggerInfo "Database connected successfully") ;;
     createTables ;;
     createDefaultUser)
    (fun error =>
       emit (LoggerError "Database connection failed:" error) ;;
       process_exit 1).

Definition initializeKafka : M World unit :=
  try_catch
    (call ProducerConnect (producer_connect env) ;;
     emit (LoggerInfo "Kafka producer connected successfully"))
    (fun error => emit (LoggerError "Kafka connection failed:" error)).

Definition startServer : M World unit :=
  initializeDatabase ;;
  initializeKafka ;;
  emit (Listen (PORT env)) ;;
  emit (LoggerInfo ("Backend server running on port " ++ Number_toString (PORT env))).

(** The handler of [SIGINT]. *)
Definition on_SIGINT : M World unit :=
  emit (LoggerInfo "Shutting down gracefully...") ;;
  try_catch
    (call ProducerDisconnect (producer_disconnect env) ;;
     has_pool <- gets db ;;
     (if has_pool then call PoolEnd (pool_end env) else ret tt) ;;
     process_exit 0)
    (fun error =>
       emit (LoggerError "Error during shutdown:" error) ;;
       process_exit 1).

End Lifecycle.

(** The process before [startServer] has run. *)
Definition cold : World := {| trace := []; db := false |}.

(** The events of [w'] that [w] did not have yet. *)
Definition since (w w' : World) : list Event :=
  skipn (List.length (trace w)) (trace w').

(** The statements sent to the pool, in order. *)
Fixpoint pool_statements (tr : list Event) : list string :=
  match tr with
  | [] => []
  | PoolExecute sql _ _ :: rest => sql :: pool_statements rest
  | _ :: rest => pool_statements rest
  end.

(** The server has started to listen. *)
Fixpoint listens (tr : list Event) : bool :=
  match tr with
  | [] => false
  | Listen _ :: _ => true
  | _ :: rest => listens rest
  end.

(** The producer has been asked to connect. *)
Fixpoint connects_producer (tr : list Event) : bool :=
  match tr with
  | [] => false
  | ProducerConnect _ :: _ => true
  | _ :: rest => connects_producer rest
  end.

End Server.

(* ================================================================= *)
(** ** From the API process to the worker *)

Module Pipeline.
Import Js.

(** A record of a send request as the broker hands it to the consumer: the
    same key and value, at some offset. *)
Definition delivered (record : Api.KafkaRecord) (offset : string)
    : Consumer.KafkaMessage := {|
  Consumer.key := Some (Api.key record);
  Consumer.value := Some (Api.value record);
  Consumer.offset := offset
|}.

End Pipeline.

(* ================================================================= *)
(** ** The browser client: the forms and the calls of the API *)

Module Frontend.
Import Js.

(** The string operations of the browser that the forms use. *)
Class Browser : Type := {
  (** [s.trim()]. *)
  String_trim : string -> string;
  (** [s.length]. *)
  String_length : string -> nat;
  (** [/^[^\s@]+@[^\s@]+\.[^\s@]+$/.test(s)]. *)
  emailRegex_test : string -> bool
}.

(** The state [formData] of the registration form. *)
Record RegisterForm : Type := {
  username : string;
  email : string;
  password : string;
  confirmPassword : string
}.

(** The state [formData] of the login form. *)
Record LoginForm : Type := {
  login_username : string;
  login_password : string
}.

(** [!s] for a string. *)
Definition empty (s : string) : bool := String.eqb s EmptyString.

(** [validateForm] of the registration form: [inr message] is
    [setError(message)] followed by [return false], [inl tt] is
    [return true]. *)
Definition validateRegister `{Browser} (formData : RegisterForm) : unit + string :=
  if empty (String_trim (username formData)) then inr "Username is required"
  else if Nat.ltb (String_length (username formData)) 3
  then inr "Username must be at least 3 characters long"
  else if empty (String_trim (email formData)) then inr "Email is required"
  else if negb (emailRegex_test (email formData))
  then inr "Please enter a valid email address"
  else if empty (password formData) then inr "Password is required"
  else if Nat.ltb (String_length (password formData)) 6
  then inr "Password must be at least 6 characters long"
  else if negb (String.eqb (password formData) (confirmPassword formData))
  then inr "Passwords do not match"
  else inl tt.

(** [validateForm] of the login form. *)
Definition validateLogin `{Browser} (formData : LoginForm) : unit + string :=
  if empty (String_trim (login_username formData)) then inr "Username is required"
  else if empty (login_password formData) then inr "Password is required"
  else if Nat.ltb (String_length (login_password formData)) 6
  then inr "Password must be at least 6 characters long"
  else inl tt.

(** The body of [axios.post('/api/register', {username, email, password})]
    as the body parser of the API reads it. *)
Definition register_body (formData : RegisterForm) : list (string * JSValue) :=
  [("username", JStr (username formData));
   ("email", JStr (email formData));
   ("password", JStr (password formData))].

(** The body of [axios.post('/api/login', {username, password})]. *)
Definition login_body (formData : LoginForm) : list (string * JSValue) :=
  [("username", JStr (login_username formData));
   ("password", JStr (login_password formData))].

(** The request that the API receives for a body. *)
Definition post (body : list (string * JSValue)) (ip : JSValue) : Api.Request := {|
  Api.req_body := body;
  Api.req_ip := ip;
  Api.req_remoteAddress := JUndefined;
  Api.req_userId := JUndefined
|}.

End Frontend.

(* ================================================================= *)
(** ** Concrete inputs *)

Module Sample.
Import Js.

(** The record of the specification's scenario, captured at time 5000. *)
Definition admin_record : JSValue :=
  JObj [("timestamp", JNum (num_of_Z 5000));
        ("operation", JStr "INSERT");
        ("table", JStr "users");
        ("data", JObj [("id", JNum (num_of_Z 1)); ("username", JStr "admin")]);
        ("userId", JNull)].

(** A platform that reads two texts as JSON and rejects the others, prints
    every value as [json] and dates as their time value, and takes numbers
    as time values and [null] as the epoch. *)
Definition runtime : Runtime := {|
  JSON_parse := fun text =>
    if String.eqb text "admin" then inl admin_record
    else if String.eqb text "null" then inl JNull
    else inr (mkError "SyntaxError" "Unexpected token" None);
  JSON_stringify := fun _ => "json";
  Buffer_toString := fun bytes => bytes;
  Date_of := fun v =>
    match v with
    | JNum (Fin q) => Some (Qfloor q)
    | JNull => Some 0%Z
    | _ => None
    end;
  toISOString := Number_toString
|}.

(** A clock that starts at 1000 and advances by 700 ms at every read. *)
Definition clock (n : nat) : Z := 1000 + 700 * Z.of_nat n.

Definition admin_message : Consumer.KafkaMessage := {|
  Consumer.key := Some "users-5000";
  Consumer.value := Some "admin";
  Consumer.offset := "0"
|}.

Definition garbled_message : Consumer.KafkaMessage := {|
  Consumer.key := None;
  Consumer.value := Some "not json";
  Consumer.offset := "1"
|}.

(** A worker that is running, started at time 1000. *)
Definition running : Consumer.World := {|
  Consumer.reads := 1;
  Consumer.trace := [];
  Consumer.processor := {| Consumer.processedCount := 0; Consumer.startTime := 1000 |};
  Consumer.client := Consumer.RUNNING;
  Consumer.listening := true;
  Consumer.resolved := []
|}.

(** An API process whose database and password hashing work; the broker
    is given separately. *)
Definition env (broker : Api.SendRequest -> unit + Error) : Api.Env := {|
  Api.clock := clock;
  Api.bcrypt_hash := fun _ _ => inl "hash";
  Api.bcrypt_compare := fun _ _ => inl true;
  Api.jwt_sign := fun _ => "token";
  Api.db := fun _ _ => inl (Api.ResultSetHeader 7);
  Api.broker := broker
|}.

Definition broker_up (request : Api.SendRequest) : unit + Error := inl tt.

Definition broker_down (request : Api.SendRequest) : unit + Error :=
  inr (mkError "KafkaJSConnectionError" "Connection error" None).

Definition register_bob : Api.Request := {|
  Api.req_body := [("username", JStr "bob");
                   ("email", JStr "bob@example.com");
                   ("password", JStr "secret")];
  Api.req_ip := JStr "10.0.0.1";
  Api.req_remoteAddress := JUndefined;
  Api.req_userId := JUndefined
|}.

Definition idle : Api.World := {| Api.reads := 0; Api.trace := [] |}.

(** Ten good records, a garbled one, and a good one after it. *)
Definition batch : list Consumer.KafkaMessage :=
  (repeat admin_message 10 ++ [garbled_message; admin_message])%list.

(** The worker after it has processed [admin_message] once. *)
Definition after_admin : Consumer.World :=
  fst (@Consumer.processChange runtime clock admin_message running).

(** The row of a registered user. *)
Definition alice_fields : list (string * JSValue) :=
  [("id", JNum (num_of_Z 3));
   ("username", JStr "alice");
   ("email", JStr "alice@example.com");
   ("password", JStr "hash")].

Definition activity_down : Error := mkError "Error" "Connection lost" None.

(** A database that knows [alice]; with [flaky] the activity table cannot
    be written. *)
Definition db_alice (flaky : bool) (sql : string) (params : list JSValue)
    : Api.DbResult + Error :=
  if String.eqb sql "SELECT * FROM users WHERE username = ? OR email = ?"
  then inl (Api.Rows [JObj alice_fields])
  else if String.eqb sql
            "INSERT INTO user_activity (user_id, action, ip_address) VALUES (?, ?, ?)"
  then if flaky then inr activity_down else inl (Api.ResultSetHeader 11)
  else inl (Api.ResultSetHeader 0).

Definition env_alice (flaky : bool) : Api.Env := {|
  Api.clock := clock;
  Api.bcrypt_hash := fun _ _ => inl "hash";
  Api.bcrypt_compare := fun _ _ => inl true;
  Api.jwt_sign := fun _ => "token";
  Api.db := db_alice flaky;
  Api.broker := broker_up
|}.

Definition duplicate_entry : Error :=
  mkError "Error" "Duplicate entry" (Some "ER_DUP_ENTRY").

(** A database in which every user exists already and no lookup finds a
    row. *)
Definition env_taken : Api.Env := {|
  Api.clock := clock;
  Api.bcrypt_hash := fun _ _ => inl "hash";
  Api.bcrypt_compare := fun _ _ => inl true;
  Api.jwt_sign := fun _ => "token";
  Api.db := fun sql _ =>
    if String.eqb sql "INSERT INTO users (username, email, password) VALUES (?, ?, ?)"
    then inr duplicate_entry
    else inl (Api.Rows []);
  Api.broker := broker_up
|}.

Definition login_alice : Api.Request := {|
  Api.req_body := [("username", JStr "alice"); ("password", JStr "secret")];
  Api.req_ip := JStr "10.0.0.1";
  Api.req_remoteAddress := JUndefined;
  Api.req_userId := JUndefined
|}.

Definition jwt_reject (token : JSValue) : JSValue + Error :=
  inr (mkError "JsonWebTokenError" "jwt malformed" None).

End Sample.

(* ================================================================= *)
(** ** More concrete inputs *)

Module Fixture.
Import Js.

(** The change that the registration of [bob] captures at time 1000. *)
Definition bob_change : Api.ChangeLog := {|
  Api.timestamp := "1000";
  Api.operation := "INSERT";
  Api.table := "users";
  Api.data := JObj [("id", JNum (num_of_Z 7));
                    ("username", JStr "bob");
                    ("email", JStr "bob@example.com")];
  Api.userId := JNull
|}.

(** A platform whose JSON text for [bob_change] is [bob], which it reads
    back, and which reads [{}] as the empty object; a string is the date
    1000, [null] is the epoch and nothing else is a date. *)
Definition echo : Runtime := {|
  JSON_parse := fun text =>
    if String.eqb text "bob" then inl (Api.changeLog_obj bob_change)
    else if String.eqb text "{}" then inl (JObj [])
    else inr (mkError "SyntaxError" "Unexpected token" None);
  JSON_stringify := fun _ => "bob";
  Buffer_toString := fun bytes => bytes;
  Date_of := fun v =>
    match v with
    | JStr _ => Some 1000%Z
    | JNull => Some 0%Z
    | _ => None
    end;
  toISOString := Number_toString
|}.

(** A record whose timestamp is an object with properties [valueOf] and
    [toString] of its own, and a platform that reads every text as this
    record. *)
Definition opaque_record : JSValue :=
  JObj [("timestamp", JObj [("valueOf", JNum (num_of_Z 1));
                            ("toString", JNum (num_of_Z 2))]);
        ("operation", JStr "INSERT");
        ("table", JStr "users")].

Definition literal : Runtime := {|
  JSON_parse := fun _ => inl opaque_record;
  JSON_stringify := fun _ => "json";
  Buffer_toString := fun bytes => bytes;
  Date_of := fun _ => None;
  toISOString := Number_toString
|}.

Definition empty_object_message : Consumer.KafkaMessage := {|
  Consumer.key := None;
  Consumer.value := Some "{}";
  Consumer.offset := "4"
|}.

(** A worker whose tenth record is counted while the clock of [Sample]
    will still read the start time at the third read from now. *)
Definition just_started : Consumer.World := {|
  Consumer.reads := 0;
  Consumer.trace := [];
  Consumer.processor := {| Consumer.processedCount := 10; Consumer.startTime := 2400 |};
  Consumer.client := Consumer.RUNNING;
  Consumer.listening := true;
  Consumer.resolved := []
|}.

(** A worker that has counted ten records since it started at time 1000. *)
Definition ten_counted : Consumer.World := {|
  Consumer.reads := 0;
  Consumer.trace := [];
  Consumer.processor := {| Consumer.processedCount := 10; Consumer.startTime := 1000 |};
  Consumer.client := Consumer.RUNNING;
  Consumer.listening := true;
  Consumer.resolved := []
|}.

(** A browser that trims nothing and accepts every address. *)
Definition browser : Frontend.Browser := {|
  Frontend.String_trim := fun s => s;
  Frontend.String_length := String.length;
  Frontend.emailRegex_test := fun _ => true
|}.

Definition form_bob : Frontend.RegisterForm := {|
  Frontend.username := "bob";
  Frontend.email := "bob@example.com";
  Frontend.password := "secret";
  Frontend.confirmPassword := "secret"
|}.

(** [jwt.verify] for a session of [alice]. *)
Definition jwt_accept (token : JSValue) : JSValue + Error :=
  inl (JObj [("userId", JNum (num_of_Z 3)); ("username", JStr "alice")]).

(** A database in which every [SELECT] finds the row of [alice] and every
    other statement succeeds. *)
Definition env_session : Api.Env := {|
  Api.clock := Sample.clock;
  Api.bcrypt_hash := fun _ _ => inl "hash";
  Api.bcrypt_compare := fun _ _ => inl true;
  Api.jwt_sign := fun _ => "token";
  Api.db := fun sql _ =>
    if String.prefix "SELECT" sql
    then inl (Api.Rows [JObj Sample.alice_fields])
    else inl (Api.ResultSetHeader 0);
  Api.broker := Sample.broker_up
|}.

End Fixture.

(* ================================================================= *)
(** ** Properties of the arithmetic of Numbers *)

Module NumberProofs.
Import Js.

(** The rounding on known values: one tenth; the two ties above [2 ^ 53],
    which go to the even significand; the largest finite value and the tie
    above it, which overflows; the smallest positive value and the tie below
    it, which underflows to zero. *)
Example binary64_one_tenth :
  binary64 (1 # 10) = Fin (3602879701896397 # 36028797018963968).
Proof. vm_compute. reflexivity. Qed.

Example binary64_ties_to_even :
  binary64 (9007199254740993 # 1) = Fin (9007199254740992 # 1) /\
  binary64 (9007199254740995 # 1) = Fin (9007199254740996 # 1).
Proof. split; vm_compute; reflexivity. Qed.

Example binary64_overflow :
  binary64 (2 ^ 1024 - 2 ^ 971) = Fin (Qred (2 ^ 1024 - 2 ^ 971)) /\
  binary64 (2 ^ 1024 - 2 ^ 970) = PosInf /\
  binary64 (- (2 ^ 1024)) = NegInf.
Proof. repeat split; vm_compute; reflexivity. Qed.

Example binary64_underflow :
  binary64 (2 ^ (-1074)) = Fin (Qred (2 ^ (-1074))) /\
  binary64 ((3 # 2) * 2 ^ (-1075)) = Fin (Qred (2 ^ (-1074))) /\
  binary64 (2 ^ (-1075)) = Fin 0.
Proof. repeat split; vm_compute; reflexivity. Qed.

Lemma pow2_pos (e : Z) : (0 < 2 ^ e)%Q.
Proof. apply Qpower_0_lt. reflexivity. Qed.

Lemma pow2_succ (e : Z) : (2 ^ (e + 1) == 2 * 2 ^ e)%Q.
Proof.
  rewrite Qpower_plus by discriminate. change (2 ^ 1)%Q with 2%Q. ring.
Qed.

Lemma pow2_pred (e : Z) : (2 ^ (e - 1) == (1 # 2) * 2 ^ e)%Q.
Proof.
  assert (H := pow2_succ (e - 1)). replace (e - 1 + 1) with e in H by lia.
  rewrite H. field.
Qed.

Lemma pow2_inject (n : Z) : (0 <= n)%Z -> (inject_Z (2 ^ n) == 2 ^ n)%Q.
Proof. intros H. rewrite Zpower_Qpower by assumption. reflexivity. Qed.

Lemma Q_as_fraction (a : Q) : (a == inject_Z (Qnum a) / inject_Z (Zpos (Qden a)))%Q.
Proof.
  destruct a as [n d]. unfold Qeq, Qdiv, Qmult, Qinv, inject_Z. simpl. lia.
Qed.

Lemma exponent_spec (a : Q) :
  (0 < a)%Q -> (2 ^ exponent a <= a)%Q /\ (a < 2 ^ (exponent a + 1))%Q.
Proof.
  intros Ha. unfold exponent.
  set (n := Qnum a). set (d := Zpos (Qden a)).
  assert (Hn : (0 < n)%Z).
  { unfold n. destruct a as [x y]. unfold Qlt in Ha. simpl in *. lia. }
  assert (Hd : (0 < d)%Z) by (unfold d; lia).
  destruct (Z.log2_spec n Hn) as [Hn1 Hn2].
  destruct (Z.log2_spec d Hd) as [Hd1 Hd2].
  set (p := Z.log2 n) in *. set (q := Z.log2 d) in *.
  assert (Hp : (0 <= p)%Z) by apply Z.log2_nonneg.
  assert (Hq : (0 <= q)%Z) by apply Z.log2_nonneg.
  assert (Ea := Q_as_fraction a). fold n d in Ea.
  rewrite Zle_Qle in Hn1, Hd1. rewrite Zlt_Qlt in Hn2, Hd2.
  replace (Z.succ p) with (p + 1) in Hn2 by lia.
  replace (Z.succ q) with (q + 1) in Hd2 by lia.
  rewrite pow2_inject in Hn1, Hn2, Hd1, Hd2 by lia.
  assert (Hdq : (0 < inject_Z d)%Q) by (rewrite <- (Zlt_Qlt 0); exact Hd).
  assert (HP := pow2_pos p). assert (HQ := pow2_pos q).
  assert (E1 : (2 ^ (p - q) == 2 ^ p * / 2 ^ q)%Q).
  { replace (p - q) with (p + - q) by lia.
    rewrite Qpower_plus by discriminate. rewrite Qpower_opp. reflexivity. }
  assert (E0 : (2 ^ (p - q - 1) == (1 # 2) * (2 ^ p * / 2 ^ q))%Q).
  { rewrite pow2_pred, E1. reflexivity. }
  assert (E2 : (2 ^ (p - q + 1) == 2 * (2 ^ p * / 2 ^ q))%Q).
  { rewrite pow2_succ, E1. reflexivity. }
  rewrite pow2_succ in Hn2, Hd2.
  set (P := (2 ^ p)%Q) in *. set (B := (2 ^ q)%Q) in *.
  assert (HR : (0 < / B)%Q) by (apply Qinv_lt_0_compat; exact HQ).
  assert (ER : (/ B * B == 1)%Q) by (field; intros H; rewrite H in HQ; discriminate HQ).
  set (R := (/ B)%Q) in *.
  set (N := inject_Z n) in *. set (D := inject_Z d) in *.
  assert (HPR : (0 < P * R)%Q) by (apply Qmult_lt_0_compat; assumption).
  assert (Hlow : (2 ^ (p - q - 1) < a)%Q).
  { rewrite Ea, E0. apply Qlt_shift_div_l; [ exact Hdq | ].
    assert (H : (D * (P * R) < 2 * B * (P * R))%Q)
      by (apply Qmult_lt_compat_r; assumption).
    assert (H' : (2 * B * (P * R) == 2 * P * (R * B))%Q) by ring.
    rewrite H', ER in H.
    assert (H'' : ((1 # 2) * (P * R) * D == (1 # 2) * (D * (P * R)))%Q) by ring.
    rewrite H''. lra. }
  assert (Hhigh : (a < 2 ^ (p - q + 1))%Q).
  { rewrite Ea, E2. apply Qlt_shift_div_r; [ exact Hdq | ].
    assert (H : (B * (P * R) <= D * (P * R))%Q)
      by (apply Qmult_le_compat_r; [ assumption | apply Qlt_le_weak; assumption ]).
    assert (H' : (B * (P * R) == P * (R * B))%Q) by ring.
    rewrite H', ER in H.
    assert (H'' : (2 * (P * R) * D == 2 * (D * (P * R)))%Q) by ring.
    rewrite H''. lra. }
  clearbody P B R N D.
  destruct (Qle_bool (2 ^ (p - q)) a) eqn:E.
  - apply Qle_bool_iff in E. split; assumption.
  - replace (p - q - 1 + 1) with (p - q) by lia.
    split; [ apply Qlt_le_weak; exact Hlow | ].
    apply Qnot_le_lt. intros H. apply Qle_bool_iff in H. congruence.
Qed.

Lemma round_half_even_spec (q : Q) :
  (inject_Z (round_half_even q) - (1 # 2) <= q)%Q /\
  (q <= inject_Z (round_half_even q) + (1 # 2))%Q.
Proof.
  unfold round_half_even.
  assert (H1 := Qfloor_le q). assert (H2 := Qlt_floor q).
  rewrite inject_Z_plus in H2. change (inject_Z 1) with 1%Q in H2.
  set (f := Qfloor q) in *.
  destruct (q - inject_Z f ?= 1 # 2)%Q eqn:E.
  - apply Qeq_alt in E.
    destruct (Z.even f); [ | rewrite inject_Z_plus; change (inject_Z 1) with 1%Q ];
      split; lra.
  - apply Qlt_alt in E. split; lra.
  - apply Qgt_alt in E. rewrite inject_Z_plus. change (inject_Z 1) with 1%Q.
    split; lra.
Qed.

(** An integer is its own rounding. *)
Lemma round_half_even_integer (q : Q) (z : Z) :
  (q == inject_Z z)%Q -> round_half_even q = z.
Proof.
  intros E. unfold round_half_even.
  assert (F : Qfloor q = z) by (rewrite E; apply Qfloor_Z).
  rewrite F.
  assert (C : (q - inject_Z z ?= 1 # 2)%Q = Lt).
  { apply Qlt_alt. assert (H : (q - inject_Z z == 0)%Q) by (rewrite E; ring).
    rewrite H. reflexivity. }
  rewrite C. reflexivity.
Qed.

Lemma Qabs_positive (a : Q) : (0 < a)%Q -> Qabs a = a.
Proof.
  destruct a as [n d]. unfold Qlt. simpl. intros H.
  unfold Qabs. f_equal. lia.
Qed.

(** In the range of the normal numbers, rounding moves a value by at most
    [2 ^ -53] of itself. *)
Lemma binary64_positive (a : Q) :
  (2 ^ (-1022) <= a)%Q -> (a < 2 ^ 1023)%Q ->
  exists v : Q,
    binary64 a = Fin v /\
    (a - a * 2 ^ (-53) <= v)%Q /\ (v <= a + a * 2 ^ (-53))%Q.
Proof.
  intros Hlo Hhi.
  assert (Hpos : (0 < a)%Q)
    by (apply Qlt_le_trans with (2 ^ (-1022))%Q; [ apply pow2_pos | exact Hlo ]).
  destruct (exponent_spec a Hpos) as [He1 He2].
  unfold binary64.
  destruct (Qeq_bool a 0) eqn:Ez.
  { apply Qeq_bool_eq in Ez. rewrite Ez in Hpos. discriminate Hpos. }
  rewrite (Qabs_positive a Hpos).
  set (e := exponent a) in *.
  assert (Hemin : (-1022 <= e)%Z).
  { assert (H : (2 ^ (-1022) < 2 ^ (e + 1))%Q) by (eapply Qle_lt_trans; eassumption).
    apply Qpower_lt_compat_l_inv in H; [ lia | reflexivity ]. }
  assert (Hemax : (e <= 1022)%Z).
  { assert (H : (2 ^ e < 2 ^ 1023)%Q) by (eapply Qle_lt_trans; eassumption).
    apply Qpower_lt_compat_l_inv in H; [ lia | reflexivity ]. }
  rewrite Z.max_l by lia.
  set (ulp := (2 ^ (e - 52))%Q).
  assert (Hulp : (0 < ulp)%Q) by apply pow2_pos.
  destruct (round_half_even_spec (a / ulp)) as [Hr1 Hr2].
  set (n := inject_Z (round_half_even (a / ulp))) in *.
  assert (Eulp : (2 ^ e == ulp * 2 ^ 52)%Q).
  { unfold ulp. rewrite <- Qpower_plus by discriminate. replace (e - 52 + 52) with e by lia.
    reflexivity. }
  assert (Eulp' : (ulp * (1 # 2) == 2 ^ e * 2 ^ (-53))%Q).
  { unfold ulp. replace (e - 52) with (e + -53 + 1) by lia.
    rewrite pow2_succ. rewrite Qpower_plus by discriminate. ring. }
  assert (Hau : (a == a / ulp * ulp)%Q) by (field; intros H; rewrite H in Hulp; discriminate Hulp).
  set (x := (a / ulp)%Q) in *.
  assert (H1 : ((n - (1 # 2)) * ulp <= x * ulp)%Q)
    by (apply Qmult_le_compat_r; [ exact Hr1 | apply Qlt_le_weak; exact Hulp ]).
  assert (H2 : (x * ulp <= (n + (1 # 2)) * ulp)%Q)
    by (apply Qmult_le_compat_r; [ exact Hr2 | apply Qlt_le_weak; exact Hulp ]).
  rewrite <- Hau in H1, H2.
  assert (H53 : (0 < 2 ^ (-53))%Q) by apply pow2_pos.
  assert (Hbound : (2 ^ e * 2 ^ (-53) <= a * 2 ^ (-53))%Q)
    by (apply Qmult_le_compat_r; [ exact He1 | apply Qlt_le_weak; exact H53 ]).
  assert (Hnu1 : (n * ulp <= a + a * 2 ^ (-53))%Q).
  { assert (E : ((n - (1 # 2)) * ulp == n * ulp - ulp * (1 # 2))%Q) by ring.
    rewrite E, Eulp' in H1. lra. }
  assert (Hnu2 : (a - a * 2 ^ (-53) <= n * ulp)%Q).
  { assert (E : ((n + (1 # 2)) * ulp == n * ulp + ulp * (1 # 2))%Q) by ring.
    rewrite E, Eulp' in H2. lra. }
  assert (Hover : Qle_bool (2 ^ 1024) (n * ulp) = false).
  { destruct (Qle_bool (2 ^ 1024) (n * ulp)) eqn:E; [ | reflexivity ].
    apply Qle_bool_iff in E. exfalso.
    assert (Hs : (2 ^ (-53) < 1)%Q) by reflexivity.
    assert (Ha2 : (a * 2 ^ (-53) <= a * 1)%Q).
    { apply Qmult_le_l; [ exact Hpos | apply Qlt_le_weak; exact Hs ]. }
    assert (E24 : (2 ^ 1024 == 2 * 2 ^ 1023)%Q) by (apply (pow2_succ 1023)).
    rewrite E24 in E.
    set (T := (2 ^ 1023)%Q) in *. set (S53 := (2 ^ (-53))%Q) in *.
    clearbody T S53. lra. }
  rewrite Hover.
  destruct (Qlt_le_dec 0 a) as [_ | Hneg]; [ | exfalso; lra ].
  eexists. split; [ reflexivity | ].
  rewrite Qred_correct. split; assumption.
Qed.

(** The same for values of moderate size, with the bound as a number. *)
Lemma binary64_modest (a : Q) :
  (1 # 1267650600228229401496703205376 <= a)%Q ->
  (a <= 1267650600228229401496703205376 # 1)%Q ->
  exists v : Q,
    binary64 a = Fin v /\
    (a * (9007199254740991 # 9007199254740992) <= v)%Q /\
    (v <= a * (9007199254740993 # 9007199254740992))%Q.
Proof.
  intros Hlo Hhi.
  assert (L : (2 ^ (-1022) <= 2 ^ (-100))%Q)
    by (apply Qpower_le_compat_l; [ lia | discriminate ]).
  assert (R : (2 ^ 100 < 2 ^ 1023)%Q)
    by (apply Qpower_lt_compat_l; [ lia | reflexivity ]).
  change (2 ^ (-100))%Q with (1 # 1267650600228229401496703205376) in L.
  change (2 ^ 100)%Q with (1267650600228229401496703205376 # 1) in R.
  destruct (binary64_positive a) as (v & Hv & H1 & H2).
  - eapply Qle_trans; eassumption.
  - eapply Qle_lt_trans; eassumption.
  - exists v. split; [ exact Hv | ].
    change (2 ^ (-53))%Q with (1 # 9007199254740992) in H1, H2.
    split; lra.
Qed.

Lemma num_div_positive (a b : Q) :
  (0 < b)%Q -> num_div (Fin a) (Fin b) = binary64 (a / b).
Proof.
  intros Hb. unfold num_div.
  destruct (Qeq_bool b 0) eqn:E; [ | reflexivity ].
  apply Qeq_bool_eq in E. rewrite E in Hb. discriminate Hb.
Qed.

Lemma Z_range_Q (z lo hi : Z) :
  (lo <= z < hi)%Z -> (inject_Z lo <= inject_Z z)%Q /\ (inject_Z z < inject_Z hi)%Q.
Proof. intros [H1 H2]. split; [ rewrite <- Zle_Qle | rewrite <- Zlt_Qlt ]; assumption. Qed.

(** The hundredths of the rate, before they are rounded: within
    [2 ^ -50] of the exact value, relatively. *)
Lemma per_minute_accurate (c e : Z) :
  (1 <= c < 2 ^ 53)%Z -> (1 <= e < 2 ^ 53)%Z ->
  let exact := (inject_Z 100 * (inject_Z c / (inject_Z e / inject_Z 1000 / inject_Z 60)))%Q in
  exists y : Q,
    num_mul (Consumer.per_minute c e) (num_of_Z 100) = Fin y /\
    (exact - exact * (1 # 1125899906842624) <= y)%Q /\
    (y <= exact + exact * (1 # 1125899906842624))%Q.
Proof.
  intros Hc He. cbv zeta.
  destruct (Z_range_Q c 1 (2 ^ 53) Hc) as [Hc1 Hc2].
  destruct (Z_range_Q e 1 (2 ^ 53) He) as [He1 He2].
  change (inject_Z 1) with 1%Q in Hc1, He1.
  change (inject_Z (2 ^ 53)) with (9007199254740992 # 1) in Hc2, He2.
  set (C := inject_Z c) in *. set (E := inject_Z e) in *.
  set (X := (inject_Z 100 * (C / (E / inject_Z 1000 / inject_Z 60)))%Q).
  unfold Consumer.per_minute, Consumer.seconds, num_of_Z. fold C E.
  (* seconds *)
  rewrite (num_div_positive E (inject_Z 1000)) by reflexivity.
  assert (Ea1 : (E / inject_Z 1000 == E * (1 # 1000))%Q) by reflexivity.
  destruct (binary64_modest (E / inject_Z 1000)) as (x1 & -> & L1 & U1);
    [ rewrite Ea1; lra | rewrite Ea1; lra | ].
  rewrite Ea1 in L1, U1.
  (* minutes *)
  rewrite (num_div_positive x1 (inject_Z 60)) by reflexivity.
  assert (Ea2 : (x1 / inject_Z 60 == x1 * (1 # 60))%Q) by reflexivity.
  destruct (binary64_modest (x1 / inject_Z 60)) as (x2 & -> & L2 & U2);
    [ rewrite Ea2; lra | rewrite Ea2; lra | ].
  rewrite Ea2 in L2, U2.
  assert (Hx2 : (0 < x2)%Q) by lra.
  (* the exact rate *)
  set (m := (E * (1 # 60000))%Q).
  assert (Hm : (0 < m)%Q) by (unfold m; lra).
  assert (Hm' : ~ (m == 0)%Q) by (intros H; rewrite H in Hm; discriminate Hm).
  set (Y := (C / m)%Q).
  assert (YM : (Y * m == C)%Q) by (unfold Y; field; exact Hm').
  assert (HY : (0 < Y)%Q) by (unfold Y; apply Qlt_shift_div_l; [ exact Hm | lra ]).
  assert (HY1 : ((1 # 9007199254740992) <= Y)%Q).
  { unfold Y. apply Qle_shift_div_l; [ exact Hm | unfold m; lra ]. }
  assert (HY2 : (Y <= 540431955284459520000 # 1)%Q).
  { unfold Y. apply Qle_shift_div_r; [ exact Hm | unfold m; lra ]. }
  assert (EX : (X == 100 * Y)%Q).
  { unfold X, Y, m. change (inject_Z 100) with (100 # 1).
    change (inject_Z 1000) with (1000 # 1). change (inject_Z 60) with (60 # 1).
    field. intros H. lra. }
  clearbody X.
  (* the rate *)
  rewrite (num_div_positive C x2 Hx2).
  assert (M1 : (Y * x2 <= Y * (m * ((9007199254740993 # 9007199254740992)
                                    * (9007199254740993 # 9007199254740992))))%Q).
  { apply Qmult_le_l; [ exact HY | unfold m; lra ]. }
  assert (M2 : (Y * (m * ((9007199254740991 # 9007199254740992)
                          * (9007199254740991 # 9007199254740992))) <= Y * x2)%Q).
  { apply Qmult_le_l; [ exact HY | unfold m; lra ]. }
  assert (L3 : (Y * ((9007199254740992 # 9007199254740993)
                     * (9007199254740992 # 9007199254740993)) <= C / x2)%Q).
  { apply Qle_shift_div_l; [ exact Hx2 | ].
    set (T := (Y * x2)%Q) in *. set (W := (Y * m)%Q) in *.
    assert (T1 : (Y * ((9007199254740992 # 9007199254740993)
                       * (9007199254740992 # 9007199254740993)) * x2
                  == T * ((9007199254740992 # 9007199254740993)
                       * (9007199254740992 # 9007199254740993)))%Q)
      by (unfold T; ring).
    assert (T2 : (Y * (m * ((9007199254740993 # 9007199254740992)
                            * (9007199254740993 # 9007199254740992)))
                  == W * ((9007199254740993 # 9007199254740992)
                            * (9007199254740993 # 9007199254740992)))%Q)
      by (unfold W; ring).
    rewrite T1. rewrite T2 in M1. clearbody T W. lra. }
  assert (U3 : (C / x2 <= Y * ((9007199254740992 # 9007199254740991)
                               * (9007199254740992 # 9007199254740991)))%Q).
  { apply Qle_shift_div_r; [ exact Hx2 | ].
    set (T := (Y * x2)%Q) in *. set (W := (Y * m)%Q) in *.
    assert (T1 : (Y * ((9007199254740992 # 9007199254740991)
                       * (9007199254740992 # 9007199254740991)) * x2
                  == T * ((9007199254740992 # 9007199254740991)
                       * (9007199254740992 # 9007199254740991)))%Q)
      by (unfold T; ring).
    assert (T2 : (Y * (m * ((9007199254740991 # 9007199254740992)
                            * (9007199254740991 # 9007199254740992)))
                  == W * ((9007199254740991 # 9007199254740992)
                            * (9007199254740991 # 9007199254740992)))%Q)
      by (unfold W; ring).
    rewrite T1. rewrite T2 in M2. clearbody T W. lra. }
  destruct (binary64_modest (C / x2)) as (x3 & -> & L4 & U4); [ lra | lra | ].
  (* the hundredths *)
  unfold num_mul.
  assert (Ea4 : (x3 * inject_Z 100 == x3 * (100 # 1))%Q) by reflexivity.
  destruct (binary64_modest (x3 * inject_Z 100)) as (y & -> & L5 & U5);
    [ rewrite Ea4; lra | rewrite Ea4; lra | ].
  rewrite Ea4 in L5, U5.
  exists y. split; [ reflexivity | ]. split; lra.
Qed.

(** A value that is a whole number of units in the last place is kept. *)
Lemma binary64_exact (a : Q) (z : Z) :
  (2 ^ (-1022) <= a)%Q -> (a < 2 ^ 1023)%Q ->
  (a / 2 ^ (exponent a - 52) == inject_Z z)%Q ->
  exists v : Q, binary64 a = Fin v /\ (v == a)%Q.
Proof.
  intros Hlo Hhi Hz.
  assert (Hpos : (0 < a)%Q)
    by (apply Qlt_le_trans with (2 ^ (-1022))%Q; [ apply pow2_pos | exact Hlo ]).
  destruct (exponent_spec a Hpos) as [He1 He2].
  unfold binary64.
  destruct (Qeq_bool a 0) eqn:Ez.
  { apply Qeq_bool_eq in Ez. rewrite Ez in Hpos. discriminate Hpos. }
  rewrite (Qabs_positive a Hpos).
  set (e := exponent a) in *.
  assert (Hemin : (-1022 <= e)%Z).
  { assert (H : (2 ^ (-1022) < 2 ^ (e + 1))%Q) by (eapply Qle_lt_trans; eassumption).
    apply Qpower_lt_compat_l_inv in H; [ lia | reflexivity ]. }
  rewrite Z.max_l by lia.
  set (ulp := (2 ^ (e - 52))%Q) in *.
  assert (Hulp : (0 < ulp)%Q) by apply pow2_pos.
  rewrite (round_half_even_integer _ z Hz).
  assert (Er : (inject_Z z * ulp == a)%Q).
  { rewrite <- Hz. field. intros H. rewrite H in Hulp. discriminate Hulp. }
  assert (Hover : Qle_bool (2 ^ 1024) (inject_Z z * ulp) = false).
  { destruct (Qle_bool (2 ^ 1024) (inject_Z z * ulp)) eqn:E; [ | reflexivity ].
    apply Qle_bool_iff in E. exfalso. rewrite Er in E.
    assert (E24 : (2 ^ 1024 == 2 * 2 ^ 1023)%Q) by (apply (pow2_succ 1023)).
    rewrite E24 in E.
    set (T := (2 ^ 1023)%Q) in *. clearbody T. lra. }
  rewrite Hover.
  destruct (Qlt_le_dec 0 a) as [_ | Hneg]; [ | exfalso; lra ].
  eexists. split; [ reflexivity | ].
  rewrite Qred_correct. exact Er.
Qed.

Lemma Qfloor_unique (x : Q) (k : Z) :
  (inject_Z k <= x)%Q -> (x < inject_Z k + 1)%Q -> Qfloor x = k.
Proof.
  intros H1 H2.
  assert (F1 := Qfloor_le x). assert (F2 := Qlt_floor x).
  rewrite inject_Z_plus in F2. change (inject_Z 1) with 1%Q in F2.
  assert (A : (Qfloor x < k + 1)%Z).
  { rewrite Zlt_Qlt, inject_Z_plus. change (inject_Z 1) with 1%Q. lra. }
  assert (B : (k < Qfloor x + 1)%Z).
  { rewrite Zlt_Qlt, inject_Z_plus. change (inject_Z 1) with 1%Q. lra. }
  lia.
Qed.

(** A half-integer below [2 ^ 44] is a Number. *)
Lemma binary64_half (a : Q) (j : Z) :
  (a == inject_Z (2 * j - 1) * (1 # 2))%Q ->
  (1 <= j)%Z -> (2 * j - 1 < 2 ^ 45)%Z ->
  exists v : Q, binary64 a = Fin v /\ (v == a)%Q.
Proof.
  intros Ea Hj1 Hj2.
  assert (Ha1 : ((1 # 2) <= a)%Q).
  { rewrite Ea. assert (H : (1 <= 2 * j - 1)%Z) by lia.
    rewrite Zle_Qle in H. change (inject_Z 1) with 1%Q in H. lra. }
  assert (Ha2 : (a < 2 ^ 44)%Q).
  { rewrite Ea. rewrite Zlt_Qlt in Hj2.
    change (inject_Z (2 ^ 45)) with (35184372088832 # 1) in Hj2.
    change (2 ^ 44)%Q with (17592186044416 # 1). lra. }
  assert (Hpos : (0 < a)%Q) by lra.
  destruct (exponent_spec a Hpos) as [He1 He2].
  set (e := exponent a) in *.
  assert (He : (e < 44)%Z).
  { assert (H : (2 ^ e < 2 ^ 44)%Q) by (eapply Qle_lt_trans; eassumption).
    apply Qpower_lt_compat_l_inv in H; [ lia | reflexivity ]. }
  apply (binary64_exact a ((2 * j - 1) * 2 ^ (51 - e))).
  - apply Qle_trans with (1 # 2)%Q; [ | exact Ha1 ].
    change (1 # 2)%Q with (2 ^ (-1))%Q.
    apply Qpower_le_compat_l; [ lia | discriminate ].
  - apply Qlt_trans with (2 ^ 44)%Q; [ exact Ha2 | ].
    apply Qpower_lt_compat_l; [ lia | reflexivity ].
  - fold e. rewrite inject_Z_mult, pow2_inject by lia.
    replace (e - 52) with (- (51 - e + 1)) by lia.
    rewrite Qpower_opp, pow2_succ, Ea.
    assert (Hp := pow2_pos (51 - e)).
    field. intros H. rewrite H in Hp. discriminate Hp.
Qed.

(** The uptime that a snapshot reports is the elapsed time to the nearest
    second, a half going upwards. *)
Lemma seconds_nearest (e : Z) :
  (0 <= e < 2 ^ 53)%Z ->
  Math_round (Consumer.seconds e) = num_of_Z ((e + 500) / 1000).
Proof.
  intros He.
  destruct (Z.eq_dec e 0) as [-> | Hnz]; [ vm_compute; reflexivity | ].
  assert (He' : (1 <= e < 2 ^ 53)%Z) by lia.
  destruct (Z_range_Q e 1 (2 ^ 53) He') as [He1 He2].
  change (inject_Z 1) with 1%Q in He1.
  change (inject_Z (2 ^ 53)) with (9007199254740992 # 1) in He2.
  set (k := ((e + 500) / 1000)%Z).
  assert (Hk := Z.div_mod (e + 500) 1000 ltac:(lia)).
  assert (Hr := Z.mod_pos_bound (e + 500) 1000 ltac:(lia)).
  fold k in Hk.
  assert (Hk1 : (1000 * k - 500 <= e)%Z) by lia.
  assert (Hk2 : (e <= 1000 * k + 499)%Z) by lia.
  unfold Consumer.seconds, num_of_Z.
  rewrite (num_div_positive (inject_Z e) (inject_Z 1000)) by reflexivity.
  assert (Ea : (inject_Z e / inject_Z 1000 == inject_Z e * (1 # 1000))%Q) by reflexivity.
  assert (Hk2q : (inject_Z e <= 1000 * inject_Z k + 499)%Q).
  { rewrite Zle_Qle in Hk2. rewrite inject_Z_plus, inject_Z_mult in Hk2. exact Hk2. }
  destruct (Z.eq_dec e (1000 * k - 500)) as [Htie | Hno].
  - (* a half: the quotient is a Number *)
    assert (Hj : (1 <= k)%Z) by lia.
    assert (Hj2 : (2 * k - 1 < 2 ^ 45)%Z) by lia.
    assert (Eq : (inject_Z e / inject_Z 1000 == inject_Z (2 * k - 1) * (1 # 2))%Q).
    { rewrite Ea. rewrite Htie at 1.
      unfold Z.sub. rewrite !inject_Z_plus, !inject_Z_mult.
      change (inject_Z 1000) with (1000 # 1). change (inject_Z 2) with (2 # 1).
      change (inject_Z (- (500))) with (- (500 # 1))%Q.
      change (inject_Z (- (1))) with (- (1 # 1))%Q. ring. }
    destruct (binary64_half _ k Eq Hj Hj2) as (v & -> & Ev).
    unfold Math_round, num_of_Z. do 2 f_equal.
    apply Qfloor_unique.
    + rewrite Ev, Eq. unfold Z.sub. rewrite inject_Z_plus, inject_Z_mult.
      change (inject_Z 2) with (2 # 1). change (inject_Z (- (1))) with (- (1 # 1))%Q.
      lra.
    + rewrite Ev, Eq. unfold Z.sub. rewrite inject_Z_plus, inject_Z_mult.
      change (inject_Z 2) with (2 # 1). change (inject_Z (- (1))) with (- (1 # 1))%Q.
      lra.
  - assert (Hk1' : (1000 * k - 499 <= e)%Z) by lia.
    assert (Hk1q : (1000 * inject_Z k - 499 <= inject_Z e)%Q).
    { rewrite Zle_Qle in Hk1'. unfold Z.sub in Hk1'.
      rewrite inject_Z_plus, inject_Z_mult in Hk1'.
      change (inject_Z (- (499))) with (- (499 # 1))%Q in Hk1'.
      change (inject_Z 1000) with (1000 # 1) in Hk1'. lra. }
    change (inject_Z 1000) with (1000 # 1) in Hk2q.
    change (inject_Z 499) with (499 # 1) in Hk2q.
    destruct (binary64_modest (inject_Z e / inject_Z 1000)) as (v & -> & L & U);
      [ rewrite Ea; lra | rewrite Ea; lra | ].
    rewrite Ea in L, U.
    unfold Math_round, num_of_Z. do 2 f_equal.
    apply Qfloor_unique; lra.
Qed.

End NumberProofs.

(* ================================================================= *)
(** ** Properties of the worker process *)

Module ConsumerProofs.
Import Js Eff Consumer.
Local Open Scope eff_scope.

#[local] Arguments Math_max : simpl never.
#[local] Arguments Math_round : simpl never.
#[local] Arguments num_div : simpl never.
#[local] Arguments num_mul : simpl never.
#[local] Arguments date_sub : simpl never.
#[local] Arguments num_of_Z : simpl never.

Lemma since_app (w w' : World) (evs : list Event) :
  trace w' = (trace w ++ evs)%list -> since w w' = evs.
Proof.
  unfold since. intros ->.
  rewrite skipn_app, skipn_all, Nat.sub_diag. reflexivity.
Qed.

Lemma get_prop_readable (v : JSValue) (k : string) :
  readable v = true -> get_prop v k = inl (field v k).
Proof. destruct v; simpl; intros H; try discriminate H; reflexivity. Qed.

Lemma Math_max_clamp (d : Z) :
  Math_max (num_of_Z 0) (num_of_Z d) = num_of_Z (Z.max 0 d).
Proof.
  unfold Math_max, num_of_Z.
  destruct (Qlt_le_dec (inject_Z 0) (inject_Z d)) as [Hlt | Hle].
  - rewrite <- Zlt_Qlt in Hlt. rewrite Z.max_r by lia. reflexivity.
  - rewrite <- Zle_Qle in Hle. rewrite Z.max_l by lia. reflexivity.
Qed.

Lemma Math_round_rounded (x : number) : rounded x (Math_round x).
Proof.
  destruct x as [ | | | v ]; try reflexivity.
  unfold rounded, Math_round.
  exists (Qfloor (v + (1 # 2))). split; [ reflexivity | ].
  assert (H1 := Qfloor_le (v + (1 # 2))).
  assert (H2 := Qlt_floor (v + (1 # 2))).
  rewrite inject_Z_plus in H2. change (inject_Z 1) with 1%Q in H2.
  split; lra.
Qed.

Lemma uptime_nearest (elapsed : Z) :
  (0 <= elapsed < 2 ^ 53)%Z -> nearest_second elapsed (Math_round (seconds elapsed)).
Proof.
  intros He. exists ((elapsed + 500) / 1000)%Z.
  split; [ apply (NumberProofs.seconds_nearest _ He) | ].
  assert (Hk := Z.div_mod (elapsed + 500) 1000 ltac:(lia)).
  assert (Hr := Z.mod_pos_bound (elapsed + 500) 1000 ltac:(lia)).
  lia.
Qed.

Lemma rate_close (count elapsed : Z) :
  (1 <= count < 2 ^ 53)%Z ->
  (1 <= elapsed < 2 ^ 53)%Z ->
  close_to_rate count elapsed
    (num_div (Math_round (num_mul (per_minute count elapsed) (num_of_Z 100)))
       (num_of_Z 100)).
Proof.
  intros Hc He.
  destruct (NumberProofs.per_minute_accurate _ _ Hc He) as (y & Hy & Hlo & Hhi).
  unfold close_to_rate. cbv zeta.
  exists (Qfloor (y + (1 # 2))). rewrite Hy.
  split; [ reflexivity | ].
  assert (H1 := Qfloor_le (y + (1 # 2))).
  assert (H2 := Qlt_floor (y + (1 # 2))).
  rewrite inject_Z_plus in H2. change (inject_Z 1) with 1%Q in H2.
  split; lra.
Qed.

Section ProcessorFacts.
Context {rt : Runtime}.
Variable clock : nat -> Z.

Lemma processChange_readable (message : KafkaMessage) (bytes : string)
    (changeData : JSValue) (w : World) :
  value message = Some bytes ->
  JSON_parse (Buffer_toString bytes) = inl changeData ->
  readable changeData = true ->
  no_primitive (field changeData "timestamp") = false ->
  let due := (Z.rem (processedCount (processor w) + 1) 10 =? 0)%Z in
  processChange clock message w =
    ({| reads := if due then 5 + reads w else 2 + reads w;
        trace := (trace w ++
                  ProcessedChangeLogged (decorated clock w changeData) ::
                  (if due
                   then [StatsLogged (snapshot clock (2 + reads w) (counted (processor w)))]
                   else []))%list;
        processor := counted (processor w);
        client := client w;
        listening := listening w;
        resolved := resolved w |}, Return tt).
Proof.
  intros Hv Hp Hr Hd due. subst due.
  unfold processChange, try_catch, bind, calculateLatency, bind, new_Date_of.
  rewrite Hv. simpl. rewrite Hp. simpl.
  rewrite !(get_prop_readable _ _ Hr). simpl. rewrite Hd. simpl.
  destruct (Z.rem (processedCount (processor w) + 1) 10 =? 0)%Z; simpl;
    unfold set_trace, set_reads, set_processor, decorated, snapshot, counted, date_sub;
    simpl.
  - rewrite <- app_assoc. reflexivity.
  - reflexivity.
Qed.

Lemma processChange_failure (message : KafkaMessage) (e : Error) (w : World) :
  failure message = Some e ->
  processChange clock message w =
    ({| reads := reads_before_failure message + reads w;
        trace := (trace w ++
                  [Logged consumer_log ERROR
                     ("Error processing database change: " ++ Js.message e)])%list;
        processor := processor w;
        client := client w;
        listening := listening w;
        resolved := resolved w |}, Return tt).
Proof.
  unfold failure, reads_before_failure, processChange, try_catch, bind,
    calculateLatency, bind, new_Date_of.
  destruct (value_toString (value message)) as [text | e0]; simpl.
  - destruct (JSON_parse text) as [changeData | e0]; simpl.
    + destruct changeData as [ | | b | n | s | items | fields ]; simpl;
        try discriminate; try (intros [= <-]; destruct w; reflexivity).
      destruct (no_primitive (assoc "timestamp" fields)); simpl;
        [ intros [= <-]; destruct w; reflexivity | discriminate ].
    + intros [= <-]. destruct w; reflexivity.
  - intros [= <-]. destruct w; reflexivity.
Qed.

Lemma failure_none (message : KafkaMessage) :
  failure message = None ->
  exists bytes changeData,
    value message = Some bytes /\
    JSON_parse (Buffer_toString bytes) = inl changeData /\
    readable changeData = true /\
    no_primitive (field changeData "timestamp") = false.
Proof.
  unfold failure, value_toString, new_Date_of.
  destruct (value message) as [bytes | ]; [ | discriminate ].
  destruct (JSON_parse (Buffer_toString bytes)) as [changeData | e] eqn:Hp;
    [ | discriminate ].
  intros H. exists bytes, changeData. split; [ reflexivity | split; [ assumption | ] ].
  destruct changeData as [ | | b | n | s | items | fields ]; simpl in H |- *;
    try discriminate H; try (split; reflexivity).
  destruct (no_primitive (assoc "timestamp" fields)); [ discriminate H | ].
  split; reflexivity.
Qed.

(** A record whose timestamp has no primitive is refused with the
    [TypeError] of the conversion, after the two clock reads of the
    record. *)
Lemma failure_no_primitive (message : KafkaMessage) (bytes : string)
    (changeData : JSValue) :
  value message = Some bytes ->
  JSON_parse (Buffer_toString bytes) = inl changeData ->
  readable changeData = true ->
  no_primitive (field changeData "timestamp") = true ->
  failure message = Some (TypeError "Cannot convert object to primitive value") /\
  reads_before_failure message = 2%nat.
Proof.
  intros Hv Hp Hr Hd.
  unfold failure, reads_before_failure, value_toString, new_Date_of.
  rewrite Hv, Hp, (get_prop_readable _ _ Hr), Hd. split; reflexivity.
Qed.

(** [processChange] does not touch the client, the health server or the
    offsets, and always returns. *)
Lemma processChange_frame (message : KafkaMessage) (w : World) :
  let w' := fst (processChange clock message w) in
  snd (processChange clock message w) = Return tt /\
  client w' = client w /\ listening w' = listening w /\ resolved w' = resolved w.
Proof.
  destruct (failure message) as [e | ] eqn:Hf.
  - rewrite (processChange_failure _ _ w Hf). simpl. auto.
  - destruct (failure_none _ Hf) as (bytes & changeData & Hv & Hp & Hr & Hd).
    rewrite (processChange_readable _ _ _ w Hv Hp Hr Hd). simpl. auto.
Qed.

Lemma new_Date_of_date (value : JSValue) (d : Date) :
  new_Date_of value = inl d -> no_primitive value = false /\ Date_of value = d.
Proof.
  unfold new_Date_of. destruct (no_primitive value); [ discriminate | ].
  intros [= <-]. split; reflexivity.
Qed.

Lemma calculateLatency_valid (originalTimestamp : JSValue) (t : Z) (w : World) :
  new_Date_of originalTimestamp = inl (Some t) ->
  calculateLatency clock originalTimestamp w =
    (set_reads S w, Return (num_of_Z (Z.max 0 (clock (reads w) - t)))).
Proof.
  intros Ht. unfold calculateLatency, bind, new_Date, ret, date_sub.
  rewrite Ht. cbn [settle ret]. rewrite Math_max_clamp. reflexivity.
Qed.

(** A timestamp that is not a date gives [NaN], which is not clamped. *)
Remark calculateLatency_invalid (originalTimestamp : JSValue) (w : World) :
  new_Date_of originalTimestamp = inl None ->
  calculateLatency clock originalTimestamp w = (set_reads S w, Return NaN).
Proof.
  intros Ht. unfold calculateLatency, bind, new_Date, ret, date_sub.
  rewrite Ht. reflexivity.
Qed.

(** C2: for a received change record whose timestamp is a date with time
    value [t], [calculateLatency] returns [max(0, now - t)], where [now] is
    the clock read it makes, and this is the [processingLatency] of the
    record that [processChange] logs; it is never negative, also when [t]
    lies after [now]. *)
Theorem processingLatency_clamped (message : KafkaMessage) (bytes : string)
    (changeData : JSValue) (t : Z) (w : World) :
  value message = Some bytes ->
  JSON_parse (Buffer_toString bytes) = inl changeData ->
  readable changeData = true ->
  new_Date_of (field changeData "timestamp") = inl (Some t) ->
  exists p rest latency,
    since w (fst (processChange clock message w)) = ProcessedChangeLogged p :: rest /\
    processingLatency p = num_of_Z latency /\
    calculateLatency clock (field changeData "timestamp") (set_reads S w) =
      (set_reads S (set_reads S w), Return (num_of_Z latency)) /\
    latency = Z.max 0 (clock (S (reads w)) - t) /\
    (0 <= latency)%Z.
Proof.
  intros Hv Hp Hr Ht.
  destruct (new_Date_of_date _ _ Ht) as [Hd Hdate].
  rewrite (processChange_readable _ _ _ w Hv Hp Hr Hd). simpl fst.
  eexists. eexists. exists (Z.max 0 (clock (S (reads w)) - t)).
  split; [ apply since_app; reflexivity | ].
  split; [ | split; [ | split; [ reflexivity | lia ] ] ].
  - unfold decorated, date_sub. simpl. rewrite Hdate. apply Math_max_clamp.
  - rewrite (calculateLatency_valid _ t _ Ht). reflexivity.
Qed.

(** C9: whatever the message is (a [null] value, bytes that are not JSON,
    JSON [null], a record without fields), every error thrown in the body
    of [processChange] is caught there and the function returns normally. *)
Theorem processChange_total (message : KafkaMessage) (w : World) :
  exists w', processChange clock message w = (w', Return tt).
Proof.
  exists (fst (processChange clock message w)).
  destruct (processChange_frame message w) as [Hret _].
  destruct (processChange clock message w) as [w' o]. simpl in *.
  rewrite Hret. reflexivity.
Qed.

End ProcessorFacts.

Lemma processingLatency_clamped_witness :
  (value Sample.admin_message = Some "admin" /\
   @JSON_parse Sample.runtime (@Buffer_toString Sample.runtime "admin")
     = inl Sample.admin_record /\
   readable Sample.admin_record = true /\
   @new_Date_of Sample.runtime (field Sample.admin_record "timestamp")
     = inl (Some 5000%Z)) /\
  exists p rest latency,
    since Sample.running
      (fst (@processChange Sample.runtime Sample.clock Sample.admin_message
              Sample.running))
      = ProcessedChangeLogged p :: rest /\
    processingLatency p = num_of_Z latency /\
    @calculateLatency Sample.runtime Sample.clock
      (field Sample.admin_record "timestamp") (set_reads S Sample.running) =
      (set_reads S (set_reads S Sample.running), Return (num_of_Z latency)) /\
    latency = Z.max 0 (Sample.clock 2 - 5000) /\
    (0 <= latency)%Z.
Proof.
  split.
  - repeat split; reflexivity.
  - apply (@processingLatency_clamped Sample.runtime Sample.clock
             Sample.admin_message "admin" Sample.admin_record 5000%Z
             Sample.running); reflexivity.
Defined.

Section Reprocessing.
Context {rt : Runtime}.
Variables clock1 clock2 : nat -> Z.

Lemma processed_readable (clock : nat -> Z) (message : KafkaMessage) (bytes : string)
    (changeData : JSValue) (w : World) :
  value message = Some bytes ->
  JSON_parse (Buffer_toString bytes) = inl changeData ->
  readable changeData = true ->
  no_primitive (field changeData "timestamp") = false ->
  processed (since w (fst (processChange clock message w)))
    = [decorated clock w changeData].
Proof.
  intros Hv Hp Hr Hd.
  rewrite (processChange_readable clock _ _ _ w Hv Hp Hr Hd). simpl fst.
  erewrite since_app by reflexivity.
  destruct (Z.rem (processedCount (processor w) + 1) 10 =? 0)%Z; reflexivity.
Qed.

Lemma counted_readable (clock : nat -> Z) (message : KafkaMessage) (bytes : string)
    (changeData : JSValue) (w : World) :
  value message = Some bytes ->
  JSON_parse (Buffer_toString bytes) = inl changeData ->
  readable changeData = true ->
  no_primitive (field changeData "timestamp") = false ->
  processedCount (processor (fst (processChange clock message w)))
    = (processedCount (processor w) + 1)%Z.
Proof.
  intros Hv Hp Hr Hd.
  rewrite (processChange_readable clock _ _ _ w Hv Hp Hr Hd). reflexivity.
Qed.

(** C5: two invocations of [processChange] on the same bytes, from any two
    states of the worker (the second may be the state the first one left)
    and at any clock readings, each log one processed record and each count
    it.  Both records carry the [data], [operation] and [table] of the
    message, and its [timestamp] and [userId], so they agree on every field
    except [timestamp], which is the first clock read of each invocation,
    and [processingLatency], which is measured at the second.  Nothing
    remembers the first invocation.  The bytes are those of a record: JSON
    for a value whose properties can be read and whose [timestamp] can be
    made a date [d], valid or not. *)
Theorem reprocessing_not_deduplicated (m1 m2 : KafkaMessage) (bytes : string)
    (changeData : JSValue) (d : Date) (w1 w2 : World) :
  value m1 = Some bytes ->
  value m2 = Some bytes ->
  JSON_parse (Buffer_toString bytes) = inl changeData ->
  readable changeData = true ->
  new_Date_of (field changeData "timestamp") = inl d ->
  let w1' := fst (processChange clock1 m1 w1) in
  let w2' := fst (processChange clock2 m2 w2) in
  exists p1 p2,
    processed (since w1 w1') = [p1] /\
    processed (since w2 w2') = [p2] /\
    data p1 = field changeData "data" /\
    data p2 = field changeData "data" /\
    operation p1 = field changeData "operation" /\
    operation p2 = field changeData "operation" /\
    table p1 = field changeData "table" /\
    table p2 = field changeData "table" /\
    core p1 =
      (field changeData "timestamp", field changeData "operation",
       field changeData "table", field changeData "data",
       field changeData "userId", "kafka-consumer") /\
    core p2 = core p1 /\
    timestamp p1 = toISOString (clock1 (reads w1)) /\
    timestamp p2 = toISOString (clock2 (reads w2)) /\
    processingLatency p1 =
      Math_max (num_of_Z 0) (date_sub (Some (clock1 (S (reads w1)))) d) /\
    processingLatency p2 =
      Math_max (num_of_Z 0) (date_sub (Some (clock2 (S (reads w2)))) d) /\
    processedCount (processor w1') = (processedCount (processor w1) + 1)%Z /\
    processedCount (processor w2') = (processedCount (processor w2) + 1)%Z.
Proof.
  intros Hv1 Hv2 Hp Hr Hdate. cbv zeta.
  destruct (new_Date_of_date _ _ Hdate) as [Hd Hd'].
  exists (decorated clock1 w1 changeData), (decorated clock2 w2 changeData).
  rewrite (processed_readable clock1 _ _ _ w1 Hv1 Hp Hr Hd).
  rewrite (processed_readable clock2 _ _ _ w2 Hv2 Hp Hr Hd).
  rewrite (counted_readable clock1 _ _ _ w1 Hv1 Hp Hr Hd).
  rewrite (counted_readable clock2 _ _ _ w2 Hv2 Hp Hr Hd).
  unfold decorated, core. cbn [data operation table originalTimestamp userId
    processedBy timestamp processingLatency].
  rewrite Hd'. repeat split.
Qed.

End Reprocessing.

Lemma reprocessing_not_deduplicated_witness :
  (value Sample.admin_message = Some "admin" /\
   @JSON_parse Sample.runtime (@Buffer_toString Sample.runtime "admin")
     = inl Sample.admin_record /\
   readable Sample.admin_record = true /\
   @new_Date_of Sample.runtime (field Sample.admin_record "timestamp")
     = inl (Some 5000%Z)) /\
  let w1' := fst (@processChange Sample.runtime Sample.clock Sample.admin_message
                    Sample.running) in
  let w2' := fst (@processChange Sample.runtime Sample.clock Sample.admin_message
                    Sample.after_admin) in
  exists p1 p2,
    processed (since Sample.running w1') = [p1] /\
    processed (since Sample.after_admin w2') = [p2] /\
    data p1 = field Sample.admin_record "data" /\
    data p2 = field Sample.admin_record "data" /\
    operation p1 = field Sample.admin_record "operation" /\
    operation p2 = field Sample.admin_record "operation" /\
    table p1 = field Sample.admin_record "table" /\
    table p2 = field Sample.admin_record "table" /\
    core p1 =
      (field Sample.admin_record "timestamp", field Sample.admin_record "operation",
       field Sample.admin_record "table", field Sample.admin_record "data",
       field Sample.admin_record "userId", "kafka-consumer") /\
    core p2 = core p1 /\
    timestamp p1 = @toISOString Sample.runtime (Sample.clock (reads Sample.running)) /\
    timestamp p2 =
      @toISOString Sample.runtime (Sample.clock (reads Sample.after_admin)) /\
    processingLatency p1 =
      Math_max (num_of_Z 0)
        (date_sub (Some (Sample.clock (S (reads Sample.running)))) (Some 5000%Z)) /\
    processingLatency p2 =
      Math_max (num_of_Z 0)
        (date_sub (Some (Sample.clock (S (reads Sample.after_admin)))) (Some 5000%Z)) /\
    processedCount (processor w1') = (processedCount (processor Sample.running) + 1)%Z /\
    processedCount (processor w2') =
      (processedCount (processor Sample.after_admin) + 1)%Z.
Proof.
  split.
  - repeat split; reflexivity.
  - apply (@reprocessing_not_deduplicated Sample.runtime Sample.clock Sample.clock
             Sample.admin_message Sample.admin_message "admin" Sample.admin_record
             (Some 5000%Z) Sample.running Sample.after_admin); reflexivity.
Defined.

(** The second invocation is not a repetition of the first: run from the
    state the first one left, it logs a record of its own, with a later
    [timestamp]. *)
Example reprocessing_admin_twice :
  processed
    (trace (fst (@processChange Sample.runtime Sample.clock Sample.admin_message
                   Sample.after_admin)))
  = [{| timestamp := "1700"; originalTimestamp := JNum (num_of_Z 5000);
        operation := JStr "INSERT"; table := JStr "users";
        data := JObj [("id", JNum (num_of_Z 1)); ("username", JStr "admin")];
        userId := JNull; processedBy := "kafka-consumer";
        processingLatency := num_of_Z 0 |};
     {| timestamp := "3100"; originalTimestamp := JNum (num_of_Z 5000);
        operation := JStr "INSERT"; table := JStr "users";
        data := JObj [("id", JNum (num_of_Z 1)); ("username", JStr "admin")];
        userId := JNull; processedBy := "kafka-consumer";
        processingLatency := num_of_Z 0 |}].
Proof. vm_compute. reflexivity. Qed.

Lemma rem10_of_nat (k : nat) :
  (Z.rem (Z.of_nat k) 10 =? 0)%Z = (k mod 10 =? 0)%nat.
Proof.
  rewrite Z.rem_mod_nonneg by lia.
  change 10%Z with (Z.of_nat 10). rewrite <- Nat2Z.inj_mod.
  destruct (Nat.eqb_spec (k mod 10) 0) as [H | H].
  - rewrite H. reflexivity.
  - apply Z.eqb_neq. lia.
Qed.

(** Counting from zero, the snapshots are due at 10, 20, ..., once each. *)
Lemma due_counts_from_zero (n : nat) :
  due_counts 0 n = map (fun j => (10 * Z.of_nat j)%Z) (seq 1 (n / 10)).
Proof.
  unfold due_counts. induction n as [ | n IH ]; [ reflexivity | ].
  rewrite seq_S, map_app, filter_app, IH. cbn [map filter].
  replace (0 + Z.of_nat (1 + n))%Z with (Z.of_nat (S n)) by lia.
  rewrite rem10_of_nat.
  assert (Hn := Nat.div_mod_eq n 10).
  assert (Hs := Nat.div_mod_eq (S n) 10).
  assert (Hn' := Nat.mod_upper_bound n 10).
  assert (Hs' := Nat.mod_upper_bound (S n) 10).
  destruct (Nat.eqb_spec (S n mod 10) 0) as [H | H].
  - replace (S n / 10)%nat with (S (n / 10)) by lia.
    rewrite seq_S, map_app. cbn [map].
    replace (10 * Z.of_nat (1 + n / 10))%Z with (Z.of_nat (S n)) by lia.
    reflexivity.
  - replace (S n / 10)%nat with (n / 10)%nat by lia.
    rewrite app_nil_r. reflexivity.
Qed.

Section LoopFacts.
Context {rt : Runtime}.
Variable clock : nat -> Z.
Variables (topic : string) (partition : Z).

Lemma snapshot_reports_intro (r : nat) (p : DatabaseChangeProcessor) :
  snapshot_reports clock (startTime p) (processedCount p) r (snapshot clock r p).
Proof.
  unfold snapshot_reports, snapshot.
  cbn [totalProcessed uptime averageProcessingRate].
  split; [ reflexivity | ].
  split; [ apply Math_round_rounded | ].
  split; [ eexists; split; [ apply Math_round_rounded | reflexivity ] | ].
  split; [ apply uptime_nearest | apply rate_close ].
Qed.

Lemma eachMessage_unfold (message : KafkaMessage) (w : World) :
  eachMessage clock topic partition message w =
  processChange clock message
    (set_trace
       (fun t => (t ++ [ReceivedLogged (received_info clock topic partition message w)])%list)
       (set_reads S w)).
Proof. reflexivity. Qed.

Lemma step_facts (message : KafkaMessage) (w : World) :
  let w1 := after_message clock topic partition message w in
  snd (eachMessage clock topic partition message w) = Return tt /\
  client w1 = client w /\
  listening w1 = listening w /\
  resolved w1 = (resolved w ++ [offset message])%list /\
  startTime (processor w1) = startTime (processor w) /\
  match failure message with
  | Some e =>
      processor w1 = processor w /\
      trace w1 =
        (trace w ++
         [ReceivedLogged (received_info clock topic partition message w);
          Logged consumer_log ERROR
            ("Error processing database change: " ++ Js.message e)])%list
  | None =>
      processor w1 = counted (processor w) /\
      exists p,
        trace w1 =
          (trace w ++
           [ReceivedLogged (received_info clock topic partition message w);
            ProcessedChangeLogged p] ++
           (if (Z.rem (processedCount (processor w) + 1) 10 =? 0)%Z
            then [StatsLogged (snapshot clock (3 + reads w) (counted (processor w)))]
            else []))%list
  end.
Proof.
  unfold after_message. rewrite eachMessage_unfold.
  destruct (failure message) as [e | ] eqn:Hf.
  - rewrite (processChange_failure clock _ _ _ Hf). simpl.
    rewrite <- app_assoc. repeat split.
  - destruct (failure_none _ Hf) as (bytes & changeData & Hv & Hp & Hr & Hd).
    rewrite (processChange_readable clock _ _ _ _ Hv Hp Hr Hd). simpl.
    repeat split. eexists. rewrite <- app_assoc. reflexivity.
Qed.

Lemma step_reads (message : KafkaMessage) (w : World) :
  (reads w < reads (after_message clock topic partition message w))%nat.
Proof.
  unfold after_message. rewrite eachMessage_unfold.
  destruct (failure message) as [e | ] eqn:Hf.
  - rewrite (processChange_failure clock _ _ _ Hf). simpl. lia.
  - destruct (failure_none _ Hf) as (bytes & changeData & Hv & Hp & Hr & Hd).
    rewrite (processChange_readable clock _ _ _ _ Hv Hp Hr Hd). simpl.
    destruct (Z.rem _ 10 =? 0)%Z; lia.
Qed.

Lemma runner_cons (message : KafkaMessage) (rest : list KafkaMessage) (w : World) :
  client w = RUNNING ->
  runner clock topic partition (message :: rest) w =
  runner clock topic partition rest (after_message clock topic partition message w).
Proof.
  intros Hrun. destruct (step_facts message w) as [Hret _].
  unfold after_message.
  simpl runner. unfold bind at 1. unfold gets at 1. rewrite Hrun.
  unfold bind at 1. unfold try_catch, bind at 1.
  destruct (eachMessage clock topic partition message w) as [w1 o].
  simpl in Hret. subst o. reflexivity.
Qed.

Lemma snapshots_app (a b : list Event) :
  snapshots (a ++ b) = (snapshots a ++ snapshots b)%list.
Proof.
  induction a as [ | e a IH ]; [ reflexivity | ].
  destruct e; simpl; rewrite IH; reflexivity.
Qed.

Lemma received_app (a b : list Event) :
  received (a ++ b) = (received a ++ received b)%list.
Proof.
  induction a as [ | e a IH ]; [ reflexivity | ].
  destruct e; simpl; rewrite IH; reflexivity.
Qed.

Lemma processed_app (a b : list Event) :
  processed (a ++ b) = (processed a ++ processed b)%list.
Proof.
  induction a as [ | e a IH ]; [ reflexivity | ].
  destruct e; simpl; rewrite IH; reflexivity.
Qed.

Lemma error_lines_app (a b : list Event) :
  error_lines (a ++ b) = (error_lines a ++ error_lines b)%list.
Proof.
  induction a as [ | e a IH ]; [ reflexivity | ].
  destruct e as [ [ | | ] [ | ] text | | | | | | | | ]; simpl; rewrite IH; reflexivity.
Qed.

Lemma due_counts_front (c : Z) (n : nat) :
  due_counts c (S n) =
  ((if (Z.rem (c + 1) 10 =? 0)%Z then [(c + 1)%Z] else []) ++ due_counts (c + 1) n)%list.
Proof.
  unfold due_counts.
  change (seq 1 (S n)) with (1%nat :: seq 2 n).
  rewrite <- seq_shift. cbn [map]. rewrite map_map. cbn [filter].
  replace (c + Z.of_nat 1)%Z with (c + 1)%Z by lia.
  replace (map (fun i => (c + Z.of_nat (S i))%Z) (seq 1 n))
    with (map (fun i => (c + 1 + Z.of_nat i)%Z) (seq 1 n))
    by (apply map_ext; intros i; lia).
  destruct (Z.rem (c + 1) 10 =? 0)%Z; reflexivity.
Qed.

(** The loop over a batch: it returns, the client stays [RUNNING], every
    offset is handed back, and the counter advances by the number of
    accepted messages. *)
Lemma runner_state (batch : list KafkaMessage) :
  forall w : World,
    client w = RUNNING ->
    let w' := fst (runner clock topic partition batch w) in
    snd (runner clock topic partition batch w) = Return tt /\
    client w' = RUNNING /\
    listening w' = listening w /\
    resolved w' = (resolved w ++ map offset batch)%list /\
    startTime (processor w') = startTime (processor w) /\
    processedCount (processor w') =
      (processedCount (processor w) + Z.of_nat (List.length (accepted batch)))%Z.
Proof.
  induction batch as [ | m rest IH ]; intros w Hrun.
  - simpl. rewrite app_nil_r. repeat split; first [ assumption | lia ].
  - rewrite (runner_cons m rest w Hrun).
    destruct (step_facts m w) as (_ & Hc & Hl & Hres & Hst & Hcase).
    set (w1 := after_message clock topic partition m w) in *.
    assert (Hrun1 : client w1 = RUNNING) by congruence.
    destruct (IH w1 Hrun1) as (Ho & Hc' & Hl' & Hres' & Hst' & Hcnt').
    split; [ exact Ho | ]. split; [ exact Hc' | ].
    split; [ congruence | ].
    split; [ rewrite Hres', Hres, <- app_assoc; reflexivity | ].
    split; [ congruence | ].
    rewrite Hcnt'. unfold accepted. simpl filter.
    fold (accepted rest).
    destruct (failure m) as [e | ].
    + destruct Hcase as [Hp _]. rewrite Hp. reflexivity.
    + destruct Hcase as [Hp _]. rewrite Hp. unfold counted.
      cbn [processedCount List.length]. lia.
Qed.

Lemma runner_trace (batch : list KafkaMessage) :
  forall w : World,
    client w = RUNNING ->
    let w' := fst (runner clock topic partition batch w) in
    map info_offset (received (trace w')) =
      (map info_offset (received (trace w)) ++ map offset batch)%list /\
    error_lines (trace w') = (error_lines (trace w) ++ rejections batch)%list /\
    List.length (processed (trace w')) =
      (List.length (processed (trace w)) + List.length (accepted batch))%nat.
Proof.
  induction batch as [ | m rest IH ]; intros w Hrun.
  - simpl. rewrite !app_nil_r. repeat split. lia.
  - rewrite (runner_cons m rest w Hrun).
    destruct (step_facts m w) as (_ & Hc & _ & _ & _ & Hcase).
    set (w1 := after_message clock topic partition m w) in *.
    assert (Hrun1 : client w1 = RUNNING) by congruence.
    destruct (IH w1 Hrun1) as (Hrec & Herr & Hproc).
    cbv zeta. rewrite Hrec, Herr, Hproc.
    unfold accepted, rejections. cbn [filter flat_map map].
    fold (accepted rest). fold (rejections rest).
    destruct (failure m) as [e | ].
    + destruct Hcase as [_ Htr]. rewrite Htr.
      rewrite received_app, error_lines_app, processed_app, map_app.
      cbn [received error_lines processed map info_offset received_info
           List.length app].
      rewrite <- !app_assoc, app_nil_r. repeat split.
    + destruct Hcase as [_ [p Htr]]. rewrite Htr.
      rewrite received_app, error_lines_app, processed_app, map_app.
      destruct (Z.rem (processedCount (processor w) + 1) 10 =? 0)%Z;
        cbn [received error_lines processed map info_offset received_info
             List.length app];
        rewrite <- !app_assoc, ?app_nil_r, ?length_app;
        cbn [List.length app]; repeat split; lia.
Qed.

Lemma runner_snapshots (batch : list KafkaMessage) :
  forall w : World,
    client w = RUNNING ->
    let w' := fst (runner clock topic partition batch w) in
    exists news,
      snapshots (trace w') = (snapshots (trace w) ++ news)%list /\
      map totalProcessed news =
        due_counts (processedCount (processor w)) (List.length (accepted batch)) /\
      Forall
        (fun s =>
           exists r,
             (reads w <= r)%nat /\
             s = snapshot clock r
                   {| processedCount := totalProcessed s;
                      startTime := startTime (processor w) |})
        news.
Proof.
  induction batch as [ | m rest IH ]; intros w Hrun.
  - exists []. simpl. rewrite app_nil_r. repeat split. constructor.
  - rewrite (runner_cons m rest w Hrun).
    destruct (step_facts m w) as (_ & Hc & _ & _ & Hst & Hcase).
    assert (Hreads := step_reads m w).
    set (w1 := after_message clock topic partition m w) in *.
    assert (Hrun1 : client w1 = RUNNING) by congruence.
    destruct (IH w1 Hrun1) as (news & Hsn & Htot & Hall).
    cbv zeta. rewrite Hsn. rewrite Hst in Hall.
    assert (Hall' : Forall
        (fun s =>
           exists r,
             (reads w <= r)%nat /\
             s = snapshot clock r
                   {| processedCount := totalProcessed s;
                      startTime := startTime (processor w) |})
        news).
    { eapply Forall_impl; [ | exact Hall ].
      intros s (r & Hr & Hs). exists r. split; [ lia | exact Hs ]. }
    clear Hall. rename Hall' into Hall.
    unfold accepted. cbn [filter]. fold (accepted rest).
    destruct (failure m) as [e | ].
    + destruct Hcase as [Hp Htr]. rewrite Htr, Hp in *.
      exists news. rewrite snapshots_app. cbn [snapshots].
      rewrite app_nil_r. auto.
    + destruct Hcase as [Hp [p Htr]]. rewrite Htr. rewrite Hp in Htot.
      cbn [List.length]. rewrite due_counts_front.
      unfold counted in Htot. cbn [processedCount] in Htot.
      rewrite snapshots_app.
      destruct (Z.rem (processedCount (processor w) + 1) 10 =? 0)%Z;
        cbn [snapshots app].
      * eexists (_ :: news). rewrite <- app_assoc. split; [ reflexivity | ].
        split; [ cbn [map]; rewrite Htot; reflexivity | ].
        constructor; [ | exact Hall ].
        exists (3 + reads w)%nat. split; [ lia | reflexivity ].
      * exists news. rewrite app_nil_r. auto.
Qed.

(** One call of [processChange]: the counter moves by one exactly when the
    record is accepted, and a snapshot is logged exactly when the new value
    of the counter is a multiple of 10; it reports that value. *)
Lemma processChange_snapshot (message : KafkaMessage) (w : World) :
  snapshot_when_due clock message w.
Proof.
  unfold snapshot_when_due.
  destruct (failure message) as [e | ] eqn:Hf.
  - rewrite (processChange_failure clock _ _ w Hf). cbv zeta. cbn [fst processor].
    split; [ reflexivity | ].
    erewrite since_app by reflexivity. reflexivity.
  - destruct (failure_none _ Hf) as (bytes & changeData & Hv & Hp & Hr & Hd).
    rewrite (processChange_readable clock _ _ _ w Hv Hp Hr Hd).
    cbv zeta. cbn [fst processor counted processedCount].
    split; [ reflexivity | ].
    erewrite since_app by reflexivity.
    destruct (Z.rem (processedCount (processor w) + 1) 10 =? 0)%Z.
    + eexists. split; [ reflexivity | ].
      apply (snapshot_reports_intro (2 + reads w) (counted (processor w))).
    + reflexivity.
Qed.

(** C3, corrected: one call of [processChange] logs a statistics snapshot
    exactly when it has counted the record and the new value of the counter
    is a multiple of 10; a record on which the body throws is not counted.
    The snapshot reports that value as [totalProcessed]; its uptime is the
    Number for the elapsed milliseconds over 1000, rounded to an integer,
    which is the elapsed time to the nearest second; its rate is the Number
    that [totalProcessed / (elapsed / 1000 / 60) * 100] evaluates to, rounded
    to an integer and divided by 100, the elapsed time being read at a clock
    read of its own and not rounded to seconds.  Every quotient and product
    is rounded to binary64, so the rate is the computed quotient to two
    decimal places and not always the exact one: its hundredths are within
    one half of the exact hundredths up to a relative error of [2 ^ -50].
    When no time has elapsed the quotient is an infinity and so is the
    rate.  Over a run of the loop that starts with the counter at zero, the
    snapshots logged are those for 10, 20, ... up to the number of accepted
    records, once each and in this order. *)
Theorem statistics_every_tenth (message : KafkaMessage) (batch : list KafkaMessage)
    (w : World) :
  client w = RUNNING ->
  processedCount (processor w) = 0%Z ->
  (forall w0 : World, snapshot_when_due clock message w0) /\
  let w' := fst (runner clock topic partition batch w) in
  let n := List.length (accepted batch) in
  processedCount (processor w') = Z.of_nat n /\
  exists news,
    snapshots (trace w') = (snapshots (trace w) ++ news)%list /\
    map totalProcessed news = map (fun j => (10 * Z.of_nat j)%Z) (seq 1 (n / 10)) /\
    Forall
      (fun s =>
         exists r,
           (reads w <= r)%nat /\
           snapshot_reports clock (startTime (processor w)) (totalProcessed s) r s)
      news.
Proof.
  intros Hrun Hzero. split.
  - intros w0. apply processChange_snapshot.
  - cbv zeta.
    destruct (runner_state batch w Hrun) as (_ & _ & _ & _ & _ & Hcnt).
    destruct (runner_snapshots batch w Hrun) as (news & Hsn & Htot & Hall).
    split; [ rewrite Hcnt, Hzero; reflexivity | ].
    exists news. split; [ exact Hsn | ].
    split; [ rewrite Htot, Hzero; apply due_counts_from_zero | ].
    eapply Forall_impl; [ | exact Hall ].
    intros s (r & Hr & Hs). exists r. split; [ exact Hr | ].
    rewrite Hs at 2.
    apply (snapshot_reports_intro r
             {| processedCount := totalProcessed s;
                startTime := startTime (processor w) |}).
Qed.

Lemma runner_app (before rest : list KafkaMessage) :
  forall w : World,
    client w = RUNNING ->
    runner clock topic partition (before ++ rest) w =
    runner clock topic partition rest (fst (runner clock topic partition before w)).
Proof.
  induction before as [ | m before IH ]; intros w Hrun.
  - reflexivity.
  - simpl app. rewrite !(runner_cons m _ w Hrun).
    apply IH.
    destruct (step_facts m w) as (_ & Hc & _). congruence.
Qed.

Lemma failure_unparseable (message : KafkaMessage) (bytes : string) (e : Error) :
  value message = Some bytes ->
  JSON_parse (Buffer_toString bytes) = inr e ->
  failure message = Some e.
Proof.
  intros Hv Hp. unfold failure, value_toString. rewrite Hv, Hp. reflexivity.
Qed.

(** C4: when the payload of a message is not parseable JSON, the error is
    caught inside the handling of that message: one error line is logged,
    the record is not counted and no processed record is logged for it, the
    handler returns and the offset of the message is handed back.  The loop
    stays [RUNNING], the messages that follow are consumed from the state
    the skipped one left, and the offset of every message of the batch is
    handed back in order. *)
Theorem malformed_record_skipped (before rest : list KafkaMessage)
    (message : KafkaMessage) (bytes : string) (e : Error) (w : World) :
  client w = RUNNING ->
  value message = Some bytes ->
  JSON_parse (Buffer_toString bytes) = inr e ->
  let w1 := fst (runner clock topic partition before w) in
  let w2 := after_message clock topic partition message w1 in
  let w3 := fst (runner clock topic partition (before ++ message :: rest) w) in
  snd (eachMessage clock topic partition message w1) = Return tt /\
  since w1 w2 =
    [ReceivedLogged (received_info clock topic partition message w1);
     Logged consumer_log ERROR
       ("Error processing database change: " ++ Js.message e)] /\
  processor w2 = processor w1 /\
  client w2 = RUNNING /\
  resolved w2 = (resolved w1 ++ [offset message])%list /\
  snd (runner clock topic partition (before ++ message :: rest) w) = Return tt /\
  w3 = fst (runner clock topic partition rest w2) /\
  client w3 = RUNNING /\
  resolved w3 = (resolved w ++ map offset (before ++ message :: rest))%list /\
  map info_offset (received (trace w3)) =
    (map info_offset (received (trace w2)) ++ map offset rest)%list.
Proof.
  intros Hrun Hv Hp. cbv zeta.
  assert (Hf := failure_unparseable message bytes e Hv Hp).
  destruct (runner_state before w Hrun) as (_ & Hrun1 & _).
  set (w1 := fst (runner clock topic partition before w)) in *.
  destruct (step_facts message w1) as (Hret & Hc & _ & Hres & _ & Hcase).
  rewrite Hf in Hcase. destruct Hcase as [Hproc Htr].
  set (w2 := after_message clock topic partition message w1) in *.
  assert (Hrun2 : client w2 = RUNNING) by congruence.
  destruct (runner_state (before ++ message :: rest) w Hrun) as (Ho & Hc3 & _ & Hres3 & _).
  assert (Hsplit : runner clock topic partition (before ++ message :: rest) w =
                   runner clock topic partition rest w2).
  { rewrite (runner_app before (message :: rest) w Hrun).
    fold w1. rewrite (runner_cons message rest w1 Hrun1). reflexivity. }
  destruct (runner_trace rest w2 Hrun2) as (Hrec & _).
  repeat match goal with |- _ /\ _ => split end;
    try assumption.
  - apply since_app. exact Htr.
  - rewrite Hsplit. reflexivity.
  - rewrite Hsplit. exact Hrec.
Qed.

End LoopFacts.

Lemma statistics_every_tenth_witness :
  (client Sample.running = RUNNING /\
   processedCount (processor Sample.running) = 0%Z) /\
  (forall w0 : World,
     @snapshot_when_due Sample.runtime Sample.clock Sample.admin_message w0) /\
  processedCount
    (processor (fst (@runner Sample.runtime Sample.clock "database-changes" 0
                       Sample.batch Sample.running)))
    = Z.of_nat (List.length (@accepted Sample.runtime Sample.batch)) /\
  exists news,
    snapshots
      (trace (fst (@runner Sample.runtime Sample.clock "database-changes" 0
                     Sample.batch Sample.running)))
      = (snapshots (trace Sample.running) ++ news)%list /\
    map totalProcessed news =
      map (fun j => (10 * Z.of_nat j)%Z)
        (seq 1 (List.length (@accepted Sample.runtime Sample.batch) / 10)) /\
    Forall
      (fun s =>
         exists r,
           (reads Sample.running <= r)%nat /\
           snapshot_reports Sample.clock (startTime (processor Sample.running))
             (totalProcessed s) r s)
      news.
Proof.
  split.
  - split; reflexivity.
  - apply (@statistics_every_tenth Sample.runtime Sample.clock "database-changes" 0%Z
             Sample.admin_message Sample.batch Sample.running); reflexivity.
Defined.

Lemma malformed_record_skipped_witness :
  (client Sample.running = RUNNING /\
   value Sample.garbled_message = Some "not json" /\
   @JSON_parse Sample.runtime (@Buffer_toString Sample.runtime "not json")
     = inr (mkError "SyntaxError" "Unexpected token" None)) /\
  let w1 := fst (@runner Sample.runtime Sample.clock "database-changes" 0
                   (repeat Sample.admin_message 10) Sample.running) in
  let w2 := @after_message Sample.runtime Sample.clock "database-changes" 0
              Sample.garbled_message w1 in
  let w3 := fst (@runner Sample.runtime Sample.clock "database-changes" 0
                   Sample.batch Sample.running) in
  snd (@eachMessage Sample.runtime Sample.clock "database-changes" 0
         Sample.garbled_message w1) = Return tt /\
  since w1 w2 =
    [ReceivedLogged
       (@received_info Sample.runtime Sample.clock "database-changes" 0
          Sample.garbled_message w1);
     Logged consumer_log ERROR
       "Error processing database change: Unexpected token"] /\
  processor w2 = processor w1 /\
  client w2 = RUNNING /\
  resolved w2 = (resolved w1 ++ ["1"])%list /\
  snd (@runner Sample.runtime Sample.clock "database-changes" 0
         Sample.batch Sample.running) = Return tt /\
  w3 = fst (@runner Sample.runtime Sample.clock "database-changes" 0
              [Sample.admin_message] w2) /\
  client w3 = RUNNING /\
  resolved w3 = (resolved Sample.running ++ map offset Sample.batch)%list /\
  map info_offset (received (trace w3)) =
    (map info_offset (received (trace w2)) ++ map offset [Sample.admin_message])%list.
Proof.
  split.
  - repeat split.
  - apply (@malformed_record_skipped Sample.runtime Sample.clock "database-changes" 0%Z
             (repeat Sample.admin_message 10) [Sample.admin_message]
             Sample.garbled_message "not json"
             (mkError "SyntaxError" "Unexpected token" None) Sample.running);
      reflexivity.
Defined.

(** The rate is computed from the elapsed milliseconds, not from the
    rounded uptime: ten records after 1.4 s give an uptime of 1 and a rate of
    428.57 per minute. *)
Example rate_uses_unrounded_uptime :
  let s := @snapshot Sample.runtime (fun _ => 1700%Z) 0
             {| processedCount := 10; startTime := 300 |} in
  uptime s = num_of_Z 1 /\ averageProcessingRate s = binary64 (42857 # 100).
Proof. split; vm_compute; reflexivity. Qed.

(** With no time elapsed the division is by zero and the rate is infinite. *)
Example rate_at_zero_uptime :
  let s := @snapshot Sample.runtime (fun _ => 1700%Z) 0
             {| processedCount := 10; startTime := 1700 |} in
  averageProcessingRate s = PosInf.
Proof. vm_compute. reflexivity. Qed.

(** Fifty records in 12.8 s are 234.375 records per minute.  The quotient
    of 12.8 by 60 is not a binary64 value, the hundredths of the rate come
    out just under 23437.5, and the rate logged is 234.37. *)
Example rate_of_fifty_in_12800 :
  per_minute 50 12800 = Fin (8246337208319999 # 35184372088832) /\
  num_mul (per_minute 50 12800) (num_of_Z 100)
    = Fin (6442450943999999 # 274877906944) /\
  (inject_Z 23437 < 6442450943999999 # 274877906944)%Q /\
  (6442450943999999 # 274877906944 < 234375 # 10)%Q.
Proof. repeat split; vm_compute; reflexivity. Qed.

(** A quotient that is not a tie is rounded the wrong way too: 408859120
    records in 540189019 ms are 45412.894999999998... records per minute,
    nearer to 45412.89, and the rate logged is 45412.9. *)
Example rate_of_a_long_run :
  let s := @snapshot Sample.runtime (fun _ => 540189019%Z) 0
             {| processedCount := 408859120; startTime := 0 |} in
  averageProcessingRate s = binary64 (4541290 # 100) /\
  (inject_Z 408859120 / (inject_Z 540189019 / inject_Z 1000 / inject_Z 60)
   < (4541289 # 100) + (1 # 200))%Q.
Proof. split; vm_compute; reflexivity. Qed.

(** C3, counterexample: the fiftieth record, counted 12.8 s after the
    start, logs a snapshot whose rate is 234.37, which is not the quotient
    50 / (12.8 / 60) = 234.375 rounded to two decimal places; nor is it the
    quotient by the uptime of 13 s that the snapshot reports. *)
Lemma rate_is_not_the_rounded_quotient :
  let w := {| reads := 1; trace := [];
              processor := {| processedCount := 49; startTime := 1000 |};
              client := RUNNING; listening := true; resolved := [] |} in
  let clock := fun _ : nat => 13800%Z in
  exists s,
    snapshots (since w (fst (@processChange Sample.runtime clock Sample.admin_message w)))
      = [s] /\
    totalProcessed s = 50%Z /\
    uptime s = num_of_Z 13 /\
    averageProcessingRate s = binary64 (23437 # 100) /\
    ~ two_decimals
        (inject_Z 50 / (inject_Z (13800 - 1000) / inject_Z 1000 / inject_Z 60))
        (averageProcessingRate s) /\
    ~ two_decimals (inject_Z 50 / (inject_Z 13 / inject_Z 60))
        (averageProcessingRate s).
Proof.
  cbv zeta. eexists.
  split; [ vm_compute; reflexivity | ].
  split; [ reflexivity | ].
  split; [ vm_compute; reflexivity | ].
  split; [ vm_compute; reflexivity | ].
  split.
  - intros (k & Hk & Hlo & Hhi).
    assert (E : (inject_Z 50 / (inject_Z (13800 - 1000) / inject_Z 1000 / inject_Z 60)
                 == 234375 # 1000)%Q) by reflexivity.
    rewrite E in Hlo, Hhi.
    unfold Qdiv in Hlo, Hhi. change (/ inject_Z 100)%Q with (1 # 100) in Hlo, Hhi.
    assert (Hk1 : (23437 < k)%Z).
    { rewrite Zlt_Qlt. change (inject_Z 23437) with (23437 # 1). lra. }
    assert (Hk2 : (k <= 23438)%Z).
    { rewrite Zle_Qle. change (inject_Z 23438) with (23438 # 1). lra. }
    assert (Hk3 : k = 23438%Z) by lia. subst k.
    vm_compute in Hk. discriminate Hk.
  - intros (k & Hk & Hlo & Hhi).
    assert (E : (inject_Z 50 / (inject_Z 13 / inject_Z 60) == 3000 # 13)%Q)
      by reflexivity.
    rewrite E in Hlo, Hhi.
    unfold Qdiv in Hlo, Hhi. change (/ inject_Z 100)%Q with (1 # 100) in Hlo, Hhi.
    assert (Hk1 : (23076 < k)%Z).
    { rewrite Zlt_Qlt. change (inject_Z 23076) with (23076 # 1). lra. }
    assert (Hk2 : (k < 23078)%Z).
    { rewrite Zlt_Qlt. change (inject_Z 23078) with (23078 # 1). lra. }
    assert (Hk3 : k = 23077%Z) by lia. subst k.
    vm_compute in Hk. discriminate Hk.
Qed.

Section ShutdownFacts.
Variable clock : nat -> Z.

(** The start-up path: when the broker accepts the three calls the client
    ends [RUNNING]; when one of them fails the process exits with code 1. *)
Lemma runConsumer_running (w : World) :
  let r := runConsumer clock (inl tt) (inl tt) (inl tt) w in
  snd r = Return tt /\ client (fst r) = RUNNING /\
  processor (fst r) = {| processedCount := 0; startTime := clock (reads w) |}.
Proof. repeat split. Qed.

Lemma runConsumer_connect_failure (e : Error) (sub run : unit + Error) (w : World) :
  snd (runConsumer clock (inr e) sub run w) = Exit 1.
Proof. reflexivity. Qed.

(** C6: on [SIGINT] or [SIGTERM], [gracefulShutdown] takes the client out
    of [RUNNING] and awaits [consumer.disconnect()]; when the disconnect
    succeeds it closes the health server in the same path and the process
    exits with code 0, and when it fails the process exits with code 1.  In
    both cases the exit comes after the disconnect has settled. *)
Theorem shutdown_disconnects_then_exits (signal : Signal)
    (disconnect_result : unit + Error) (w : World) :
  let w' := fst (gracefulShutdown disconnect_result signal w) in
  let received_signal :=
    Logged consumer_log INFO
      ("Received " ++ signal_name signal ++ ", shutting down gracefully...") in
  client w' <> RUNNING /\
  match disconnect_result with
  | inl u =>
      snd (gracefulShutdown disconnect_result signal w) = Exit 0 /\
      since w w' =
        [received_signal; ClientDisconnect (inl u); ServerClose;
         Logged consumer_log INFO "Consumer disconnected successfully"] /\
      client w' = DISCONNECTED /\
      listening w' = false
  | inr e =>
      snd (gracefulShutdown disconnect_result signal w) = Exit 1 /\
      since w w' =
        [received_signal; ClientDisconnect (inr e);
         Logged consumer_log ERROR ("Error during shutdown: " ++ Js.message e)] /\
      client w' = DISCONNECTING /\
      listening w' = listening w
  end.
Proof.
  cbv zeta. destruct disconnect_result as [u | e].
  - split; [ simpl; discriminate | ].
    split; [ reflexivity | ].
    split; [ | split; reflexivity ].
    apply since_app. simpl. rewrite <- !app_assoc. reflexivity.
  - split; [ simpl; discriminate | ].
    split; [ reflexivity | ].
    split; [ | split; reflexivity ].
    apply since_app. simpl. rewrite <- !app_assoc. reflexivity.
Qed.

End ShutdownFacts.

(** The options given to the client: a session timeout of 30000 ms and a
    heartbeat interval of 3000 ms, so that the timeout is ten times the
    interval.  The heartbeats themselves are sent by the client library. *)
Remark session_timeout_margin :
  sessionTimeout consumer = 30000%Z /\
  heartbeatInterval consumer = 3000%Z /\
  (0 < heartbeatInterval consumer)%Z /\
  (sessionTimeout consumer >= 10 * heartbeatInterval consumer)%Z.
Proof. repeat split; simpl; lia. Qed.

End ConsumerProofs.

(* ================================================================= *)
(** ** Properties of the API process *)

Module ApiProofs.
Import Js Eff Api.
Local Open Scope eff_scope.

Lemma new_events (w w' : World) (evs : list Event) :
  trace w' = (trace w ++ evs)%list -> since w w' = evs.
Proof.
  unfold since. intros ->.
  rewrite skipn_app, skipn_all, Nat.sub_diag. reflexivity.
Qed.

Section PublishFacts.
Context {rt : Runtime}.
Variable env : Env.

(** [logDatabaseChange] in one equation: two clock reads, one send, one log
    line, and a normal return whatever the broker answers. *)
Lemma logDatabaseChange_spec (operation table : string) (data userId : JSValue)
    (w : World) :
  let c := captured env (reads w) operation table data userId in
  let request := publish_request c (clock env (S (reads w))) in
  logDatabaseChange env operation table data userId w =
    ({| reads := S (S (reads w));
        trace := (trace w ++
                  [ProducerSend request (broker env request);
                   publish_log c (broker env request)])%list |},
     Return tt).
Proof.
  cbv zeta.
  unfold logDatabaseChange, try_catch, bind, new_Date, Date_now, new_Date,
    producer_send, bind, emit, modify, settle.
  cbn [reads trace].
  unfold captured, publish_request. cbn [Api.table].
  destruct (broker env _) as [u | e]; unfold ret, throw; cbn [reads trace publish_log];
    rewrite <- app_assoc; reflexivity.
Qed.

End PublishFacts.

#[local] Opaque logDatabaseChange.

Ltac settle_oracles :=
  repeat
    (cbn [with_broker clock bcrypt_hash bcrypt_compare jwt_sign db broker
          fst snd reads trace first_row no_rows get_prop negb];
     match goal with
     | |- context [logDatabaseChange ?e ?o ?t ?d ?u ?w] =>
         rewrite (logDatabaseChange_spec e o t d u w)
     | |- context [match bcrypt_hash ?e ?a ?b with _ => _ end] =>
         destruct (bcrypt_hash e a b)
     | |- context [match bcrypt_compare ?e ?a ?b with _ => _ end] =>
         destruct (bcrypt_compare e a b) as [ [ | ] | ]
     | |- context [match db ?e ?a ?b with _ => _ end] =>
         destruct (db e a b) as [ [ | [ | ] ] | ]
     | |- context [get_prop ?a ?b] => is_var a; destruct a
     | |- context [match code ?e with _ => _ end] =>
         destruct (code e)
     | |- context [if ?c then _ else _] => destruct c
     end).

Lemma sends_app (a b : list Event) : sends (a ++ b) = (sends a ++ sends b)%list.
Proof.
  induction a as [ | e a IH ]; [ reflexivity | ].
  destruct e; simpl; rewrite IH; reflexivity.
Qed.

Lemma responses_app (a b : list Event) :
  responses (a ++ b) = (responses a ++ responses b)%list.
Proof.
  induction a as [ | e a IH ]; [ reflexivity | ].
  destruct e; simpl; rewrite IH; reflexivity.
Qed.

Lemma until_response_silent (pre l : list Event) :
  responses pre = [] -> until_response (pre ++ l) = (pre ++ until_response l)%list.
Proof.
  induction pre as [ | e pre IH ]; [ reflexivity | ].
  destruct e; simpl; intros H; try discriminate H; rewrite (IH H); reflexivity.
Qed.

Lemma no_send_in_silent (pre : list Event) (request : SendRequest) (r : unit + Error) :
  sends pre = [] -> ~ In (ProducerSend request r) pre.
Proof.
  induction pre as [ | e pre IH ]; [ intros _ [] | ].
  destruct e; simpl; intros H [Heq | Hin];
    try discriminate Heq; try discriminate H; exact (IH H Hin).
Qed.

Lemma with_broker_same (e : Env) : with_broker e (broker e) = e.
Proof. destruct e. reflexivity. Qed.

Section HandlerFacts.
Context {rt : Runtime}.
Variable env : Env.

(** The events of a write path, for two brokers that may answer
    differently: everything before the publish is the same, and so is the
    response. *)
Lemma handle_shape (b1 b2 : SendRequest -> unit + Error) (p : WritePath)
    (req : Request) (w : World) :
  let r1 := handle (with_broker env b1) p req w in
  let r2 := handle (with_broker env b2) p req w in
  snd r1 = Return tt /\ snd r2 = Return tt /\
  exists pre resp,
    silent pre /\
    ((since w (fst r1) = (pre ++ [Respond resp])%list /\
      since w (fst r2) = (pre ++ [Respond resp])%list) \/
     exists r operation table data userId,
       since w (fst r1) =
         (pre ++ published (with_broker env b1) r operation table data userId resp)%list /\
       since w (fst r2) =
         (pre ++ published (with_broker env b2) r operation table data userId resp)%list).
Proof.
  cbv zeta.
  destruct p; unfold handle, register, login, logout, try_catch, bind, db_execute,
    respond, emit, modify, settle, ret, throw, new_Date, bind.
  all: settle_oracles.
  all: cbn [with_broker clock bcrypt_hash bcrypt_compare jwt_sign db broker
            fst snd reads trace].
  all: split; [ reflexivity | split; [ reflexivity | ] ].
  all: rewrite <- ?app_assoc; cbn [app].
  all: erewrite !new_events by reflexivity.
  all: match goal with
       | |- context [ProducerSend] =>
           match goal with
           | |- exists pre resp, _ /\ ((?l = _ /\ _) \/ _) =>
               exists (removelast (removelast (removelast l)))
           end
       | |- exists pre resp, _ /\ ((?l = _ /\ _) \/ _) =>
           exists (removelast l)
       end.
  all: cbn [removelast].
  all: eexists; split; [ split; reflexivity | ].
  all: first [ left; split; reflexivity
             | right; do 5 eexists; split; reflexivity ].
Qed.

Lemma published_facts (e' : Env) (r : nat) (operation table : string)
    (data userId : JSValue) (resp : Response) :
  let tail := published e' r operation table data userId resp in
  responses tail = [resp] /\
  sends (until_response tail) = sends tail /\
  (forall request e,
     In (ProducerSend request (inr e)) tail ->
     In (LoggerError "Failed to log database change to Kafka:" e) tail).
Proof.
  unfold published. cbv zeta.
  set (c := captured e' r operation table data userId).
  set (request := publish_request c (clock e' (S r))).
  destruct (broker e' request) as [u | e0]; cbn.
  - repeat split. intros q e [H | [H | [H | []]]]; discriminate H.
  - repeat split. intros q e [H | [H | [H | []]]]; try discriminate H.
    injection H as _ ->. right. left. reflexivity.
Qed.

(** C1, corrected: on each write path (register, login, logout) a failed
    [producer.send] is caught and logged inside [logDatabaseChange] and never
    raises into the handler, and the handler writes exactly one response,
    which is the same whatever the broker answers.  The handler does wait
    for the publish: when it publishes, the send has settled and the line
    about its outcome, success or failure, has been logged before the
    response is written, and the response is the last event of the
    request. *)
Theorem publish_failure_swallowed (b1 b2 : SendRequest -> unit + Error)
    (p : WritePath) (req : Request) (w : World) :
  let r1 := handle (with_broker env b1) p req w in
  let r2 := handle (with_broker env b2) p req w in
  snd r1 = Return tt /\
  (forall request e,
     In (ProducerSend request (inr e)) (since w (fst r1)) ->
     In (LoggerError "Failed to log database change to Kafka:" e) (since w (fst r1))) /\
  responses (since w (fst r1)) = responses (since w (fst r2)) /\
  (exists resp, responses (since w (fst r1)) = [resp]) /\
  responds_after_publish (since w (fst r1)) /\
  (exists pre resp,
     silent pre /\
     (since w (fst r1) = (pre ++ [Respond resp])%list \/
      exists request c,
        since w (fst r1) =
          (pre ++ [ProducerSend request (b1 request);
                   match b1 request with
                   | inl _ => LoggerInfo "Database change logged:" (changeLog_obj c)
                   | inr e => LoggerError "Failed to log database change to Kafka:" e
                   end;
                   Respond resp])%list)).
Proof.
  cbv zeta.
  destruct (handle_shape b1 b2 p req w)
    as (Hret & _ & pre & resp & [Hs Hr] & [[H1 H2] | Hpub]).
  - split; [ exact Hret | ]. rewrite H1, H2.
    split.
    { intros request e Hin. exfalso. apply in_app_or in Hin.
      destruct Hin as [Hin | [Hin | []]]; [ | discriminate Hin ].
      exact (no_send_in_silent _ _ _ Hs Hin). }
    split; [ reflexivity | ].
    split; [ exists resp; rewrite responses_app, Hr; reflexivity | ].
    split.
    { unfold responds_after_publish.
      rewrite (until_response_silent _ _ Hr), !sends_app. reflexivity. }
    exists pre, resp. split; [ split; assumption | left; reflexivity ].
  - destruct Hpub as (r & operation & table & data & userId & H1 & H2).
    split; [ exact Hret | ]. rewrite H1, H2.
    destruct (published_facts (with_broker env b1) r operation table data userId resp)
      as (Hresp1 & Hwait1 & Hlog1).
    destruct (published_facts (with_broker env b2) r operation table data userId resp)
      as (Hresp2 & _ & _).
    split.
    { intros request e Hin. apply in_or_app. apply in_app_or in Hin.
      destruct Hin as [Hin | Hin].
      - exfalso. exact (no_send_in_silent _ _ _ Hs Hin).
      - right. exact (Hlog1 request e Hin). }
    split; [ rewrite !responses_app, Hresp1, Hresp2; reflexivity | ].
    split; [ exists resp; rewrite responses_app, Hr, Hresp1; reflexivity | ].
    split.
    { unfold responds_after_publish.
      rewrite (until_response_silent _ _ Hr), !sends_app, Hwait1. reflexivity. }
    exists pre, resp. split; [ split; assumption | right ].
    do 2 eexists. reflexivity.
Qed.

(** C10: when the registration handler publishes (the three fields are
    present, the password is hashed and the [INSERT] succeeds with id [id]),
    it sends one request, for an [INSERT] on [users] whose [userId] is
    [null], the default of the parameter; [id] is in the [data] of the
    record and in the response, nowhere else. *)
Theorem register_publishes_null_userId (req : Request) (w : World) (hashed : string)
    (id : Z) :
  truthy (assoc "username" (req_body req)) = true ->
  truthy (assoc "email" (req_body req)) = true ->
  truthy (assoc "password" (req_body req)) = true ->
  bcrypt_hash env (assoc "password" (req_body req)) 10 = inl hashed ->
  db env "INSERT INTO users (username, email, password) VALUES (?, ?, ?)"
    [assoc "username" (req_body req); assoc "email" (req_body req); JStr hashed]
    = inl (ResultSetHeader id) ->
  let c := {|
    timestamp := toISOString (clock env (reads w));
    operation := "INSERT";
    table := "users";
    data := JObj [("id", JNum (num_of_Z id));
                  ("username", assoc "username" (req_body req));
                  ("email", assoc "email" (req_body req))];
    userId := JNull
  |} in
  let w' := fst (register env req w) in
  sends (since w w') = [publish_request c (clock env (S (reads w)))] /\
  map value (messages (publish_request c (clock env (S (reads w))))) =
    [JSON_stringify
       (JObj [("timestamp", JStr (toISOString (clock env (reads w))));
              ("operation", JStr "INSERT");
              ("table", JStr "users");
              ("data", JObj [("id", JNum (num_of_Z id));
                             ("username", assoc "username" (req_body req));
                             ("email", assoc "email" (req_body req))]);
              ("userId", JNull)])] /\
  responses (since w w') =
    [{| status := 201;
        json := JObj [("message", JStr "User registered successfully");
                      ("userId", JNum (num_of_Z id))] |}].
Proof.
  intros Hu He Hp Hhash Hdb. cbv zeta.
  unfold register. rewrite Hu, He, Hp. cbn [negb orb].
  unfold try_catch, bind, db_execute, respond, emit, modify, settle, ret, throw, bind.
  rewrite Hhash, Hdb. cbn [fst snd reads trace insertId].
  rewrite logDatabaseChange_spec. cbn [fst snd reads trace].
  rewrite <- !app_assoc. cbn [app].
  erewrite new_events by reflexivity.
  unfold captured.
  destruct (broker env _); cbn; repeat split.
Qed.

End HandlerFacts.

(** With the broker down, the registration of [bob] still answers 201, and
    it answers after the failed send and its error line. *)
Example register_bob_broker_down :
  since Sample.idle
    (fst (@register Sample.runtime (Sample.env Sample.broker_down)
            Sample.register_bob Sample.idle))
  = [DbExecute "INSERT INTO users (username, email, password) VALUES (?, ?, ?)"
       [JStr "bob"; JStr "bob@example.com"; JStr "hash"]
       (inl (ResultSetHeader 7));
     ProducerSend
       {| topic := "database-changes";
          messages := [{| key := "users-1700"; value := "json" |}] |}
       (inr (mkError "KafkaJSConnectionError" "Connection error" None));
     LoggerError "Failed to log database change to Kafka:"
       (mkError "KafkaJSConnectionError" "Connection error" None);
     Respond {| status := 201;
                json := JObj [("message", JStr "User registered successfully");
                              ("userId", JNum (num_of_Z 7))] |}].
Proof. vm_compute. reflexivity. Qed.

(** C1, counterexample: as stated the claim fails on the registration path,
    where the handler has waited for the send to settle when it writes the
    response. *)
Lemma register_waits_for_publish :
  ~ responds_without_waiting
      (since Sample.idle
         (fst (@register Sample.runtime (Sample.env Sample.broker_down)
                 Sample.register_bob Sample.idle))).
Proof. unfold responds_without_waiting. vm_compute. discriminate. Qed.

Lemma register_publishes_null_userId_witness :
  (truthy (assoc "username" (req_body Sample.register_bob)) = true /\
   truthy (assoc "email" (req_body Sample.register_bob)) = true /\
   truthy (assoc "password" (req_body Sample.register_bob)) = true /\
   bcrypt_hash (Sample.env Sample.broker_up)
     (assoc "password" (req_body Sample.register_bob)) 10 = inl "hash" /\
   db (Sample.env Sample.broker_up)
     "INSERT INTO users (username, email, password) VALUES (?, ?, ?)"
     [assoc "username" (req_body Sample.register_bob);
      assoc "email" (req_body Sample.register_bob); JStr "hash"]
     = inl (ResultSetHeader 7)) /\
  let c := {|
    timestamp := @toISOString Sample.runtime (Sample.clock 0);
    operation := "INSERT";
    table := "users";
    data := JObj [("id", JNum (num_of_Z 7));
                  ("username", JStr "bob");
                  ("email", JStr "bob@example.com")];
    userId := JNull
  |} in
  let w' := fst (@register Sample.runtime (Sample.env Sample.broker_up)
                   Sample.register_bob Sample.idle) in
  sends (since Sample.idle w') = [@publish_request Sample.runtime c (Sample.clock 1)] /\
  map value (messages (@publish_request Sample.runtime c (Sample.clock 1))) =
    [@JSON_stringify Sample.runtime
       (JObj [("timestamp", JStr (@toISOString Sample.runtime (Sample.clock 0)));
              ("operation", JStr "INSERT");
              ("table", JStr "users");
              ("data", JObj [("id", JNum (num_of_Z 7));
                             ("username", JStr "bob");
                             ("email", JStr "bob@example.com")]);
              ("userId", JNull)])] /\
  responses (since Sample.idle w') =
    [{| status := 201;
        json := JObj [("message", JStr "User registered successfully");
                      ("userId", JNum (num_of_Z 7))] |}].
Proof.
  split.
  - repeat split.
  - apply (@register_publishes_null_userId Sample.runtime
             (Sample.env Sample.broker_up) Sample.register_bob Sample.idle
             "hash" 7%Z); reflexivity.
Defined.

End ApiProofs.

(* ================================================================= *)
(** ** Properties of authentication and of the handlers *)

Module RoutesProofs.
Import Js Eff Api Routes.
Local Open Scope eff_scope.

#[local] Opaque logDatabaseChange.

Lemma split_space_spaceless (s : string) :
  spaceless s = true -> split_space s = [s].
Proof.
  induction s as [ | c rest IH ]; [ reflexivity | ].
  simpl. destruct (Ascii.eqb c " "); simpl; [ discriminate | ].
  intros H. rewrite (IH H). reflexivity.
Qed.

Lemma split_space_first (a b : string) :
  spaceless a = true ->
  split_space (a ++ String " " b) = a :: split_space b.
Proof.
  induction a as [ | c rest IH ]; [ reflexivity | ].
  simpl. destruct (Ascii.eqb c " "); simpl; [ discriminate | ].
  intros H. rewrite (IH H). reflexivity.
Qed.

(** The header that the browser client builds, [Bearer], a space and the
    token, gives the token back when the token has no space in it.  The
    scheme word is not looked at: any other first word does the same. *)
Theorem bearer_token_round_trip (token : string) :
  spaceless token = true ->
  bearer_token (Some (authorization_header token)) = JStr token /\
  forall scheme : string,
    spaceless scheme = true ->
    scheme <> EmptyString ->
    bearer_token (Some (scheme ++ String " " token)) = JStr token.
Proof.
  intros Ht.
  assert (H : forall scheme : string,
             spaceless scheme = true ->
             scheme <> EmptyString ->
             bearer_token (Some (scheme ++ String " " token)) = JStr token).
  { intros scheme Hs Hne. unfold bearer_token.
    replace (truthy (JStr (scheme ++ String " " token))) with true.
    - rewrite (split_space_first _ _ Hs), (split_space_spaceless _ Ht). reflexivity.
    - destruct scheme; [ contradiction | reflexivity ]. }
  split; [ | exact H ].
  apply (H "Bearer"); [ reflexivity | discriminate ].
Qed.

Lemma bearer_token_round_trip_witness :
  spaceless "abc.def.ghi" = true /\
  bearer_token (Some (authorization_header "abc.def.ghi")) = JStr "abc.def.ghi" /\
  forall scheme : string,
    spaceless scheme = true ->
    scheme <> EmptyString ->
    bearer_token (Some (scheme ++ String " " "abc.def.ghi")) = JStr "abc.def.ghi".
Proof.
  split.
  - reflexivity.
  - apply (bearer_token_round_trip "abc.def.ghi"). reflexivity.
Defined.

Lemma new_events_routes (w w' : World) (evs : list Event) :
  trace w' = (trace w ++ evs)%list -> since w w' = evs.
Proof.
  unfold since. intros ->.
  rewrite skipn_app, skipn_all, Nat.sub_diag. reflexivity.
Qed.

Lemma since_same (w : World) : since w w = [].
Proof. apply new_events_routes. rewrite app_nil_r. reflexivity. Qed.

Ltac unfold_route :=
  unfold guarded, authenticateToken, profile, register, login, logout, try_catch,
    bind, db_execute, respond, emit, modify, settle, ret, throw, new_Date, bind.

Ltac read_trace :=
  cbn [fst snd reads trace];
  rewrite <- ?app_assoc; cbn [app];
  first [ rewrite since_same | erewrite new_events_routes by reflexivity ].

Section MiddlewareFacts.
Context {rt : Runtime}.
Variable env : Env.
Variable jwt_verify : JSValue -> JSValue + Error.

Lemma bearer_token_missing (authHeader : option string) :
  (authHeader = None \/
   exists h, authHeader = Some h /\
     (spaceless h = true \/
      exists scheme, spaceless scheme = true /\ h = scheme ++ String " " EmptyString)) ->
  truthy (bearer_token authHeader) = false.
Proof.
  intros [-> | (h & -> & [Hh | (scheme & Hs & ->)])]; [ reflexivity | | ].
  - unfold bearer_token. destruct (truthy (JStr h)) eqn:Htr; [ | exact Htr ].
    rewrite (split_space_spaceless _ Hh). reflexivity.
  - unfold bearer_token.
    destruct (truthy (JStr (scheme ++ String " " EmptyString))) eqn:Htr; [ | exact Htr ].
    rewrite (split_space_first _ _ Hs). reflexivity.
Qed.

(** A request without a usable token is answered 401 before anything is
    verified or looked up: when the header is absent, when it has no space
    in it (a bare token without a scheme word), and when nothing follows the
    space. *)
Theorem authenticateToken_requires_token (authHeader : option string) (req : Request)
    (w : World) :
  (authHeader = None \/
   exists h, authHeader = Some h /\
     (spaceless h = true \/
      exists scheme, spaceless scheme = true /\ h = scheme ++ String " " EmptyString)) ->
  authenticateToken env jwt_verify authHeader req w =
    ({| reads := reads w;
        trace := (trace w ++
                  [Respond {| status := 401;
                              json := error_json "Access token required" |}])%list |},
     Return None).
Proof.
  intros H. unfold authenticateToken.
  rewrite (bearer_token_missing _ H). reflexivity.
Qed.

(** [authenticateToken] calls [next()] only for a token that [jwt.verify]
    accepts and for which the database returns a row matching the decoded
    [userId] and the token; the request then carries that [userId] and no
    response has been written.  In every other case it writes exactly one
    response, 401 or 403, and does not call [next()].  It never throws. *)
Theorem authenticateToken_passes_only_verified (authHeader : option string)
    (req : Request) (w : World) :
  let token := bearer_token authHeader in
  let r := authenticateToken env jwt_verify authHeader req w in
  let evs := since w (fst r) in
  match snd r with
  | Return (Some req') =>
      responses evs = [] /\
      exists decoded userId found,
        truthy token = true /\
        jwt_verify token = inl decoded /\
        get_prop decoded "userId" = inl userId /\
        db env "SELECT * FROM users WHERE id = ? AND token = ?" [userId; token]
          = inl found /\
        no_rows found = false /\
        req' = with_user req userId
  | Return None =>
      exists code, statuses evs = [code] /\ (code = 401 \/ code = 403)%Z
  | _ => False
  end.
Proof.
  cbv zeta. unfold_route.
  destruct (truthy (bearer_token authHeader)) eqn:Htok; cbn [negb].
  2: { read_trace. exists 401%Z. split; [ reflexivity | left; reflexivity ]. }
  destruct (jwt_verify (bearer_token authHeader)) as [decoded | e] eqn:Hv.
  2: { read_trace. exists 403%Z. split; [ reflexivity | right; reflexivity ]. }
  cbn [fst snd].
  destruct (get_prop decoded "userId") as [userId | e] eqn:Hu.
  2: { read_trace. exists 403%Z. split; [ reflexivity | right; reflexivity ]. }
  cbn [fst snd reads trace].
  destruct (db env _ _) as [found | e] eqn:Hdb.
  2: { read_trace. exists 403%Z. split; [ reflexivity | right; reflexivity ]. }
  cbn [fst snd].
  destruct (no_rows found) eqn:Hrows.
  - read_trace. exists 403%Z. split; [ reflexivity | right; reflexivity ].
  - read_trace. split; [ reflexivity | ].
    exists decoded, userId, found. repeat split; assumption.
Qed.

End MiddlewareFacts.

Ltac settle_broker :=
  repeat match goal with
         | |- context [publish_log _ (broker ?e ?q)] => destruct (broker e q)
         end.

Ltac settle_results :=
  repeat
    (cbn [clock bcrypt_hash bcrypt_compare jwt_sign db broker
          fst snd reads trace first_row no_rows get_prop negb];
     match goal with
     | |- context [logDatabaseChange ?e ?o ?t ?d ?u ?w] =>
         rewrite (ApiProofs.logDatabaseChange_spec e o t d u w)
     | |- context [match bcrypt_hash ?e ?a ?b with _ => _ end] =>
         destruct (bcrypt_hash e a b)
     | |- context [match bcrypt_compare ?e ?a ?b with _ => _ end] =>
         destruct (bcrypt_compare e a b) as [ [ | ] | ]
     | |- context [match db ?e ?a ?b with _ => _ end] =>
         destruct (db e a b)
     | |- context [no_rows ?f] => is_var f; destruct f as [ | [ | ] ]
     | |- context [get_prop ?a ?b] => is_var a; destruct a
     | |- context [match code ?e with _ => _ end] =>
         destruct (code e)
     | |- context [if ?c then _ else _] => destruct c
     end).

(** As [settle_results], keeping what the database answered. *)
Ltac settle_results_kept :=
  repeat
    (cbn [clock bcrypt_hash bcrypt_compare jwt_sign db broker
          fst snd reads trace first_row no_rows get_prop negb];
     match goal with
     | |- context [logDatabaseChange ?e ?o ?t ?d ?u ?w] =>
         rewrite (ApiProofs.logDatabaseChange_spec e o t d u w)
     | |- context [match bcrypt_hash ?e ?a ?b with _ => _ end] =>
         destruct (bcrypt_hash e a b)
     | |- context [match bcrypt_compare ?e ?a ?b with _ => _ end] =>
         destruct (bcrypt_compare e a b) as [ [ | ] | ]
     | |- context [match db ?e ?a ?b with _ => _ end] =>
         destruct (db e a b) eqn:?
     | |- context [no_rows ?f] => is_var f; destruct f as [ | [ | ] ]
     | |- context [get_prop ?a ?b] => is_var a; destruct a
     | |- context [match code ?e with _ => _ end] =>
         destruct (code e)
     | |- context [if ?c then _ else _] => destruct c
     end).

Ltac crunch :=
  cbv zeta; unfold handle; unfold_route;
  settle_results; settle_broker;
  cbn [fst snd reads trace publish_log];
  rewrite <- ?app_assoc; cbn [app];
  first [ rewrite since_same | erewrite new_events_routes by reflexivity ];
  cbn [statuses responses sends statements db_errors map status List.length].

Section HandlerEdges.
Context {rt : Runtime}.
Variable env : Env.
Variable jwt_verify : JSValue -> JSValue + Error.

(** Every write path answers exactly once, and it publishes exactly when it
    answers 200 or 201: one request, after database statements that have all
    succeeded.  With 400, 401 or 500 nothing is published. *)
Theorem publish_iff_success (p : WritePath) (req : Request) (w : World) :
  let evs := since w (fst (handle env p req w)) in
  exists code,
    statuses evs = [code] /\
    (((code = 200 \/ code = 201)%Z /\
      List.length (sends evs) = 1%nat /\ db_errors evs = []) \/
     ((code = 400 \/ code = 401 \/ code = 500)%Z /\ sends evs = [])).
Proof.
  destruct p; crunch.
  all: eexists; split; [ reflexivity | ].
  all: first [ left; split; [ first [ left; reflexivity | right; reflexivity ] | ];
               split; reflexivity
             | right; split; [ | reflexivity ];
               first [ left; reflexivity
                     | right; left; reflexivity
                     | right; right; reflexivity ] ].
Qed.

(** C8: [logDatabaseChange] sends one request for the change it is given,
    whatever the broker answers: to the topic [database-changes], with one
    message whose key is the table name, a dash and the value of
    [Date.now()] in decimal, read right after the capture time, and whose
    value is [JSON.stringify] of the record with the fields [timestamp],
    [operation], [table], [data] and [userId] of the change.  A write path
    that answers 200 or 201 has sent exactly this request for its own
    mutation: the [INSERT] on [users] with the new row, the [INSERT] on
    [user_activity] with the activity of the user found, the [UPDATE] on
    [users] with the cleared token; a write path that answers otherwise has
    sent nothing. *)
Theorem published_record_format (p : WritePath) (req : Request) (w : World)
    (operation table : string) (data userId : JSValue) :
  let record := fun (r : nat) (operation table : string) (data userId : JSValue) =>
    {| topic := "database-changes";
       messages :=
         [{| key := table ++ "-" ++ Number_toString (clock env (S r));
             value :=
               JSON_stringify
                 (JObj [("timestamp", JStr (toISOString (clock env r)));
                        ("operation", JStr operation);
                        ("table", JStr table);
                        ("data", data);
                        ("userId",
                         match userId with JUndefined => JNull | given => given end)])
           |}] |} in
  (snd (logDatabaseChange env operation table data userId w) = Return tt /\
   sends (since w (fst (logDatabaseChange env operation table data userId w)))
     = [record (reads w) operation table data userId]) /\
  let evs := since w (fst (handle env p req w)) in
  let username := assoc "username" (req_body req) in
  let email := assoc "email" (req_body req) in
  let password := assoc "password" (req_body req) in
  exists code,
    statuses evs = [code] /\
    if ((code =? 200) || (code =? 201))%Z
    then
      match p with
      | Register =>
          exists hashed result,
            bcrypt_hash env password 10 = inl hashed /\
            db env "INSERT INTO users (username, email, password) VALUES (?, ?, ?)"
              [username; email; JStr hashed] = inl result /\
            sends evs =
              [record (reads w) "INSERT" "users"
                 (JObj [("id", insertId result); ("username", username);
                        ("email", email)])
                 JUndefined]
      | Login =>
          exists found user_id,
            db env "SELECT * FROM users WHERE username = ? OR email = ?"
              [username; username] = inl found /\
            get_prop (first_row found) "id" = inl user_id /\
            sends evs =
              [record (S (reads w)) "INSERT" "user_activity"
                 (JObj [("timestamp", JStr (toISOString (clock env (reads w))));
                        ("userId", user_id);
                        ("action", JStr "LOGIN");
                        ("ipAddress", js_or (req_ip req) (req_remoteAddress req))])
                 user_id]
      | Logout =>
          sends evs =
            [record (S (reads w)) "UPDATE" "users"
               (JObj [("id", req_userId req); ("token", JNull)])
               (req_userId req)]
      end
    else sends evs = [].
Proof.
  cbv zeta. split.
  - rewrite ApiProofs.logDatabaseChange_spec. cbn [fst snd].
    split; [ reflexivity | ].
    erewrite new_events_routes by reflexivity.
    destruct (broker env _); reflexivity.
  - destruct p; unfold handle; unfold_route;
      settle_results_kept; settle_broker;
      cbn [fst snd reads trace publish_log];
      rewrite <- ?app_assoc; cbn [app];
      (first [ rewrite since_same | erewrite new_events_routes by reflexivity ]);
      cbn [statuses responses sends statements db_errors map status List.length].
    all: eexists; split; [ reflexivity | ].
    all: cbn [Z.eqb Pos.eqb orb].
    all: try reflexivity.
    all: do 2 eexists; split; [ first [ reflexivity | eassumption ] | ];
      split; first [ reflexivity | eassumption ].
Qed.

Lemma register_refusal_only_incomplete (req : Request) (w : World) :
  responses (since w (fst (register env req w))) =
    [{| status := 400; json := error_json "All fields are required" |}] ->
  negb (truthy (assoc "username" (req_body req)))
  || negb (truthy (assoc "email" (req_body req)))
  || negb (truthy (assoc "password" (req_body req))) = true.
Proof.
  destruct (negb (truthy (assoc "username" (req_body req)))
            || negb (truthy (assoc "email" (req_body req)))
            || negb (truthy (assoc "password" (req_body req)))) eqn:H;
    [ reflexivity | ].
  unfold register. rewrite H. unfold_route.
  settle_results; settle_broker;
    cbn [fst snd reads trace publish_log];
    rewrite <- ?app_assoc; cbn [app];
    erewrite new_events_routes by reflexivity;
    cbn [responses]; intros Hr; discriminate Hr.
Qed.

(** Registration answers 400 "All fields are required" exactly when
    [username], [email] or [password] is missing or falsy in the body, and
    then it does nothing else: no hashing, no statement, no publish. *)
Theorem register_requires_all_fields (req : Request) (w : World) :
  let evs := since w (fst (register env req w)) in
  let refusal :=
    {| status := 400; json := error_json "All fields are required" |} in
  let incomplete :=
    negb (truthy (assoc "username" (req_body req)))
    || negb (truthy (assoc "email" (req_body req)))
    || negb (truthy (assoc "password" (req_body req))) in
  (incomplete = true -> evs = [Respond refusal]) /\
  (responses evs = [refusal] -> incomplete = true).
Proof.
  cbv zeta. split.
  - intros H. unfold register. rewrite H. unfold_route. read_trace. reflexivity.
  - apply register_refusal_only_incomplete.
Qed.

(** When the hashing or the [INSERT] of a registration fails, the error is
    logged, nothing is published, and the answer is 400 "Username or email
    already exists" if the error carries the code [ER_DUP_ENTRY] and 500
    otherwise. *)
Theorem register_failure_not_published (req : Request) (w : World) (e : Error) :
  let username := assoc "username" (req_body req) in
  let email := assoc "email" (req_body req) in
  let password := assoc "password" (req_body req) in
  truthy username = true ->
  truthy email = true ->
  truthy password = true ->
  (bcrypt_hash env password 10 = inr e \/
   exists hashed,
     bcrypt_hash env password 10 = inl hashed /\
     db env "INSERT INTO users (username, email, password) VALUES (?, ?, ?)"
       [username; email; JStr hashed] = inr e) ->
  let evs := since w (fst (register env req w)) in
  sends evs = [] /\
  In (LoggerError "Registration error:" e) evs /\
  responses evs =
    [if match code e with
        | Some c => String.eqb c "ER_DUP_ENTRY"
        | None => false
        end
     then {| status := 400; json := error_json "Username or email already exists" |}
     else {| status := 500; json := error_json "Internal server error" |}].
Proof.
  cbv zeta. intros Hu He Hp Hfail.
  unfold register. rewrite Hu, He, Hp. cbn [negb orb]. unfold_route.
  destruct Hfail as [Hh | (hashed & Hh & Hdb)].
  - rewrite Hh. cbn [fst snd reads trace].
    destruct (code e) as [c | ]; [ destruct (String.eqb c "ER_DUP_ENTRY") | ];
      read_trace; repeat split; left; reflexivity.
  - rewrite Hh. cbn [fst snd reads trace]. rewrite Hdb. cbn [fst snd reads trace].
    destruct (code e) as [c | ]; [ destruct (String.eqb c "ER_DUP_ENTRY") | ];
      read_trace; repeat split; right; left; reflexivity.
Qed.

(** An unknown user and a wrong password get the same answer, 401 "Invalid
    credentials"; in both cases the only statement is the [SELECT], so no
    token is issued or stored, and nothing is published. *)
Theorem login_invalid_credentials (req : Request) (w : World) :
  let username := assoc "username" (req_body req) in
  let password := assoc "password" (req_body req) in
  let lookup := "SELECT * FROM users WHERE username = ? OR email = ?" in
  truthy username = true ->
  truthy password = true ->
  (db env lookup [username; username] = inl (Rows []) \/
   exists fields rest,
     db env lookup [username; username] = inl (Rows (JObj fields :: rest)) /\
     bcrypt_compare env password (assoc "password" fields) = inl false) ->
  let evs := since w (fst (login env req w)) in
  responses evs = [{| status := 401; json := error_json "Invalid credentials" |}] /\
  statements evs = [lookup] /\
  sends evs = [].
Proof.
  cbv zeta. intros Hu Hp Hcase.
  unfold login. rewrite Hu, Hp. cbn [negb orb]. unfold_route.
  destruct Hcase as [Hdb | (fields & rest & Hdb & Hcmp)].
  - rewrite Hdb. cbn [fst snd reads trace no_rows].
    read_trace. repeat split.
  - rewrite Hdb. cbn [fst snd reads trace no_rows first_row get_prop].
    rewrite Hcmp. cbn [fst snd reads trace negb].
    read_trace. repeat split.
Qed.


(** Login does not undo what it has done: when the token has been stored
    and the [INSERT] of the activity then fails, the answer is 500 and
    nothing is published, although the new token is in the database. *)
Theorem login_no_rollback (req : Request) (w : World) (fields : list (string * JSValue))
    (rest : list JSValue) (stored : DbResult) (e : Error) :
  let username := assoc "username" (req_body req) in
  let password := assoc "password" (req_body req) in
  let clientIP := js_or (req_ip req) (req_remoteAddress req) in
  let user_id := assoc "id" fields in
  let token :=
    jwt_sign env (JObj [("userId", user_id); ("username", assoc "username" fields)]) in
  truthy username = true ->
  truthy password = true ->
  db env "SELECT * FROM users WHERE username = ? OR email = ?" [username; username]
    = inl (Rows (JObj fields :: rest)) ->
  bcrypt_compare env password (assoc "password" fields) = inl true ->
  db env "UPDATE users SET token = ? WHERE id = ?" [JStr token; user_id] = inl stored ->
  db env "INSERT INTO user_activity (user_id, action, ip_address) VALUES (?, ?, ?)"
    [user_id; JStr "LOGIN"; clientIP] = inr e ->
  let evs := since w (fst (login env req w)) in
  In (DbExecute "UPDATE users SET token = ? WHERE id = ?" [JStr token; user_id]
        (inl stored)) evs /\
  responses evs = [{| status := 500; json := error_json "Internal server error" |}] /\
  sends evs = [] /\
  db_errors evs = [e].
Proof.
  cbv zeta. intros Hu Hp Hsel Hcmp Hupd Hins.
  unfold login. rewrite Hu, Hp. cbn [negb orb]. unfold_route.
  rewrite Hsel. cbn [fst snd reads trace no_rows first_row get_prop].
  rewrite Hcmp. cbn [fst snd reads trace negb].
  rewrite Hupd. cbn [fst snd reads trace].
  rewrite Hins. cbn [fst snd reads trace].
  read_trace. repeat split. right. left. reflexivity.
Qed.

(** A logout that answers 200 has cleared the token and recorded the
    activity, in this order, and has published one [UPDATE] on [users] with
    the id and a [null] token as data and the logged-out user as acting
    user.  A logout whose first statement fails runs no other statement. *)
Theorem logout_success (req : Request) (w : World) :
  let evs := since w (fst (logout env req w)) in
  (statuses evs = [200%Z] ->
   statements evs =
     ["UPDATE users SET token = NULL WHERE id = ?";
      "INSERT INTO user_activity (user_id, action, ip_address) VALUES (?, ?, ?)"] /\
   db_errors evs = [] /\
   sends evs =
     [publish_request
        (captured env (S (reads w)) "UPDATE" "users"
           (JObj [("id", req_userId req); ("token", JNull)]) (req_userId req))
        (clock env (S (S (reads w))))]) /\
  (forall e,
     db env "UPDATE users SET token = NULL WHERE id = ?" [req_userId req] = inr e ->
     statements evs = ["UPDATE users SET token = NULL WHERE id = ?"] /\
     statuses evs = [500%Z] /\ sends evs = []).
Proof.
  cbv zeta. split.
  - crunch; intros Hst; try discriminate Hst; repeat split.
  - intros e He. unfold logout. unfold_route. rewrite He.
    read_trace. repeat split.
Qed.

(** The profile handler only reads: it runs one [SELECT], publishes
    nothing, never throws, and answers once: 500 when the statement fails,
    404 when it returns no row, 200 with the first row otherwise. *)
Theorem profile_read_only (req : Request) (w : World) :
  let lookup := "SELECT id, username, email, created_at FROM users WHERE id = ?" in
  let r := profile env req w in
  let evs := since w (fst r) in
  snd r = Return tt /\
  statements evs = [lookup] /\
  sends evs = [] /\
  responses evs =
    [match db env lookup [req_userId req] with
     | inr _ => {| status := 500; json := error_json "Internal server error" |}
     | inl found =>
         if no_rows found
         then {| status := 404; json := error_json "User not found" |}
         else {| status := 200; json := JObj [("user", first_row found)] |}
     end].
Proof.
  cbv zeta. unfold_route.
  destruct (db env _ _) as [found | e]; cbn [fst snd reads trace].
  - destruct (no_rows found); read_trace; repeat split.
  - read_trace. repeat split.
Qed.

(** A guarded route does not reach its handler unless the token is
    accepted: when the token is missing, when [jwt.verify] rejects it, and
    when no row matches it (a token that was never stored or has been
    cleared), the handler runs no statement of its own and publishes
    nothing, and the answer is 401 or 403. *)
Theorem guarded_route_rejects (handler : Request -> M World unit)
    (authHeader : option string) (req : Request) (w : World) :
  let token := bearer_token authHeader in
  (truthy token = false \/
   truthy token = true /\
   ((exists e, jwt_verify token = inr e) \/
    exists decoded userId,
      jwt_verify token = inl decoded /\
      get_prop decoded "userId" = inl userId /\
      db env "SELECT * FROM users WHERE id = ? AND token = ?" [userId; token]
        = inl (Rows []))) ->
  let r := guarded env jwt_verify handler authHeader req w in
  let evs := since w (fst r) in
  r = (fst (authenticateToken env jwt_verify authHeader req w), Return tt) /\
  sends evs = [] /\
  (statements evs = [] \/
   statements evs = ["SELECT * FROM users WHERE id = ? AND token = ?"]) /\
  exists code, statuses evs = [code] /\ (code = 401 \/ code = 403)%Z.
Proof.
  cbv zeta. intros Hcase. unfold_route.
  destruct Hcase as [Htok | (Htok & [(e & Hv) | (decoded & userId & Hv & Hu & Hdb)])].
  - rewrite Htok. cbn [negb fst snd]. read_trace.
    repeat split; [ left; reflexivity | ].
    exists 401%Z. split; [ reflexivity | left; reflexivity ].
  - rewrite Htok, Hv. cbn [negb fst snd]. read_trace.
    repeat split; [ left; reflexivity | ].
    exists 403%Z. split; [ reflexivity | right; reflexivity ].
  - rewrite Htok, Hv. cbn [negb fst snd]. rewrite Hu. cbn [fst snd reads trace].
    rewrite Hdb. cbn [fst snd reads trace no_rows]. read_trace.
    repeat split; [ right; reflexivity | ].
    exists 403%Z. split; [ reflexivity | right; reflexivity ].
Qed.

End HandlerEdges.

Lemma authenticateToken_requires_token_witness :
  (Some "abc.def.ghi" = None \/
   exists h, Some "abc.def.ghi" = Some h /\
     (spaceless h = true \/
      exists scheme, spaceless scheme = true /\ h = scheme ++ String " " EmptyString)) /\
  authenticateToken (Sample.env Sample.broker_up) Sample.jwt_reject
    (Some "abc.def.ghi") Sample.register_bob Sample.idle =
    ({| reads := 0;
        trace := [Respond {| status := 401;
                             json := error_json "Access token required" |}] |},
     Return None).
Proof.
  assert (H : Some "abc.def.ghi" = None \/
              exists h, Some "abc.def.ghi" = Some h /\
                (spaceless h = true \/
                 exists scheme,
                   spaceless scheme = true /\ h = scheme ++ String " " EmptyString)).
  { right. exists "abc.def.ghi". split; [ reflexivity | left; reflexivity ]. }
  split; [ exact H | ].
  exact (authenticateToken_requires_token (Sample.env Sample.broker_up)
           Sample.jwt_reject (Some "abc.def.ghi") Sample.register_bob Sample.idle H).
Defined.

Lemma register_failure_not_published_witness :
  let evs :=
    since Sample.idle
      (fst (@register Sample.runtime Sample.env_taken Sample.register_bob Sample.idle)) in
  (truthy (JStr "bob") = true /\
   truthy (JStr "bob@example.com") = true /\
   truthy (JStr "secret") = true /\
   (bcrypt_hash Sample.env_taken (JStr "secret") 10 = inr Sample.duplicate_entry \/
    exists hashed,
      bcrypt_hash Sample.env_taken (JStr "secret") 10 = inl hashed /\
      db Sample.env_taken
        "INSERT INTO users (username, email, password) VALUES (?, ?, ?)"
        [JStr "bob"; JStr "bob@example.com"; JStr hashed]
        = inr Sample.duplicate_entry)) /\
  sends evs = [] /\
  In (LoggerError "Registration error:" Sample.duplicate_entry) evs /\
  responses evs =
    [{| status := 400; json := error_json "Username or email already exists" |}].
Proof.
  assert (H : bcrypt_hash Sample.env_taken (JStr "secret") 10
                = inr Sample.duplicate_entry \/
              exists hashed,
                bcrypt_hash Sample.env_taken (JStr "secret") 10 = inl hashed /\
                db Sample.env_taken
                  "INSERT INTO users (username, email, password) VALUES (?, ?, ?)"
                  [JStr "bob"; JStr "bob@example.com"; JStr hashed]
                  = inr Sample.duplicate_entry).
  { right. exists "hash". split; reflexivity. }
  cbv zeta. split.
  - repeat split. exact H.
  - exact (@register_failure_not_published Sample.runtime Sample.env_taken
             Sample.register_bob Sample.idle Sample.duplicate_entry
             eq_refl eq_refl eq_refl H).
Defined.

Lemma login_invalid_credentials_witness :
  let lookup := "SELECT * FROM users WHERE username = ? OR email = ?" in
  let evs :=
    since Sample.idle
      (fst (@login Sample.runtime Sample.env_taken Sample.login_alice Sample.idle)) in
  (truthy (JStr "alice") = true /\
   truthy (JStr "secret") = true /\
   (db Sample.env_taken lookup [JStr "alice"; JStr "alice"] = inl (Rows []) \/
    exists fields rest,
      db Sample.env_taken lookup [JStr "alice"; JStr "alice"]
        = inl (Rows (JObj fields :: rest)) /\
      bcrypt_compare Sample.env_taken (JStr "secret") (assoc "password" fields)
        = inl false)) /\
  responses evs = [{| status := 401; json := error_json "Invalid credentials" |}] /\
  statements evs = [lookup] /\
  sends evs = [].
Proof.
  cbv zeta. split.
  - repeat split. left. reflexivity.
  - exact (@login_invalid_credentials Sample.runtime Sample.env_taken
             Sample.login_alice Sample.idle eq_refl eq_refl (or_introl eq_refl)).
Defined.


Lemma login_no_rollback_witness :
  let evs :=
    since Sample.idle
      (fst (@login Sample.runtime (Sample.env_alice true) Sample.login_alice
              Sample.idle)) in
  (db (Sample.env_alice true) "SELECT * FROM users WHERE username = ? OR email = ?"
     [JStr "alice"; JStr "alice"] = inl (Rows [JObj Sample.alice_fields]) /\
   bcrypt_compare (Sample.env_alice true) (JStr "secret") (JStr "hash") = inl true /\
   db (Sample.env_alice true) "UPDATE users SET token = ? WHERE id = ?"
     [JStr "token"; JNum (num_of_Z 3)] = inl (ResultSetHeader 0) /\
   db (Sample.env_alice true)
     "INSERT INTO user_activity (user_id, action, ip_address) VALUES (?, ?, ?)"
     [JNum (num_of_Z 3); JStr "LOGIN"; JStr "10.0.0.1"] = inr Sample.activity_down) /\
  In (DbExecute "UPDATE users SET token = ? WHERE id = ?"
        [JStr "token"; JNum (num_of_Z 3)] (inl (ResultSetHeader 0))) evs /\
  responses evs = [{| status := 500; json := error_json "Internal server error" |}] /\
  sends evs = [] /\
  db_errors evs = [Sample.activity_down].
Proof.
  cbv zeta. split.
  - repeat split.
  - exact (@login_no_rollback Sample.runtime (Sample.env_alice true) Sample.login_alice
             Sample.idle Sample.alice_fields [] (ResultSetHeader 0)
             Sample.activity_down eq_refl eq_refl eq_refl eq_refl eq_refl eq_refl).
Defined.

Lemma guarded_route_rejects_witness :
  let r :=
    guarded (Sample.env Sample.broker_up) Sample.jwt_reject
      (@logout Sample.runtime (Sample.env Sample.broker_up))
      (Some (authorization_header "abc.def.ghi")) Sample.register_bob Sample.idle in
  let evs := since Sample.idle (fst r) in
  (truthy (bearer_token (Some (authorization_header "abc.def.ghi"))) = true /\
   exists e,
     Sample.jwt_reject (bearer_token (Some (authorization_header "abc.def.ghi")))
       = inr e) /\
  r = (fst (authenticateToken (Sample.env Sample.broker_up)
              Sample.jwt_reject (Some (authorization_header "abc.def.ghi"))
              Sample.register_bob Sample.idle), Return tt) /\
  sends evs = [] /\
  (statements evs = [] \/
   statements evs = ["SELECT * FROM users WHERE id = ? AND token = ?"]) /\
  exists code, statuses evs = [code] /\ (code = 401 \/ code = 403)%Z.
Proof.
  cbv zeta. split.
  - split; [ reflexivity | eexists; reflexivity ].
  - apply (guarded_route_rejects (Sample.env Sample.broker_up)
             Sample.jwt_reject
             (@logout Sample.runtime (Sample.env Sample.broker_up))
             (Some (authorization_header "abc.def.ghi")) Sample.register_bob
             Sample.idle).
    right. split; [ reflexivity | left; eexists; reflexivity ].
Defined.

Section GuardedLogout.
Context {rt : Runtime}.
Variable env : Env.
Variable jwt_verify : JSValue -> JSValue + Error.

(** A logout through the guarded route acts on the user of the token: when
    the token is accepted, the statements that clear the token and record
    the activity take their user id from the decoded token, whatever the
    request carried, and the lookup of the middleware comes first. *)
Theorem logout_route_uses_token_identity (authHeader : option string) (req : Request)
    (w : World) (decoded userId : JSValue) (found : DbResult) :
  let token := bearer_token authHeader in
  let lookup := "SELECT * FROM users WHERE id = ? AND token = ?" in
  truthy token = true ->
  jwt_verify token = inl decoded ->
  get_prop decoded "userId" = inl userId ->
  db env lookup [userId; token] = inl found ->
  no_rows found = false ->
  let w1 := {| reads := reads w;
               trace := (trace w ++ [DbExecute lookup [userId; token] (inl found)])%list |} in
  logout_route env jwt_verify authHeader req w = logout env (with_user req userId) w1 /\
  let evs := since w (fst (logout_route env jwt_verify authHeader req w)) in
  exists cleared rest,
    evs = DbExecute lookup [userId; token] (inl found)
          :: DbExecute "UPDATE users SET token = NULL WHERE id = ?" [userId] cleared
          :: rest.
Proof.
  cbv zeta. intros Htok Hv Hu Hdb Hrows.
  assert (Heq : logout_route env jwt_verify authHeader req w =
                logout env (with_user req userId)
                  {| reads := reads w;
                     trace := (trace w ++
                               [DbExecute "SELECT * FROM users WHERE id = ? AND token = ?"
                                  [userId; bearer_token authHeader] (inl found)])%list |}).
  { unfold logout_route, guarded, authenticateToken, try_catch, bind, db_execute,
      respond, emit, modify, settle, ret, throw, bind.
    rewrite Htok, Hv. cbn [negb fst snd]. rewrite Hu. cbn [fst snd reads trace].
    rewrite Hdb. cbn [fst snd reads trace]. rewrite Hrows. reflexivity. }
  split; [ exact Heq | ].
  rewrite Heq. unfold_route. cbn [req_userId with_user reads trace fst snd].
  destruct (db env "UPDATE users SET token = NULL WHERE id = ?" [userId])
    as [cleared | e] eqn:Hupd; cbn [fst snd reads trace].
  - settle_results; settle_broker; cbn [fst snd reads trace publish_log];
      rewrite <- ?app_assoc; cbn [app];
      erewrite new_events_routes by reflexivity;
      do 2 eexists; reflexivity.
  - rewrite <- ?app_assoc; cbn [app].
    erewrite new_events_routes by reflexivity.
    do 2 eexists. reflexivity.
Qed.

End GuardedLogout.

Lemma logout_route_uses_token_identity_witness :
  let header := Some (authorization_header "abc.def.ghi") in
  let token := JStr "abc.def.ghi" in
  let userId := JNum (num_of_Z 3) in
  let lookup := "SELECT * FROM users WHERE id = ? AND token = ?" in
  let found := Rows [JObj Sample.alice_fields] in
  let w1 := {| reads := 0; trace := [DbExecute lookup [userId; token] (inl found)] |} in
  (truthy (bearer_token header) = true /\
   Fixture.jwt_accept (bearer_token header)
     = inl (JObj [("userId", userId); ("username", JStr "alice")]) /\
   get_prop (JObj [("userId", userId); ("username", JStr "alice")]) "userId"
     = inl userId /\
   db Fixture.env_session lookup [userId; bearer_token header] = inl found /\
   no_rows found = false) /\
  @logout_route Sample.runtime Fixture.env_session Fixture.jwt_accept header
    Sample.register_bob Sample.idle
  = @logout Sample.runtime Fixture.env_session (with_user Sample.register_bob userId) w1 /\
  exists cleared rest,
    since Sample.idle
      (fst (@logout_route Sample.runtime Fixture.env_session Fixture.jwt_accept header
              Sample.register_bob Sample.idle))
    = DbExecute lookup [userId; token] (inl found)
      :: DbExecute "UPDATE users SET token = NULL WHERE id = ?" [userId] cleared
      :: rest.
Proof.
  cbv zeta. split.
  - repeat split.
  - apply (@logout_route_uses_token_identity Sample.runtime Fixture.env_session
             Fixture.jwt_accept (Some (authorization_header "abc.def.ghi"))
             Sample.register_bob Sample.idle
             (JObj [("userId", JNum (num_of_Z 3)); ("username", JStr "alice")])
             (JNum (num_of_Z 3)) (Rows [JObj Sample.alice_fields]));
      reflexivity.
Defined.

End RoutesProofs.

(* ================================================================= *)
(** ** Properties of the start and stop of the API process *)

Module ServerProofs.
Import Js Eff Server.
Local Open Scope eff_scope.

Lemma new_events_server (w w' : World) (evs : list Event) :
  trace w' = (trace w ++ evs)%list -> since w w' = evs.
Proof.
  unfold since. intros ->.
  rewrite skipn_app, skipn_all, Nat.sub_diag. reflexivity.
Qed.

Ltac unfold_server :=
  unfold startServer, initializeDatabase, initializeKafka, createTables,
    createDefaultUser, on_SIGINT, db_execute, call, try_catch, bind, emit, modify,
    gets, settle, ret, throw, process_exit, bind.


Ltac read_server :=
  cbn [fst snd trace db];
  rewrite <- ?app_assoc; cbn [app];
  erewrite new_events_server by reflexivity;
  cbn [listens connects_producer pool_statements].

Section LifecycleFacts.
Variable env : Env.



(** The default user is inserted only when the lookup of [admin] succeeds
    and finds no row (and the hashing works): a process that starts again
    on a database that has the user does not insert it a second time.  No
    failure in [createDefaultUser] is thrown to the caller. *)
Theorem createDefaultUser_inserts_once (w : World) :
  let r := createDefaultUser env w in
  let evs := since w (fst r) in
  let insert := "INSERT INTO users (username, email, password) VALUES (?, ?, ?)" in
  snd r = Return tt /\
  (In insert (pool_statements evs) <->
   Api.db (api env) "SELECT * FROM users WHERE username = ?" [JStr "admin"]
     = inl (Api.Rows []) /\
   exists hashed, Api.bcrypt_hash (api env) (JStr "admin123") 10 = inl hashed).
Proof.
  cbv zeta. unfold_server.
  destruct (Api.db (api env) "SELECT * FROM users WHERE username = ?" [JStr "admin"])
    as [ [ header | [ | row rows ] ] | e ] eqn:Hsel;
    cbn [fst snd trace db Api.no_rows].
  - read_server. split; [ reflexivity | ].
    split; [ intros [H | []]; discriminate H | intros [H _]; discriminate H ].
  - destruct (Api.bcrypt_hash (api env) (JStr "admin123") 10) as [hashed | e] eqn:Hh;
      cbn [fst snd trace db].
    + destruct (Api.db (api env)
                  "INSERT INTO users (username, email, password) VALUES (?, ?, ?)" _);
        read_server;
        (split; [ reflexivity | ]);
        (split; [ intros _; split; [ reflexivity | exists hashed; reflexivity ]
                | intros _; right; left; reflexivity ]).
    + read_server. split; [ reflexivity | ].
      split; [ intros [H | []]; discriminate H
             | intros [_ [hashed H]]; discriminate H ].
  - read_server. split; [ reflexivity | ].
    split; [ intros [H | []]; discriminate H | intros [H _]; discriminate H ].
  - read_server. split; [ reflexivity | ].
    split; [ intros [H | []]; discriminate H | intros [H _]; discriminate H ].
Qed.

(** On [SIGINT] the producer is disconnected first and the pool, if it
    exists, is closed after it; the exit code is 0 when both succeed.  When
    the producer fails to disconnect the pool is not closed and the exit
    code is 1, as it is when closing the pool fails. *)
Theorem on_SIGINT_closes_in_order (w : World) :
  let r := on_SIGINT env w in
  let evs := since w (fst r) in
  let notice := LoggerInfo "Shutting down gracefully..." in
  match producer_disconnect env with
  | inr e =>
      snd r = Exit 1 /\
      evs = [notice; ProducerDisconnect (inr e);
             LoggerError "Error during shutdown:" e]
  | inl u =>
      if db w then
        match pool_end env with
        | inl u' =>
            snd r = Exit 0 /\
            evs = [notice; ProducerDisconnect (inl u); PoolEnd (inl u')]
        | inr e =>
            snd r = Exit 1 /\
            evs = [notice; ProducerDisconnect (inl u); PoolEnd (inr e);
                   LoggerError "Error during shutdown:" e]
        end
      else snd r = Exit 0 /\ evs = [notice; ProducerDisconnect (inl u)]
  end.
Proof.
  cbv zeta. unfold_server.
  destruct (producer_disconnect env) as [u | e]; cbn [fst snd trace db].
  - destruct (db w); [ destruct (pool_end env) | ];
      cbn [fst snd trace db]; (split; [ reflexivity | ]);
      rewrite <- ?app_assoc; cbn [app];
      erewrite new_events_server by reflexivity; reflexivity.
  - split; [ reflexivity | ].
    rewrite <- ?app_assoc; cbn [app].
    erewrite new_events_server by reflexivity. reflexivity.
Qed.

End LifecycleFacts.

End ServerProofs.

(* ================================================================= *)
(** ** More properties of the worker process *)

Module ConsumerEdges.
Import Js Eff Consumer ConsumerProofs.
Local Open Scope eff_scope.

Section StartFacts.
Variable clock : nat -> Z.

(** [runConsumer] asks for the connection, the subscription to
    [database-changes] and the start of the loop in this order and stops at
    the first call that fails: it logs the error and the process exits with
    code 1, with the client not [RUNNING] and the later calls not made.
    When the three calls succeed it returns with the client [RUNNING] and a
    fresh processor whose counter is zero. *)
Theorem runConsumer_starts_or_exits (connect subscribe run : unit + Error) (w : World) :
  let r := runConsumer clock connect subscribe run w in
  let evs := since w (fst r) in
  let fresh := {| processedCount := 0; startTime := clock (reads w) |} in
  processor (fst r) = fresh /\
  match connect, subscribe, run with
  | inr e, _, _ =>
      snd r = Exit 1 /\ client (fst r) = DISCONNECTED /\
      evs = [ClientConnect connect;
             Logged consumer_log ERROR ("Consumer error: " ++ Js.message e)]
  | inl _, inr e, _ =>
      snd r = Exit 1 /\ client (fst r) = CONNECTING /\
      evs = [ClientConnect connect;
             Logged kafka_log INFO "Consumer connected to Kafka";
             ClientSubscribe "database-changes" subscribe;
             Logged consumer_log ERROR ("Consumer error: " ++ Js.message e)]
  | inl _, inl _, inr e =>
      snd r = Exit 1 /\ client (fst r) = SUBSCRIBED /\
      evs = [ClientConnect connect;
             Logged kafka_log INFO "Consumer connected to Kafka";
             ClientSubscribe "database-changes" subscribe;
             Logged kafka_log INFO "Subscribed to database-changes topic";
             ClientRun run;
             Logged consumer_log ERROR ("Consumer error: " ++ Js.message e)]
  | inl _, inl _, inl _ =>
      snd r = Return tt /\ client (fst r) = RUNNING /\
      evs = [ClientConnect connect;
             Logged kafka_log INFO "Consumer connected to Kafka";
             ClientSubscribe "database-changes" subscribe;
             Logged kafka_log INFO "Subscribed to database-changes topic";
             ClientRun run;
             Logged consumer_log INFO
               "Kafka consumer is running and waiting for messages..."]
  end.
Proof.
  cbv zeta. split; [ destruct connect, subscribe, run; reflexivity | ].
  destruct connect as [u | e]; [ destruct subscribe as [u' | e];
                                 [ destruct run as [u'' | e] | ] | ];
    (split; [ reflexivity | split; [ reflexivity | ] ]);
    apply since_app; cbn; rewrite <- ?app_assoc; reflexivity.
Qed.

End StartFacts.

Section MessageFacts.
Context {rt : Runtime}.
Variable clock : nat -> Z.


(** A record whose [timestamp] makes an Invalid Date, as a missing
    [timestamp] does, is still logged and counted; its [processingLatency]
    is [NaN], which the clamp at zero does not change. *)
Theorem record_without_date_logged (message : KafkaMessage) (bytes : string)
    (changeData : JSValue) (w : World) :
  value message = Some bytes ->
  JSON_parse (Buffer_toString bytes) = inl changeData ->
  readable changeData = true ->
  new_Date_of (field changeData "timestamp") = inl None ->
  let w' := fst (processChange clock message w) in
  exists p,
    processed (since w w') = [p] /\
    processingLatency p = NaN /\
    originalTimestamp p = field changeData "timestamp" /\
    processedCount (processor w') = (processedCount (processor w) + 1)%Z.
Proof.
  intros Hv Hp Hr Hdate. cbv zeta.
  destruct (new_Date_of_date _ _ Hdate) as [Hd Hd'].
  rewrite (processed_readable clock message bytes changeData w Hv Hp Hr Hd).
  rewrite (processChange_readable clock message bytes changeData w Hv Hp Hr Hd).
  exists (decorated clock w changeData).
  split; [ reflexivity | ].
  split; [ cbn; rewrite Hd'; reflexivity | ].
  split; reflexivity.
Qed.

(** A record whose [timestamp] has no primitive, an object with a property
    [toString] of its own or an array that holds one, is refused although
    it is JSON: [new Date] throws a [TypeError] inside the [try], after the
    two clock reads of the record, so that one error line is logged, no
    processed record is, and the record is not counted. *)
Theorem record_without_primitive_refused (message : KafkaMessage) (bytes : string)
    (changeData : JSValue) (w : World) :
  value message = Some bytes ->
  JSON_parse (Buffer_toString bytes) = inl changeData ->
  readable changeData = true ->
  no_primitive (field changeData "timestamp") = true ->
  let r := processChange clock message w in
  snd r = Return tt /\
  since w (fst r) =
    [Logged consumer_log ERROR
       "Error processing database change: Cannot convert object to primitive value"] /\
  processor (fst r) = processor w /\
  reads (fst r) = (2 + reads w)%nat.
Proof.
  intros Hv Hp Hr Hd. cbv zeta.
  destruct (failure_no_primitive message bytes changeData Hv Hp Hr Hd) as [Hf Hreads].
  rewrite (processChange_failure clock message _ w Hf). cbn [fst snd].
  split; [ reflexivity | ].
  split; [ apply since_app; reflexivity | ].
  split; [ reflexivity | ].
  cbn [reads]. rewrite Hreads. reflexivity.
Qed.

(** When the clock has not moved since the processor was started, the
    snapshot divides by an uptime of zero: the rate it reports is plus
    infinity, not a number of records per minute. *)
Theorem log_stats_zero_uptime (w : World) :
  (0 < processedCount (processor w))%Z ->
  clock (S (S (reads w))) = startTime (processor w) ->
  exists s,
    since w (fst (log_stats clock w)) = [StatsLogged s] /\
    totalProcessed s = processedCount (processor w) /\
    averageProcessingRate s = PosInf.
Proof.
  intros Hc Hz.
  eexists. split; [ apply since_app; reflexivity | ].
  split; [ reflexivity | ].
  cbn [averageProcessingRate]. cbn [reads processor set_reads].
  rewrite Hz. unfold date_sub. rewrite Z.sub_diag.
  replace (num_div (num_div (num_of_Z 0) (num_of_Z 1000)) (num_of_Z 60))
    with (Fin 0) by (vm_compute; reflexivity).
  unfold num_of_Z at 1. unfold num_div at 2.
  change (Qeq_bool 0 0) with true. cbv iota.
  unfold Qsign_inf.
  destruct (Qlt_le_dec 0 (inject_Z (processedCount (processor w)))) as [_ | Hle].
  - reflexivity.
  - exfalso. change 0%Q with (inject_Z 0) in Hle.
    rewrite <- Zle_Qle in Hle. lia.
Qed.

(** The uptime of a snapshot is the time elapsed since the start of the
    processor to the nearest second, a half going upwards, as long as the
    elapsed time is not negative and below [2 ^ 53] ms: the rounding of the
    quotient by 1000 to binary64 never moves it across a half. *)
Theorem log_stats_uptime_nearest_second (w : World) :
  let elapsed := (clock (S (reads w)) - startTime (processor w))%Z in
  (0 <= elapsed < 2 ^ 53)%Z ->
  exists s u,
    since w (fst (log_stats clock w)) = [StatsLogged s] /\
    uptime s = num_of_Z u /\
    (1000 * u - 500 <= elapsed < 1000 * u + 500)%Z.
Proof.
  cbv zeta. intros He.
  eexists. exists ((clock (S (reads w)) - startTime (processor w) + 500) / 1000)%Z.
  split; [ apply since_app; reflexivity | ].
  split.
  - cbn [uptime]. cbn [reads processor set_reads]. unfold date_sub.
    apply (NumberProofs.seconds_nearest _ He).
  - assert (Hk := Z.div_mod (clock (S (reads w)) - startTime (processor w) + 500) 1000
                    ltac:(lia)).
    assert (Hr := Z.mod_pos_bound
                    (clock (S (reads w)) - startTime (processor w) + 500) 1000
                    ltac:(lia)).
    lia.
Qed.


End MessageFacts.

Lemma log_stats_uptime_nearest_second_witness :
  (0 <= Sample.clock (S (reads Fixture.ten_counted))
        - startTime (processor Fixture.ten_counted) < 2 ^ 53)%Z /\
  exists s u,
    since Fixture.ten_counted
      (fst (@log_stats Sample.runtime Sample.clock Fixture.ten_counted))
      = [StatsLogged s] /\
    uptime s = num_of_Z u /\
    (1000 * u - 500
     <= Sample.clock (S (reads Fixture.ten_counted))
        - startTime (processor Fixture.ten_counted)
     < 1000 * u + 500)%Z.
Proof.
  split.
  - vm_compute. split; [ discriminate | reflexivity ].
  - apply (@log_stats_uptime_nearest_second Sample.runtime Sample.clock
             Fixture.ten_counted).
    vm_compute. split; [ discriminate | reflexivity ].
Defined.


Lemma record_without_date_logged_witness :
  (value Fixture.empty_object_message = Some "{}" /\
   @JSON_parse Fixture.echo (@Buffer_toString Fixture.echo "{}") = inl (JObj []) /\
   readable (JObj []) = true /\
   @new_Date_of Fixture.echo (field (JObj []) "timestamp") = inl None) /\
  exists p,
    processed
      (since Sample.running
         (fst (@processChange Fixture.echo Sample.clock Fixture.empty_object_message
                 Sample.running))) = [p] /\
    processingLatency p = NaN /\
    originalTimestamp p = field (JObj []) "timestamp" /\
    processedCount
      (processor
         (fst (@processChange Fixture.echo Sample.clock Fixture.empty_object_message
                 Sample.running)))
      = (processedCount (processor Sample.running) + 1)%Z.
Proof.
  split.
  - repeat split.
  - apply (@record_without_date_logged Fixture.echo Sample.clock
             Fixture.empty_object_message "{}" (JObj []) Sample.running);
      reflexivity.
Defined.

Lemma record_without_primitive_refused_witness :
  (value Fixture.empty_object_message = Some "{}" /\
   @JSON_parse Fixture.literal (@Buffer_toString Fixture.literal "{}")
     = inl Fixture.opaque_record /\
   readable Fixture.opaque_record = true /\
   no_primitive (field Fixture.opaque_record "timestamp") = true) /\
  let r := @processChange Fixture.literal Sample.clock Fixture.empty_object_message
             Sample.running in
  snd r = Return tt /\
  since Sample.running (fst r) =
    [Logged consumer_log ERROR
       "Error processing database change: Cannot convert object to primitive value"] /\
  processor (fst r) = processor Sample.running /\
  reads (fst r) = (2 + reads Sample.running)%nat.
Proof.
  split.
  - repeat split.
  - apply (@record_without_primitive_refused Fixture.literal Sample.clock
             Fixture.empty_object_message "{}" Fixture.opaque_record Sample.running);
      reflexivity.
Defined.

Lemma log_stats_zero_uptime_witness :
  ((0 < processedCount (processor Fixture.just_started))%Z /\
   Sample.clock (S (S (reads Fixture.just_started)))
     = startTime (processor Fixture.just_started)) /\
  exists s,
    since Fixture.just_started
      (fst (@log_stats Sample.runtime Sample.clock Fixture.just_started))
      = [StatsLogged s] /\
    totalProcessed s = processedCount (processor Fixture.just_started) /\
    averageProcessingRate s = PosInf.
Proof.
  split.
  - split; reflexivity.
  - apply (@log_stats_zero_uptime Sample.runtime Sample.clock Fixture.just_started);
      reflexivity.
Defined.

End ConsumerEdges.

(* ================================================================= *)
(** ** Properties across the processes *)

Module PipelineProofs.
Import Js Eff.
Local Open Scope eff_scope.

Section EndToEnd.
Context {rt : Runtime}.
Variable clock : nat -> Z.

(** What [logDatabaseChange] publishes is what the worker logs: when
    [JSON.parse] reads back what [JSON.stringify] wrote, a record of the
    request sent for a change, delivered to [processChange], is logged once
    with the [operation], [table], [data] and [userId] of the change
    unchanged, its [timestamp] as [originalTimestamp], and a latency
    measured from that timestamp. *)
Theorem published_record_consumed (c : Api.ChangeLog) (now : Z) (offset : string)
    (w : Consumer.World) :
  JSON_parse (Buffer_toString (JSON_stringify (Api.changeLog_obj c)))
    = inl (Api.changeLog_obj c) ->
  Forall
    (fun record =>
       let w' := fst (Consumer.processChange clock (Pipeline.delivered record offset) w) in
       exists p,
         Consumer.processed (Consumer.since w w') = [p] /\
         Consumer.operation p = JStr (Api.operation c) /\
         Consumer.table p = JStr (Api.table c) /\
         Consumer.data p = Api.data c /\
         Consumer.userId p = Api.userId c /\
         Consumer.originalTimestamp p = JStr (Api.timestamp c) /\
         Consumer.processedBy p = "kafka-consumer" /\
         forall t,
           Date_of (JStr (Api.timestamp c)) = Some t ->
           Consumer.processingLatency p =
             num_of_Z (Z.max 0 (clock (S (Consumer.reads w)) - t)))
    (Api.messages (Api.publish_request c now)).
Proof.
  intros Hround. unfold Api.publish_request. cbn [Api.messages].
  constructor; [ | constructor ]. cbv zeta.
  assert (Hv : Consumer.value
                 (Pipeline.delivered
                    {| Api.key := Api.table c ++ "-" ++ Number_toString now;
                       Api.value := JSON_stringify (Api.changeLog_obj c) |} offset)
               = Some (JSON_stringify (Api.changeLog_obj c))) by reflexivity.
  rewrite (ConsumerProofs.processed_readable clock _ _ _ w Hv Hround eq_refl eq_refl).
  eexists. split; [ reflexivity | ].
  repeat split.
  intros t Ht. cbn.
  change (Date_of (JStr (Api.timestamp c)) = Some t) in Ht.
  unfold Consumer.field, Api.changeLog_obj. cbn [assoc String.eqb Ascii.eqb Bool.eqb].
  rewrite Ht. unfold date_sub. apply ConsumerProofs.Math_max_clamp.
Qed.

End EndToEnd.

Section Forms.
Context {rt : Runtime} {browser : Frontend.Browser}.
Variable env : Api.Env.

(** A registration form that passes [validateForm] is never refused by the
    API as incomplete: the three fields it posts are non-empty strings, so
    the handler goes on to hash the password.  This needs only that
    trimming the empty string gives the empty string. *)
Theorem validated_registration_is_complete (formData : Frontend.RegisterForm)
    (ip : JSValue) (w : Api.World) :
  Frontend.String_trim EmptyString = EmptyString ->
  Frontend.validateRegister formData = inl tt ->
  let req := Frontend.post (Frontend.register_body formData) ip in
  truthy (assoc "username" (Api.req_body req)) = true /\
  truthy (assoc "email" (Api.req_body req)) = true /\
  truthy (assoc "password" (Api.req_body req)) = true /\
  Api.responses (Api.since w (fst (Api.register env req w))) <>
    [{| Api.status := 400; Api.json := Api.error_json "All fields are required" |}].
Proof.
  intros Htrim Hvalid. cbv zeta.
  unfold Frontend.validateRegister, Frontend.empty in Hvalid.
  destruct (String.eqb_spec (Frontend.String_trim (Frontend.username formData)) EmptyString)
    as [ | Hu ]; [ discriminate Hvalid | ].
  destruct (Nat.ltb _ 3); [ discriminate Hvalid | ].
  destruct (String.eqb_spec (Frontend.String_trim (Frontend.email formData)) EmptyString)
    as [ | He ]; [ discriminate Hvalid | ].
  destruct (negb (Frontend.emailRegex_test _)); [ discriminate Hvalid | ].
  destruct (String.eqb_spec (Frontend.password formData) EmptyString)
    as [ | Hp ]; [ discriminate Hvalid | ].
  clear Hvalid.
  assert (Hu' : truthy (JStr (Frontend.username formData)) = true).
  { cbn. destruct (String.eqb_spec (Frontend.username formData) EmptyString) as [E | ];
      [ rewrite E in Hu; contradiction | reflexivity ]. }
  assert (He' : truthy (JStr (Frontend.email formData)) = true).
  { cbn. destruct (String.eqb_spec (Frontend.email formData) EmptyString) as [E | ];
      [ rewrite E in He; contradiction | reflexivity ]. }
  assert (Hp' : truthy (JStr (Frontend.password formData)) = true).
  { cbn. destruct (String.eqb_spec (Frontend.password formData) EmptyString) as [E | ];
      [ contradiction | reflexivity ]. }
  split; [ exact Hu' | split; [ exact He' | split; [ exact Hp' | ] ] ].
  intros Hresp.
  assert (Hback := RoutesProofs.register_refusal_only_incomplete env
                     (Frontend.post (Frontend.register_body formData) ip) w Hresp).
  cbn [Api.req_body Frontend.post Frontend.register_body assoc String.eqb Ascii.eqb
       Bool.eqb] in Hback.
  rewrite Hu', He', Hp' in Hback. discriminate Hback.
Qed.

End Forms.

Lemma published_record_consumed_witness :
  @JSON_parse Fixture.echo
    (@Buffer_toString Fixture.echo
       (@JSON_stringify Fixture.echo (Api.changeLog_obj Fixture.bob_change)))
    = inl (Api.changeLog_obj Fixture.bob_change) /\
  Forall
    (fun record =>
       exists p,
         Consumer.processed
           (Consumer.since Sample.running
              (fst (@Consumer.processChange Fixture.echo Sample.clock
                      (Pipeline.delivered record "0") Sample.running))) = [p] /\
         Consumer.operation p = JStr "INSERT" /\
         Consumer.table p = JStr "users" /\
         Consumer.data p = Api.data Fixture.bob_change /\
         Consumer.userId p = JNull /\
         Consumer.originalTimestamp p = JStr "1000" /\
         Consumer.processedBy p = "kafka-consumer" /\
         forall t,
           @Date_of Fixture.echo (JStr "1000") = Some t ->
           Consumer.processingLatency p =
             num_of_Z (Z.max 0 (Sample.clock 2 - t)))
    (Api.messages (@Api.publish_request Fixture.echo Fixture.bob_change 1700)).
Proof.
  split.
  - reflexivity.
  - apply (@published_record_consumed Fixture.echo Sample.clock Fixture.bob_change
             1700%Z "0" Sample.running).
    reflexivity.
Defined.

Lemma validated_registration_is_complete_witness :
  (@Frontend.String_trim Fixture.browser EmptyString = EmptyString /\
   @Frontend.validateRegister Fixture.browser Fixture.form_bob = inl tt) /\
  truthy (JStr "bob") = true /\
  truthy (JStr "bob@example.com") = true /\
  truthy (JStr "secret") = true /\
  Api.responses
    (Api.since Sample.idle
       (fst (@Api.register Sample.runtime (Sample.env Sample.broker_up)
               (Frontend.post (Frontend.register_body Fixture.form_bob)
                  (JStr "10.0.0.1"))
               Sample.idle))) <>
    [{| Api.status := 400; Api.json := Api.error_json "All fields are required" |}].
Proof.
  split.
  - split; reflexivity.
  - apply (@validated_registration_is_complete Sample.runtime Fixture.browser
             (Sample.env Sample.broker_up) Fixture.form_bob (JStr "10.0.0.1")
             Sample.idle); reflexivity.
Defined.

End PipelineProofs.
